(** * ID-card field extraction: a shallow embedding of
      [services/id_card_service.py] and of the batch endpoint of
      [apis/id_card_api.py], with the properties of the specification.

    Conventions of the embedding.
    - A Python [str] is a [string] whose characters are the code points
      U+0000..U+00FF; the character classes below are CPython's Unicode
      classes restricted to that range.
    - Numbers are rationals ([Q]); there is no NaN and no infinity.  The
      two places where the source rounds a binary floating-point number
      to decide its answer are modelled with their rounding
      ([Float.round_float], to nearest, ties to even, on an unbounded
      exponent range): the [float32] areas that [max] compares in
      [detect_id_card], and [round(x, 4)] on the [np.float64] average.
      The sums and means of coordinates and confidences are carried out
      exactly.
    - A call that may raise returns a [result]: [Ok v] or [Raise e]. *)

From Stdlib Require Import List String Ascii Bool Arith ZArith QArith Qround.
From Stdlib Require Import Qabs Qpower.
From Stdlib Require Import Lia Lqa Permutation Sorted DecimalString DecimalNat.
Import ListNotations.

Open Scope string_scope.
Open Scope list_scope.
Open Scope nat_scope.

(* ------------------------------------------------------------------ *)
(** ** Exceptions *)

(** A Python exception: its class name and its message ([str(e)]). *)
Inductive exn : Type :=
| PyExn (cls : string) (msg : string).

Definition str_exn (e : exn) : string :=
  match e with PyExn _ msg => msg end.

Inductive result (A : Type) : Type :=
| Ok (a : A)
| Raise (e : exn).
Arguments Ok {A} a.
Arguments Raise {A} e.

Definition bind {A B : Type} (r : result A) (k : A -> result B) : result B :=
  match r with
  | Ok a => k a
  | Raise e => Raise e
  end.

Notation "x <- r ;; k" := (bind r (fun x => k))
  (at level 61, r at next level, right associativity).

Definition IndexError : exn := PyExn "IndexError" "list index out of range".

(** [l[i]] on a Python list, for a non-negative constant index. *)
Definition getitem {A : Type} (l : list A) (i : nat) : result A :=
  match nth_error l i with
  | Some a => Ok a
  | None => Raise IndexError
  end.

(** A list comprehension whose body may raise: the first failure aborts it. *)
Fixpoint comprehension {A B : Type} (f : A -> result B) (l : list A)
  : result (list B) :=
  match l with
  | [] => Ok []
  | a :: l' => b <- f a ;; bs <- comprehension f l' ;; Ok (b :: bs)
  end.

(* ------------------------------------------------------------------ *)
(** ** Python strings *)

Module PyStr.

Definition ord (c : ascii) : nat := nat_of_ascii c.

Definition between (lo hi n : nat) : bool := (lo <=? n) && (n <=? hi).

(** [str.isspace] on one character: TAB..CR, FS..US, space, NEL, NBSP. *)
Definition isspace (c : ascii) : bool :=
  let n := ord c in
  between 9 13 n || between 28 32 n || (n =? 133) || (n =? 160).

(** Decimal digits, the class [\d] of [re]. *)
Definition isdecimal (c : ascii) : bool := between 48 57 (ord c).

(** [str.isalnum] on one character. *)
Definition isalnum (c : ascii) : bool :=
  let n := ord c in
  between 48 57 n || between 65 90 n || between 97 122 n
  || (n =? 170) || (n =? 178) || (n =? 179) || (n =? 181)
  || (n =? 185) || (n =? 186) || between 188 190 n
  || between 192 214 n || between 216 246 n || between 248 255 n.

(** Word characters, the class [\w] of [re]: alphanumerics and [_]. *)
Definition isword (c : ascii) : bool := isalnum c || (ord c =? 95).

Definition lower_char (c : ascii) : ascii :=
  let n := ord c in
  if between 65 90 n || (between 192 222 n && negb (n =? 215))
  then ascii_of_nat (n + 32)
  else c.

(** [s.lower()] *)
Fixpoint lower (s : string) : string :=
  match s with
  | EmptyString => EmptyString
  | String c s' => String (lower_char c) (lower s')
  end.

Fixpoint lstrip (s : string) : string :=
  match s with
  | EmptyString => EmptyString
  | String c s' => if isspace c then lstrip s' else s
  end.

Fixpoint rstrip (s : string) : string :=
  match s with
  | EmptyString => EmptyString
  | String c s' =>
      match rstrip s' with
      | EmptyString => if isspace c then EmptyString else String c EmptyString
      | r => String c r
      end
  end.

(** [s.strip()]: leading and trailing whitespace removed. *)
Definition strip (s : string) : string := rstrip (lstrip s).

(** [s.startswith(p)] *)
Fixpoint startswith (p s : string) : bool :=
  match p with
  | EmptyString => true
  | String a p' =>
      match s with
      | EmptyString => false
      | String b s' => Ascii.eqb a b && startswith p' s'
      end
  end.

(** [sub in s] *)
Fixpoint contains (sub s : string) : bool :=
  startswith sub s
  || match s with
     | EmptyString => false
     | String _ s' => contains sub s'
     end.

(** Scan of [s.replace(old, new)] for a non-empty [old]: [skip] counts the
    characters of a matched occurrence still to be dropped. *)
Fixpoint replace_from (old new : string) (skip : nat) (s : string) : string :=
  match s with
  | EmptyString => EmptyString
  | String c s' =>
      match skip with
      | S k => replace_from old new k s'
      | O =>
          if startswith old s
          then new ++ replace_from old new (String.length old - 1) s'
          else String c (replace_from old new 0 s')
      end
  end.

Fixpoint interleave (new s : string) : string :=
  match s with
  | EmptyString => EmptyString
  | String c s' => String c (new ++ interleave new s')
  end.

(** [s.replace(old, new)]: the non-overlapping occurrences of [old], found
    from the left, are replaced by [new]. *)
Definition replace (old new s : string) : string :=
  match old with
  | EmptyString => new ++ interleave new s
  | _ => replace_from old new 0 s
  end.

(** [bool(s)]: a string is true when it is not empty. *)
Definition truthy (s : string) : bool :=
  match s with
  | EmptyString => false
  | _ => true
  end.

(** [sep.join(l)] *)
Fixpoint join (sep : string) (l : list string) : string :=
  match l with
  | [] => EmptyString
  | [s] => s
  | s :: l' => s ++ sep ++ join sep l'
  end.

(** [s.rsplit(sep, 1)[1]] for a one-character [sep]: the text after the
    last [sep], when there is one. *)
Fixpoint after_last (sep : ascii) (s : string) : option string :=
  match s with
  | EmptyString => None
  | String c s' =>
      match after_last sep s' with
      | Some t => Some t
      | None => if Ascii.eqb c sep then Some s' else None
      end
  end.

End PyStr.

(* ------------------------------------------------------------------ *)
(** ** The fragment of [re] used by the patterns of the service *)

Module Re.

(** One element of a pattern: the zero-width assertion [\b], or a
    character class repeated between [rmin] and [rmin + rextra] times. *)
Inductive piece : Type :=
| WordBoundary
| Repeat (cls : ascii -> bool) (rmin rextra : nat).

Definition pattern : Type := list piece.

Definition word_before (prev : option ascii) : bool :=
  match prev with
  | Some c => PyStr.isword c
  | None => false
  end.

Definition word_here (s : string) : bool :=
  match s with
  | String c _ => PyStr.isword c
  | EmptyString => false
  end.

(** [\b] holds between two positions of which exactly one is a word
    character; outside the string counts as a non-word character. *)
Definition at_boundary (prev : option ascii) (s : string) : bool :=
  xorb (word_before prev) (word_here s).

(** Up to [extra] further characters of the class, then the rest. *)
Fixpoint match_upto (cls : ascii -> bool) (extra : nat)
         (k : option ascii -> string -> bool)
         (prev : option ascii) (s : string) : bool :=
  match extra with
  | O => k prev s
  | S e =>
      match s with
      | String c s' => (cls c && match_upto cls e k (Some c) s') || k prev s
      | EmptyString => k prev s
      end
  end.

(** Exactly [m] characters of the class, then the rest. *)
Fixpoint match_exact (cls : ascii -> bool) (m : nat)
         (k : option ascii -> string -> bool)
         (prev : option ascii) (s : string) : bool :=
  match m with
  | O => k prev s
  | S m' =>
      match s with
      | String c s' => cls c && match_exact cls m' k (Some c) s'
      | EmptyString => false
      end
  end.

(** The pattern matches at the current position; [prev] is the character
    just before it. *)
Fixpoint match_here (p : pattern) : option ascii -> string -> bool :=
  match p with
  | [] => fun _ _ => true
  | WordBoundary :: p' =>
      fun prev s => at_boundary prev s && match_here p' prev s
  | Repeat cls m e :: p' =>
      match_exact cls m (match_upto cls e (match_here p'))
  end.

Fixpoint search_from (p : pattern) (prev : option ascii) (s : string) : bool :=
  match_here p prev s
  || match s with
     | String c s' => search_from p (Some c) s'
     | EmptyString => false
     end.

(** [bool(re.search(p, s))] *)
Definition search (p : pattern) (s : string) : bool := search_from p None s.

Definition digit : ascii -> bool := PyStr.isdecimal.

(** The class [[-/]]. *)
Definition dash_or_slash (c : ascii) : bool :=
  Ascii.eqb c "-" || Ascii.eqb c "/".

End Re.

(* ------------------------------------------------------------------ *)
(** ** Python builtins on numbers and lists *)

Definition Qltb (x y : Q) : bool := negb (Qle_bool y x).

(** [np.rint(x)]: the nearest integer, a tie going to the even one. *)
Definition rint (x : Q) : Z :=
  let lo := Qfloor x in
  let frac := (x - inject_Z lo)%Q in
  if Qltb frac (1 # 2) then lo
  else if Qltb (1 # 2) frac then (lo + 1)%Z
  else if Z.even lo then lo else (lo + 1)%Z.

(** Binary floating-point numbers with a significand of [prec] bits, as
    the values they stand for. *)
Module Float.

(** The exponent of [q]: the [k] with [2^k <= |q| < 2^(k+1)], for [q]
    other than 0. *)
Definition ilog2 (q : Q) : Z :=
  let k := (Z.log2 (Z.abs (Qnum q)) - Z.log2 (Zpos (Qden q)))%Z in
  if Qle_bool (2 ^ k) (Qabs q) then k else (k - 1)%Z.

(** The number of [prec] significant bits nearest to [q], a tie going to
    the one with an even significand. *)
Definition round_float (prec : Z) (q : Q) : Q :=
  if Qeq_bool q 0 then 0%Q
  else
    let e := (ilog2 q - (prec - 1))%Z in
    (inject_Z (rint (q / 2 ^ e)) * 2 ^ e)%Q.

(** [np.float32] and [np.float64] *)
Definition f32 : Q -> Q := round_float 24.
Definition f64 : Q -> Q := round_float 53.

End Float.

(** [sum(l)]: starts from 0 and adds from the left. *)
Definition py_sum (l : list Q) : Q := fold_left Qplus l 0%Q.

(** [len(l)] as a number. *)
Definition py_len {A : Type} (l : list A) : Q := inject_Z (Z.of_nat (List.length l)).

(** [int(x)]: truncation towards zero. *)
Definition py_int (x : Q) : Z := Z.quot (Qnum x) (Zpos (Qden x)).

(** Insertion of [x] in front of the first element whose key is not below
    the key of [x]. *)
Fixpoint insort {A : Type} (key : A -> Q) (x : A) (l : list A) : list A :=
  match l with
  | [] => [x]
  | y :: l' => if Qltb (key y) (key x) then y :: insort key x l' else x :: l
  end.

(** [sorted(l, key=key)]: ascending and stable, comparing the keys with [<]
    only.  Each element is inserted in front of the later elements. *)
Definition sorted {A : Type} (l : list A) (key : A -> Q) : list A :=
  fold_right (insort key) [] l.

(** The loop of [max(l, key=key)]: the running maximum is replaced only by
    an element whose key is strictly greater. *)
Fixpoint max_from {A : Type} (key : A -> Q) (best : A) (l : list A) : A :=
  match l with
  | [] => best
  | y :: l' => max_from key (if Qltb (key best) (key y) then y else best) l'
  end.

(** [max(l, key=key)]; an empty argument raises [ValueError]. *)
Definition py_max {A : Type} (l : list A) (key : A -> Q) : result A :=
  match l with
  | [] => Raise (PyExn "ValueError" "max() arg is an empty sequence")
  | x :: l' => Ok (max_from key x l')
  end.

(** [any(f(x) for x in l)] *)
Definition any {A : Type} (f : A -> bool) (l : list A) : bool := existsb f l.

(* ------------------------------------------------------------------ *)
(** ** [services/id_card_service.py] *)

Module IDCardService.

(** A polygon as the OCR engines give it: a list of points, each a list
    of coordinates. *)
Definition Polygon : Type := list (list Q).

(** One entry of [extracted_data]. *)
Record TextItem : Type := {
  text : string;
  confidence : Q;
  bbox : Polygon;
  center : Q * Q
}.

(** The dictionary [id_data]. *)
Record IdData : Type := {
  id_number : string;
  name : string;
  place_of_birth : string;
  date_of_birth : string;
  gender : string;
  address : string;
  religion : string;
  marital_status : string;
  occupation : string;
  nationality : string;
  valid_until : string;
  raw_text : list string
}.

Definition set_raw_text (d : IdData) (v : list string) : IdData :=
  {| id_number := id_number d; name := name d;
     place_of_birth := place_of_birth d; date_of_birth := date_of_birth d;
     gender := gender d; address := address d; religion := religion d;
     marital_status := marital_status d; occupation := occupation d;
     nationality := nationality d; valid_until := valid_until d;
     raw_text := v |}.

Definition set_id_number (d : IdData) (v : string) : IdData :=
  {| id_number := v; name := name d;
     place_of_birth := place_of_birth d; date_of_birth := date_of_birth d;
     gender := gender d; address := address d; religion := religion d;
     marital_status := marital_status d; occupation := occupation d;
     nationality := nationality d; valid_until := valid_until d;
     raw_text := raw_text d |}.

Definition set_name (d : IdData) (v : string) : IdData :=
  {| id_number := id_number d; name := v;
     place_of_birth := place_of_birth d; date_of_birth := date_of_birth d;
     gender := gender d; address := address d; religion := religion d;
     marital_status := marital_status d; occupation := occupation d;
     nationality := nationality d; valid_until := valid_until d;
     raw_text := raw_text d |}.

Definition set_date_of_birth (d : IdData) (v : string) : IdData :=
  {| id_number := id_number d; name := name d;
     place_of_birth := place_of_birth d; date_of_birth := v;
     gender := gender d; address := address d; religion := religion d;
     marital_status := marital_status d; occupation := occupation d;
     nationality := nationality d; valid_until := valid_until d;
     raw_text := raw_text d |}.

Definition set_gender (d : IdData) (v : string) : IdData :=
  {| id_number := id_number d; name := name d;
     place_of_birth := place_of_birth d; date_of_birth := date_of_birth d;
     gender := v; address := address d; religion := religion d;
     marital_status := marital_status d; occupation := occupation d;
     nationality := nationality d; valid_until := valid_until d;
     raw_text := raw_text d |}.

Definition set_address (d : IdData) (v : string) : IdData :=
  {| id_number := id_number d; name := name d;
     place_of_birth := place_of_birth d; date_of_birth := date_of_birth d;
     gender := gender d; address := v; religion := religion d;
     marital_status := marital_status d; occupation := occupation d;
     nationality := nationality d; valid_until := valid_until d;
     raw_text := raw_text d |}.

(** A box of the detector, [x[0], x[1], x[2], x[3]]. *)
Definition Box : Type := (Q * Q * Q * Q)%type.

(** The box returned by [detect_id_card], [(x1, y1, x2, y2)]. *)
Definition IntBox : Type := (Z * Z * Z * Z)%type.

(** An image: a window of [width] x [height] pixels of a picture file,
    with its upper left corner at [(left, upper)] of the picture. *)
Record Image : Type := {
  source : string;
  left : Z;
  upper : Z;
  width : Z;
  height : Z
}.

(** [image.crop((x1, y1, x2, y2))]: Pillow refuses a box whose right
    side is left of its left side, or whose lower side is above its upper
    side; a box of no width or no height gives an image without pixels. *)
Definition crop (image : Image) (box : IntBox) : result Image :=
  let '(x1, y1, x2, y2) := box in
  if (x2 <? x1)%Z
  then Raise (PyExn "ValueError" "Coordinate 'right' is less than 'left'")
  else if (y2 <? y1)%Z
  then Raise (PyExn "ValueError" "Coordinate 'lower' is less than 'upper'")
  else
    Ok {| source := source image;
          left := left image + x1; upper := upper image + y1;
          width := x2 - x1; height := y2 - y1 |}.

(** One line of PaddleOCR, [bbox, (text, confidence)], and one of
    EasyOCR, [bbox, text, confidence]. *)
Definition PaddleLine : Type := (Polygon * (string * Q))%type.
Definition EasyLine : Type := (Polygon * string * Q)%type.

(** The OCR engine: PaddleOCR has the method [ocr], called on the pixels
    of the image; EasyOCR has [readtext], called on the path. *)
Inductive OcrEngine : Type :=
| PaddleOCR (ocr : Image -> result (option (list (option (list PaddleLine)))))
| EasyOCR (readtext : string -> result (list EasyLine)).

(** The service object [self] with the collaborators it calls: each
    result of the detector carries [boxes], which may be [None]. *)
Record Service : Type := {
  card_detector : option (string -> result (list (option (list Box))));
  ocr_engine : option OcrEngine;
  image_open : string -> result Image
}.

(** The key of [max], [(x[2]-x[0])*(x[3]-x[1])] on a row of the
    [float32] array [boxes.xyxy]: the two differences and the product are
    each rounded to [float32]. *)
Definition box_area (x : Box) : Q :=
  let '(x0, x1, x2, x3) := x in
  Float.f32 (Float.f32 (x2 - x0) * Float.f32 (x3 - x1))%Q.

Definition int_box (x : Box) : IntBox :=
  let '(x0, x1, x2, x3) := x in (py_int x0, py_int x1, py_int x2, py_int x3).

(** The loop over the results of the detector: the first result with a
    non-empty [boxes] decides. *)
Fixpoint largest_box (results : list (option (list Box))) : result (option IntBox) :=
  match results with
  | [] => Ok None
  | boxes :: results' =>
      match boxes with
      | Some (b :: bs) =>
          largest <- py_max (b :: bs) box_area ;;
          Ok (Some (int_box largest))
      | _ => largest_box results'
      end
  end.

Definition detect_id_card (self : Service) (image_path : string)
  : option IntBox :=
  match card_detector self with
  | None => None
  | Some detector =>
      match (results <- detector image_path ;; largest_box results) with
      | Ok r => r
      | Raise _ => None
      end
  end.

Definition crop_id_card (self : Service) (image_path : string)
           (bbox : option IntBox) : result Image :=
  image <- image_open self image_path ;;
  match bbox with
  | Some (x1, y1, x2, y2) =>
      let padding := 10%Z in
      let x1 := Z.max 0 (x1 - padding) in
      let y1 := Z.max 0 (y1 - padding) in
      let x2 := Z.min (width image) (x2 + padding) in
      let y2 := Z.min (height image) (y2 + padding) in
      crop image (x1, y1, x2, y2)
  | None => Ok image
  end.

Definition _get_bbox_center (bbox : Polygon) : result (Q * Q) :=
  coords <-
    (if (List.length bbox =? 4)
        && match bbox with
           | p :: _ => List.length p =? 2
           | [] => false
           end
     then
       x_coords <- comprehension (fun point => getitem point 0) bbox ;;
       y_coords <- comprehension (fun point => getitem point 1) bbox ;;
       Ok (x_coords, y_coords)
     else
       b0 <- getitem bbox 0 ;; xa <- getitem b0 0 ;;
       b1 <- getitem bbox 1 ;; xb <- getitem b1 0 ;;
       b2 <- getitem bbox 2 ;; xc <- getitem b2 0 ;;
       b3 <- getitem bbox 3 ;; xd <- getitem b3 0 ;;
       ya <- getitem b0 1 ;; yb <- getitem b1 1 ;;
       yc <- getitem b2 1 ;; yd <- getitem b3 1 ;;
       Ok ([xa; xb; xc; xd], [ya; yb; yc; yd])) ;;
  let '(x_coords, y_coords) := coords in
  let center_x := (py_sum x_coords / py_len x_coords)%Q in
  let center_y := (py_sum y_coords / py_len y_coords)%Q in
  Ok (center_x, center_y).

Definition text_item (bbox : Polygon) (text : string) (confidence : Q)
  : result TextItem :=
  c <- _get_bbox_center bbox ;;
  Ok {| text := text; confidence := confidence; bbox := bbox; center := c |}.

Definition in_text_extraction {A : Type} (r : result A) : result A :=
  match r with
  | Ok a => Ok a
  | Raise e => Raise (PyExn "Exception" ("Error in text extraction: " ++ str_exn e))
  end.

(** [img_array.min()] of the debug printing, on the pixels of [image]:
    the minimum of no pixel at all raises.  The value is only printed. *)
Definition debug_min (image : Image) : result unit :=
  if (0 <? width image)%Z && (0 <? height image)%Z
  then Ok tt
  else Raise (PyExn "ValueError"
                "zero-size array to reduction operation minimum which has no identity").

(** The body of the [try] of [extract_text_with_coordinates]. *)
Definition read_text (engine : OcrEngine) (image : Image)
           (image_path : string) : result (list TextItem) :=
  match engine with
  | PaddleOCR ocr =>
      results <- ocr image ;;
      match results with
      | Some (Some (l :: ls) :: _) =>
          comprehension
            (fun line : PaddleLine =>
               let '(bbox, (text, confidence)) := line in
               text_item bbox text confidence)
            (l :: ls)
      | _ => Ok []
      end
  | EasyOCR readtext =>
      results <- readtext image_path ;;
      comprehension
        (fun line : EasyLine =>
           let '(bbox, text, confidence) := line in
           text_item bbox text confidence)
        results
  end.

(** Of the debug printing before the [try], only the call that can
    raise is kept. *)
Definition extract_text_with_coordinates (self : Service) (image : Image)
           (image_path : string) : result (list TextItem) :=
  match ocr_engine self with
  | None => Raise (PyExn "RuntimeError" "OCR engine not loaded")
  | Some engine =>
      _ <- debug_min image ;;
      in_text_extraction (read_text engine image image_path)
  end.

Definition empty_id_data : IdData :=
  {| id_number := ""; name := ""; place_of_birth := ""; date_of_birth := "";
     gender := ""; address := ""; religion := ""; marital_status := "";
     occupation := ""; nationality := ""; valid_until := "";
     raw_text := [] |}.

(** [r'\b\d{16}\b'] *)
Definition id_pattern : Re.pattern :=
  [Re.WordBoundary; Re.Repeat Re.digit 16 0; Re.WordBoundary].

(** [r'\b\d{1,2}[-/]\d{1,2}[-/]\d{4}\b'] *)
Definition date_pattern : Re.pattern :=
  [Re.WordBoundary; Re.Repeat Re.digit 1 1; Re.Repeat Re.dash_or_slash 1 0;
   Re.Repeat Re.digit 1 1; Re.Repeat Re.dash_or_slash 1 0;
   Re.Repeat Re.digit 4 0; Re.WordBoundary].

(** The body of the loop of [parse_id_card_data]. *)
Definition parse_item (id_data : IdData) (item : TextItem) : IdData :=
  let text := PyStr.strip (text item) in
  let id_data := set_raw_text id_data (raw_text id_data ++ [text]) in
  let id_data :=
    if Re.search id_pattern text && negb (PyStr.truthy (id_number id_data))
    then set_id_number id_data text
    else id_data in
  let id_data :=
    if any (fun keyword => PyStr.contains keyword (PyStr.lower text))
           ["nama"; "name"]
       && (10 <? String.length text)
    then set_name id_data
           (PyStr.strip (PyStr.replace "Name" "" (PyStr.replace "Nama" "" text)))
    else id_data in
  let id_data :=
    if Re.search date_pattern text && negb (PyStr.truthy (date_of_birth id_data))
    then set_date_of_birth id_data text
    else id_data in
  let id_data :=
    if any (fun gender => PyStr.contains gender (PyStr.lower text))
           ["laki-laki"; "perempuan"; "male"; "female"]
    then set_gender id_data text
    else id_data in
  let id_data :=
    if any (fun addr_keyword => PyStr.contains addr_keyword (PyStr.lower text))
           ["jl"; "jalan"; "rt"; "rw"; "kel"; "kec"; "JL"]
    then
      if negb (PyStr.truthy (address id_data))
      then set_address id_data text
      else set_address id_data (address id_data ++ " " ++ text)
    else id_data in
  id_data.

Definition parse_id_card_data (extracted_text : list TextItem) : IdData :=
  let sorted_text := sorted extracted_text (fun x => snd (center x)) in
  fold_left parse_item sorted_text empty_id_data.

(** The dictionary returned by [process_id_card]. *)
Inductive ProcResult : Type :=
| Success (image_path : string) (card_detected : bool) (bbox : option IntBox)
          (extracted_data : IdData) (raw_ocr_results : list TextItem)
          (confidence_scores : list Q) (avg_confidence : Q)
| Failure (error : string) (image_path : string).

(** [np.mean(l) if l else 0] *)
Definition mean_or_zero (l : list Q) : Q :=
  match l with
  | [] => 0%Q
  | _ => (py_sum l / py_len l)%Q
  end.

Definition process_id_card (self : Service) (image_path : string) : ProcResult :=
  match
    (let bbox := detect_id_card self image_path in
     cropped_card <- crop_id_card self image_path bbox ;;
     extracted_text <- extract_text_with_coordinates self cropped_card image_path ;;
     let parsed_data := parse_id_card_data extracted_text in
     Ok (Success image_path
                 (match bbox with Some _ => true | None => false end)
                 bbox parsed_data extracted_text
                 (map confidence extracted_text)
                 (mean_or_zero (map confidence extracted_text))))
  with
  | Ok r => r
  | Raise e => Failure (str_exn e) image_path
  end.

End IDCardService.

(* ------------------------------------------------------------------ *)
(** ** [apis/id_card_api.py]: the batch endpoint *)

Module IDCardApi.

Import IDCardService.

(** An uploaded file: its name and what [file.save(path)] does. *)
Record FileStorage : Type := {
  filename : string;
  save : string -> result unit
}.

(** The object [id_card_service] as the endpoint uses it. *)
Record ServiceHandle : Type := {
  process_id_card : string -> result ProcResult
}.

(** The handle of a loaded [IDCardService]. *)
Definition handle_of (self : Service) : ServiceHandle :=
  {| process_id_card := fun image_path => Ok (IDCardService.process_id_card self image_path) |}.

(** What the endpoint reads from the application: the upload folder and
    the supply of [uuid.uuid4().hex], one value for each file. *)
Record App : Type := {
  UPLOAD_FOLDER : string;
  uuid4_hex : nat -> string
}.

(** One element of [results]; the keys absent from the dictionary are
    [None]. *)
Record Entry : Type := {
  index : nat;
  entry_filename : string;
  card_detected : option bool;
  extracted_data : option IdData;
  avg_confidence : option Q;
  error : option string;
  success : bool
}.

Definition failed_entry (i : nat) (filename error : string) : Entry :=
  {| index := i; entry_filename := filename; card_detected := None;
     extracted_data := None; avg_confidence := None;
     error := Some error; success := false |}.

(** The JSON body and the status of the response. *)
Inductive Body : Type :=
| ErrorBody (error : string) (success : bool)
| BatchBody (success : bool) (total_files successful_extractions : nat)
            (results : list Entry).

Definition Response : Type := (Body * nat)%type.

Definition allowed_extensions : list string :=
  ["png"; "jpg"; "jpeg"; "gif"; "bmp"; "webp"].

Definition allowed_file (filename : string) : bool :=
  PyStr.contains "." filename
  && match PyStr.after_last "." filename with
     | Some ext => existsb (String.eqb (PyStr.lower ext)) allowed_extensions
     | None => false
     end.

(** [str(i)] *)
Definition str_nat (i : nat) : string := NilEmpty.string_of_uint (Nat.to_uint i).

Fixpoint endswith_slash (s : string) : bool :=
  match s with
  | EmptyString => false
  | String c EmptyString => Ascii.eqb c "/"
  | String _ s' => endswith_slash s'
  end.

(** [os.path.join(folder, name)] for a relative [name]. *)
Definition path_join (folder name : string) : string :=
  if PyStr.truthy folder && negb (endswith_slash folder)
  then folder ++ "/" ++ name
  else folder ++ name.

(** [round(x, 4)] on an [np.float64]: numpy computes
    [np.rint(x * 10000) / 10000] in [float64], the product and the
    quotient each rounded.  (On the integer 0 that stands for the average
    of no score, [round] gives 0 as well.) *)
Definition round4 (x : Q) : Q :=
  Float.f64 (inject_Z (rint (Float.f64 (x * 10000))) / 10000)%Q.

(** The entry appended for a file that was saved at [file_path]. *)
Definition processed_entry (service : ServiceHandle) (i : nat)
           (filename file_path : string) : Entry :=
  match process_id_card service file_path with
  | Ok (Success _ detected _ data _ _ avg) =>
      {| index := i; entry_filename := filename;
         card_detected := Some detected; extracted_data := Some data;
         avg_confidence := Some (round4 avg);
         error := None; success := true |}
  | Ok (Failure err _) => failed_entry i filename err
  | Raise e => failed_entry i filename (str_exn e)
  end.

(** The loop [for i, file in enumerate(files)], from index [i] on, with
    the lists [results] and [uploaded_files] it extends. *)
Fixpoint process_files (app : App) (service : ServiceHandle) (i : nat)
         (files : list FileStorage) (results : list Entry)
         (uploaded_files : list string) : result (list Entry * list string) :=
  match files with
  | [] => Ok (results, uploaded_files)
  | file :: files' =>
      if String.eqb (filename file) ""
      then process_files app service (S i) files'
             (results ++ [failed_entry i "" "Empty filename"]) uploaded_files
      else if negb (allowed_file (filename file))
      then process_files app service (S i) files'
             (results ++ [failed_entry i (filename file) "File type not allowed"])
             uploaded_files
      else
        let file_extension :=
          PyStr.lower (match PyStr.after_last "." (filename file) with
                       | Some ext => ext
                       | None => ""
                       end) in
        let unique_filename :=
          ("batch_" ++ str_nat i ++ "_" ++ uuid4_hex app i ++ "." ++ file_extension)%string in
        let file_path := path_join (UPLOAD_FOLDER app) unique_filename in
        _ <- save file file_path ;;
        process_files app service (S i) files'
          (results ++ [processed_entry service i (filename file) file_path])
          (uploaded_files ++ [file_path])
  end.

(** The endpoint; [files] is [None] when the request has no [images].
    The removal of the uploaded files is not part of the response and is
    left out. *)
Definition batch_process_id_cards (app : App) (id_card_service : option ServiceHandle)
           (files : option (list FileStorage)) : Response :=
  match id_card_service with
  | None => (ErrorBody "ID Card Service not available" false, 503)
  | Some service =>
      match files with
      | None => (ErrorBody "No image files provided" false, 400)
      | Some [] => (ErrorBody "No image files selected" false, 400)
      | Some files =>
          match process_files app service 0 files [] [] with
          | Ok (results, _) =>
              let successful_results := filter success results in
              (BatchBody true (List.length files) (List.length successful_results) results,
               200)
          | Raise e =>
              (ErrorBody ("Internal server error: " ++ str_exn e) false, 500)
          end
      end
  end.

End IDCardApi.

(* ------------------------------------------------------------------ *)
(** ** Vocabulary of the specification *)

Module Spec.

Import IDCardService.

(** The y-coordinate of the center of an item, the key of the sort. *)
Definition center_y (x : TextItem) : Q := snd (center x).

(** The trimmed text of an item. *)
Definition trimmed (x : TextItem) : string := PyStr.strip (text x).

(** The lines the heuristic looks at: the trimmed texts of the items in
    sorted order. *)
Definition lines (items : list TextItem) : list string :=
  map trimmed (sorted items center_y).

(** Ascending order of the keys. *)
Definition ascending {A : Type} (key : A -> Q) (x y : A) : Prop :=
  (key x <= key y)%Q.

(** Ascending order of the center y-coordinates. *)
Definition above : TextItem -> TextItem -> Prop := ascending center_y.

(** The items of [l] whose key equals [q], in the order of [l]. *)
Definition with_key {A : Type} (key : A -> Q) (q : Q) (l : list A) : list A :=
  filter (fun x => Qeq_bool (key x) q) l.

(** The first element of [l] that satisfies [p], or the empty string. *)
Definition first_match (p : string -> bool) (l : list string) : string :=
  match find p l with
  | Some t => t
  | None => ""
  end.

(** The last element of [l] that satisfies [p]. *)
Definition last_match (p : string -> bool) (l : list string) : option string :=
  find p (rev l).

(** [s] contains [sub] when case is ignored ([sub] is in lower case). *)
Definition contains_nocase (sub s : string) : bool :=
  PyStr.contains sub (PyStr.lower s).

Definition name_line (t : string) : bool :=
  (contains_nocase "nama" t || contains_nocase "name" t)
  && (10 <? String.length t).

Definition clean_name (t : string) : string :=
  PyStr.strip (PyStr.replace "Name" "" (PyStr.replace "Nama" "" t)).

Definition gender_line (t : string) : bool :=
  contains_nocase "laki-laki" t || contains_nocase "perempuan" t
  || contains_nocase "male" t || contains_nocase "female" t.

Definition address_line (t : string) : bool :=
  contains_nocase "jl" t || contains_nocase "jalan" t
  || contains_nocase "rt" t || contains_nocase "rw" t
  || contains_nocase "kel" t || contains_nocase "kec" t.

Fixpoint all_chars (cls : ascii -> bool) (s : string) : bool :=
  match s with
  | EmptyString => true
  | String c s' => cls c && all_chars cls s'
  end.

(** The character before the position reached after reading [run], when
    [prev] is the character before [run]. *)
Fixpoint prev_after (prev : option ascii) (run : string) : option ascii :=
  match run with
  | EmptyString => prev
  | String c run' => prev_after (Some c) run'
  end.

(** What a pattern accepts at a position, read off its pieces. *)
Fixpoint accepts (p : Re.pattern) (prev : option ascii) (s : string) : Prop :=
  match p with
  | [] => True
  | Re.WordBoundary :: p' => Re.at_boundary prev s = true /\ accepts p' prev s
  | Re.Repeat cls m e :: p' =>
      exists run rest,
        s = (run ++ rest)%string
        /\ m <= String.length run <= m + e
        /\ all_chars cls run = true
        /\ accepts p' (prev_after prev run) rest
  end.

(** In [pre ++ run ++ post] the run stands between word boundaries: no
    word character ends [pre] and none starts [post]. *)
Definition delimited (pre post : string) : Prop :=
  Re.word_before (prev_after None pre) = false /\ Re.word_here post = false.

(** [t] contains a word-boundary-delimited run of exactly 16 digits. *)
Definition has_id_run (t : string) : Prop :=
  exists pre run post,
    t = (pre ++ run ++ post)%string
    /\ String.length run = 16
    /\ all_chars PyStr.isdecimal run = true
    /\ delimited pre post.

Definition one_or_two_digits (d : string) : Prop :=
  (String.length d = 1 \/ String.length d = 2)
  /\ all_chars PyStr.isdecimal d = true.

Definition separator (c : ascii) : Prop := c = "-"%char \/ c = "/"%char.

(** [t] contains a word-boundary-delimited date: 1-2 digits, a separator,
    1-2 digits, a separator, 4 digits. *)
Definition has_date (t : string) : Prop :=
  exists pre d1 s1 d2 s2 d3 post,
    t = (pre ++ (d1 ++ String s1 (d2 ++ String s2 d3)) ++ post)%string
    /\ one_or_two_digits d1 /\ separator s1
    /\ one_or_two_digits d2 /\ separator s2
    /\ String.length d3 = 4 /\ all_chars PyStr.isdecimal d3 = true
    /\ delimited pre post.

(** The record the rules of the heuristic describe for the lines [ls]. *)
Definition record_of (ls : list string) : IdData :=
  {| id_number := first_match (Re.search id_pattern) ls;
     name := match last_match name_line ls with
             | Some t => clean_name t
             | None => ""
             end;
     place_of_birth := "";
     date_of_birth := first_match (Re.search date_pattern) ls;
     gender := match last_match gender_line ls with
               | Some t => t
               | None => ""
               end;
     address := PyStr.join " " (filter address_line ls);
     religion := ""; marital_status := ""; occupation := "";
     nationality := ""; valid_until := "";
     raw_text := ls |}.

(** A result of the detector without any box. *)
Definition no_boxes (boxes : option (list Box)) : bool :=
  match boxes with
  | Some (_ :: _) => false
  | _ => true
  end.

(** The detector finds no box in the image: it is not loaded, or it
    raises, or none of its results has a box. *)
Definition nothing_detected (self : Service) (image_path : string) : Prop :=
  match card_detector self with
  | None => True
  | Some detector =>
      match detector image_path with
      | Raise _ => True
      | Ok results => forallb no_boxes results = true
      end
  end.

(** The area of a box, width times height. *)
Definition exact_area (x : Box) : Q :=
  let '(x1, y1, x2, y2) := x in ((x2 - x1) * (y2 - y1))%Q.

(** What single precision leaves undecided about an area: one part in
    [2^22]. *)
Definition area_tolerance : Q := 1 # 4194304.

(** A whole number of less than 24 bits. *)
Definition small_whole (q : Q) : bool :=
  Qeq_bool q (inject_Z (Qfloor q)) && (Z.abs (Qfloor q) <? 2 ^ 24)%Z.

(** The width, the height and the area of the box are whole numbers of
    less than 24 bits. *)
Definition exactly_measured (x : Box) : bool :=
  let '(x1, y1, x2, y2) := x in
  small_whole (x2 - x1) && small_whole (y2 - y1)
  && small_whole ((x2 - x1) * (y2 - y1)).

(** Two items agree on what the heuristic reads: the text and the
    y-coordinate of the center. *)
Definition agree (x y : TextItem) : Prop :=
  text x = text y /\ (center_y x == center_y y)%Q.

(** The arithmetic mean of four numbers. *)
Definition mean4 (a b c d : Q) : Q := ((a + b + c + d) / 4)%Q.

End Spec.

Module BatchSpec.

Import IDCardService IDCardApi.

(** [enumerate(files)] *)
Definition enumerate {A : Type} (l : list A) : list (nat * A) :=
  combine (seq 0 (List.length l)) l.

Definition valid_name (file : FileStorage) : bool :=
  negb (String.eqb (filename file) "") && allowed_file (filename file).

(** The path under which the file of index [i] is saved. *)
Definition upload_path (app : App) (i : nat) (file : FileStorage) : string :=
  path_join (UPLOAD_FOLDER app)
    ("batch_" ++ str_nat i ++ "_" ++ uuid4_hex app i ++ "."
     ++ PyStr.lower (match PyStr.after_last "." (filename file) with
                     | Some ext => ext
                     | None => ""
                     end))%string.

(** Saving the file of index [i] does not raise (a file with a rejected
    name is not saved at all). *)
Definition saved (app : App) (p : nat * FileStorage) : bool :=
  let '(i, file) := p in
  negb (valid_name file)
  || match save file (upload_path app i file) with
     | Ok _ => true
     | Raise _ => false
     end.

(** The entry of the file of index [i], computed from this file alone. *)
Definition entry_of (app : App) (service : ServiceHandle)
           (p : nat * FileStorage) : Entry :=
  let '(i, file) := p in
  if String.eqb (filename file) "" then failed_entry i "" "Empty filename"
  else if negb (allowed_file (filename file))
  then failed_entry i (filename file) "File type not allowed"
  else processed_entry service i (filename file) (upload_path app i file).

(** The entry of a file that was not processed, or not with success. *)
Definition failure (i : nat) (name msg : string) : Entry :=
  {| index := i; entry_filename := name; card_detected := None;
     extracted_data := None; avg_confidence := None;
     error := Some msg; success := false |}.

(** The distance between an average and the average rounded to four
    decimals: half a unit of the fourth decimal, and what double
    precision adds to it. *)
Definition rounding4 (avg : Q) : Q :=
  ((1 # 20000) + (1 # 2251799813685248) * (Qabs avg + 1))%Q.

(** What the entry [e] of the file of index [i] has to say: why the file
    was not processed, or what processing it gave. *)
Definition reported (app : App) (service : ServiceHandle) (i : nat)
           (file : FileStorage) (e : Entry) : Prop :=
  if String.eqb (filename file) "" then e = failure i "" "Empty filename"
  else if allowed_file (filename file) then
    match process_id_card service (upload_path app i file) with
    | Ok (Success _ detected _ data _ _ avg) =>
        index e = i /\ entry_filename e = filename file
        /\ success e = true /\ error e = None
        /\ card_detected e = Some detected /\ extracted_data e = Some data
        /\ exists a, avg_confidence e = Some a
                     /\ (Qabs (a - avg) <= rounding4 avg)%Q
    | Ok (Failure err _) => e = failure i (filename file) err
    | Raise ex => e = failure i (filename file) (str_exn ex)
    end
  else e = failure i (filename file) "File type not allowed".

(** Processing the saved file succeeded. *)
Definition processed_ok (app : App) (service : ServiceHandle)
           (p : nat * FileStorage) : bool :=
  let '(i, file) := p in
  valid_name file
  && match process_id_card service (upload_path app i file) with
     | Ok (Success _ _ _ _ _ _ _) => true
     | _ => false
     end.

End BatchSpec.

(* ------------------------------------------------------------------ *)
(** ** Sample inputs *)

Module Samples.

Import IDCardService IDCardApi.

(** A line of text in a box of height 2 around the height [y]. *)
Definition line_at (t : string) (y : Q) : TextItem :=
  {| text := t; confidence := (9 # 10)%Q;
     bbox := [[0; y - 1]; [100; y - 1]; [100; y + 1]; [0; y + 1]]%Q;
     center := (50, y)%Q |}.

Definition card_items : list TextItem :=
  [ line_at "RT 01 RW 02" 40; line_at " Nama: Budi Hartono X " 10;
    line_at "Lahir: 17-08-1990" 30; line_at "ID 1234567890123456 rest" 5;
    line_at "Jl. Merdeka No 5" 40 ]%Q.

(** The same texts at the same heights, with other confidences, other
    polygons and other x-coordinates. *)
Definition card_items' : list TextItem :=
  [ {| text := "RT 01 RW 02"; confidence := (1 # 2)%Q; bbox := [];
       center := (7, 80 # 2)%Q |};
    {| text := " Nama: Budi Hartono X "; confidence := 0%Q;
       bbox := [[1; 2]]%Q; center := (-3, 10)%Q |};
    {| text := "Lahir: 17-08-1990"; confidence := 1%Q; bbox := [];
       center := (0, 30)%Q |};
    {| text := "ID 1234567890123456 rest"; confidence := (1 # 3)%Q;
       bbox := []; center := (1000, 5)%Q |};
    {| text := "Jl. Merdeka No 5"; confidence := (2 # 3)%Q; bbox := [];
       center := (12, 40)%Q |} ].

(** A polygon given as the list of its x-coordinates and the list of its
    y-coordinates. *)
Definition parallel_lists : Polygon := [[0; 10; 10; 0]; [0; 0; 4; 4]]%Q.

Definition whole_picture (path : string) : result Image :=
  Ok {| source := path; left := 0; upper := 0; width := 640; height := 480 |}.

Definition found_boxes : list (option (list Box)) :=
  [None; Some []; Some [(0, 0, 10, 10); (0, 0, 5, 100); (0, 0, 100, 5)]%Q;
   Some [(0, 0, 200, 200)%Q]].

(** A service whose detector finds three boxes in its third result. *)
Definition finding_service : Service :=
  {| card_detector := Some (fun _ => Ok found_boxes);
     ocr_engine := Some (EasyOCR (fun _ =>
       Ok [([[0; 0]; [9; 0]; [9; 4]; [0; 4]]%Q, "Nama: Budi Hartono X", (9 # 10)%Q)]));
     image_open := whole_picture |}.

(** Two boxes of areas 16785408 and 16785409, which single precision
    does not tell apart. *)
Definition near_tie_boxes : list Box :=
  [(0, 0, 4096, 4098); (0, 0, 4097, 4097)]%Q.

Definition near_tie_service : Service :=
  {| card_detector := Some (fun _ => Ok [Some near_tie_boxes]);
     ocr_engine := None;
     image_open := whole_picture |}.

(** A service whose detector finds no box. *)
Definition blind_service : Service :=
  {| card_detector := Some (fun _ => Ok [None; Some []]);
     ocr_engine := None;
     image_open := whole_picture |}.

Definition sample_app : App :=
  {| UPLOAD_FOLDER := "uploads"; uuid4_hex := fun _ => "0f" |}.

(** A handle that raises on the second file and fails on the third. *)
Definition moody_handle : ServiceHandle :=
  {| process_id_card := fun path =>
       if PyStr.contains "batch_1_" path
       then Raise (PyExn "MemoryError" "out of memory")
       else if PyStr.contains "batch_2_" path
       then IDCardApi.process_id_card (handle_of blind_service) path
       else IDCardApi.process_id_card (handle_of finding_service) path |}.

Definition upload (name : string) : FileStorage :=
  {| filename := name; save := fun _ => Ok tt |}.

Definition sample_files : list FileStorage :=
  [ upload "front.png"; upload "back.JPG"; upload "scan.jpeg"; upload "";
    {| filename := "notes.txt";
       save := fun _ => Raise (PyExn "OSError" "disk full") |};
    upload "last.webp" ].

(** Three uploads, the second of which cannot be saved. *)
Definition full_disk_files : list FileStorage :=
  [ upload "front.png";
    {| filename := "back.png";
       save := fun _ => Raise (PyExn "OSError" "disk full") |};
    upload "last.webp" ].

End Samples.

(** Reduction of the fields of an updated [id_data]. *)
Ltac fields :=
  cbn [IDCardService.set_raw_text IDCardService.set_id_number
       IDCardService.set_name IDCardService.set_date_of_birth
       IDCardService.set_gender IDCardService.set_address
       IDCardService.id_number IDCardService.name
       IDCardService.place_of_birth IDCardService.date_of_birth
       IDCardService.gender IDCardService.address IDCardService.religion
       IDCardService.marital_status IDCardService.occupation
       IDCardService.nationality IDCardService.valid_until
       IDCardService.raw_text].

(* ------------------------------------------------------------------ *)
(** ** [apis/id_card_api.py]: the endpoints for one image *)

Module IDCardEndpoints.

Import IDCardService IDCardApi.

(** The JSON body of [/detect-and-extract]: an error, or the [data] of a
    processed card. *)
Inductive ExtractBody : Type :=
| ExtractError (error : string) (success : bool)
| ExtractData (success : bool) (filename : string) (card_detected : bool)
              (extracted_data : IdData) (average : Q)
              (individual_scores : list Q) (bbox : option IntBox)
              (total_text_items : nat).

(** The JSON body of [/detect-only]. *)
Inductive DetectBody : Type :=
| DetectError (error : string) (success : bool)
| DetectData (success : bool) (filename : string) (card_detected : bool)
             (bbox : option IntBox) (message : string).

(** The extension of an uploaded name, [filename.rsplit('.', 1)[1].lower()]
    (the name has passed [allowed_file], so it has a dot). *)
Definition file_extension (name : string) : string :=
  PyStr.lower (match PyStr.after_last "." name with
               | Some ext => ext
               | None => ""
               end).

(** [/detect-and-extract]; [file] is [None] when the request has no
    [image].  The removal of the uploaded file is left out.  The scores
    are taken to be [np.float64] numbers, as the average is, and rounded
    the same way. *)
Definition detect_and_extract_id_card (app : App)
           (id_card_service : option ServiceHandle)
           (file : option FileStorage) : ExtractBody * nat :=
  match id_card_service with
  | None => (ExtractError "ID Card Service not available" false, 503)
  | Some service =>
      match file with
      | None => (ExtractError "No image file provided" false, 400)
      | Some file =>
          if String.eqb (filename file) ""
          then (ExtractError "No image file selected" false, 400)
          else if negb (allowed_file (filename file))
          then (ExtractError
                  "File type not allowed. Supported types: png, jpg, jpeg, gif, bmp, webp"
                  false, 400)
          else
            let unique_filename :=
              ("id_card_" ++ uuid4_hex app 0 ++ "."
               ++ file_extension (filename file))%string in
            let file_path := path_join (UPLOAD_FOLDER app) unique_filename in
            match
              (_ <- save file file_path ;;
               result <- process_id_card service file_path ;;
               Ok (match result with
                   | Success _ detected bbox data raw scores avg =>
                       (ExtractData true (filename file) detected data
                                    (round4 avg) (map round4 scores) bbox
                                    (List.length raw), 200)
                   | Failure err _ => (ExtractError err false, 500)
                   end))
            with
            | Ok response => response
            | Raise e =>
                (ExtractError ("Internal server error: " ++ str_exn e) false, 500)
            end
      end
  end.

(** [/detect-only], on the service object itself. *)
Definition detect_id_card_only (app : App) (id_card_service : option Service)
           (file : option FileStorage) : DetectBody * nat :=
  match id_card_service with
  | None => (DetectError "ID Card Service not available" false, 503)
  | Some service =>
      match file with
      | None => (DetectError "No image file provided" false, 400)
      | Some file =>
          if String.eqb (filename file) "" || negb (allowed_file (filename file))
          then (DetectError "Invalid file" false, 400)
          else
            let unique_filename :=
              ("detect_" ++ uuid4_hex app 0 ++ "."
               ++ file_extension (filename file))%string in
            let file_path := path_join (UPLOAD_FOLDER app) unique_filename in
            match save file file_path with
            | Ok _ =>
                let bbox := detect_id_card service file_path in
                (DetectData true (filename file)
                            (match bbox with Some _ => true | None => false end)
                            bbox
                            (match bbox with
                             | Some _ => "ID card detected"
                             | None => "No ID card detected"
                             end), 200)
            | Raise e =>
                (DetectError ("Internal server error: " ++ str_exn e) false, 500)
            end
      end
  end.

End IDCardEndpoints.

(* ------------------------------------------------------------------ *)
(** ** Further vocabulary *)

Module Props.

Import IDCardService IDCardApi IDCardEndpoints Spec.

(** No two items of the list are at the same height. *)
Fixpoint distinct_heights (items : list TextItem) : bool :=
  match items with
  | [] => true
  | x :: items' =>
      forallb (fun y => negb (Qeq_bool (center_y x) (center_y y))) items'
      && distinct_heights items'
  end.

(** The items come top to bottom. *)
Fixpoint top_to_bottom (items : list TextItem) : bool :=
  match items with
  | [] => true
  | x :: items' =>
      forallb (fun y => Qle_bool (center_y x) (center_y y)) items'
      && top_to_bottom items'
  end.

Definition starts_with_space (s : string) : bool :=
  match s with
  | String c _ => PyStr.isspace c
  | EmptyString => false
  end.

Fixpoint ends_with_space (s : string) : bool :=
  match s with
  | EmptyString => false
  | String c EmptyString => PyStr.isspace c
  | String _ s' => ends_with_space s'
  end.

(** The character [c] occurs in [s]. *)
Fixpoint has_char (c : ascii) (s : string) : bool :=
  match s with
  | EmptyString => false
  | String a s' => Ascii.eqb a c || has_char c s'
  end.

(** A point with at least two coordinates; the others are [rest]. *)
Definition point (x y : Q) (rest : list Q) : list Q := x :: y :: rest.

(** The window [r] lies inside the image [image]. *)
Definition inside (r image : Image) : Prop :=
  (left image <= left r /\ upper image <= upper r
   /\ left r + width r <= left image + width image
   /\ upper r + height r <= upper image + height image)%Z.

(** The window [r] of [image] covers the box [(x1, y1, x2, y2)] of
    [image], with a margin of at most [m] pixels on each side. *)
Definition covers (r image : Image) (box : IntBox) (m : Z) : Prop :=
  let '(x1, y1, x2, y2) := box in
  (left image + x1 - m <= left r <= left image + x1
   /\ upper image + y1 - m <= upper r <= upper image + y1
   /\ left image + x2 <= left r + width r <= left image + x2 + m
   /\ upper image + y2 <= upper r + height r <= upper image + y2 + m)%Z.

(** The image has pixels. *)
Definition nonempty (image : Image) : Prop :=
  (0 < width image /\ 0 < height image)%Z.

(** The image at [image_path] has pixels and the box detected in it, if
    any, lies in it. *)
Definition well_placed (self : Service) (image_path : string) : Prop :=
  forall image,
    image_open self image_path = Ok image ->
    nonempty image
    /\ forall x1 y1 x2 y2,
        detect_id_card self image_path = Some (x1, y1, x2, y2) ->
        (0 <= x1 <= x2 /\ x2 <= width image
         /\ 0 <= y1 <= y2 /\ y2 <= height image)%Z.

(** The service without its detector. *)
Definition without_detector (self : Service) : Service :=
  {| card_detector := None; ocr_engine := ocr_engine self;
     image_open := image_open self |}.

(** What a result of the pipeline says about the text: nothing of the
    detection. *)
Definition text_part (r : ProcResult)
  : (IdData * list TextItem * list Q * Q) + string :=
  match r with
  | Success _ _ _ data raw scores avg => inl (data, raw, scores, avg)
  | Failure err _ => inr err
  end.

(** The line of an OCR engine an item was built from. *)
Definition easy_line_of (x : TextItem) : EasyLine :=
  (bbox x, text x, confidence x).

Definition paddle_line_of (x : TextItem) : PaddleLine :=
  (bbox x, (text x, confidence x)).

(** The lines of PaddleOCR that are read: those of the first page, when
    there is one. *)
Definition first_page (results : option (list (option (list PaddleLine))))
  : list PaddleLine :=
  match results with
  | Some (Some page :: _) => page
  | _ => []
  end.

(** The center recorded in the item is the center of its polygon. *)
Definition centered (x : TextItem) : Prop :=
  _get_bbox_center (bbox x) = Ok (center x).

(** The polygon starts with four points of two coordinates at least. *)
Definition four_points (b : Polygon) : Prop :=
  exists xa ya ra xb yb rb xc yc rc xd yd rd more,
    b = point xa ya ra :: point xb yb rb :: point xc yc rc
        :: point xd yd rd :: more.

(** The polygons of the lines that are read. *)
Definition polygons_read (engine : OcrEngine) (image : Image)
           (image_path : string) : result (list Polygon) :=
  match engine with
  | PaddleOCR ocr =>
      match ocr image with
      | Ok results => Ok (map fst (first_page results))
      | Raise e => Raise e
      end
  | EasyOCR readtext =>
      match readtext image_path with
      | Ok lines => Ok (map (fun line : EasyLine => fst (fst line)) lines)
      | Raise e => Raise e
      end
  end.

(** Reading the text fails with [e0]: the engine is loaded and its call
    raises [e0], or one of the polygons it returns has not four points of
    two coordinates, and [e0] is the [IndexError] of the access. *)
Definition extraction_failure (self : Service) (image : Image)
           (image_path : string) (e0 : exn) : Prop :=
  match ocr_engine self with
  | None => False
  | Some engine =>
      match polygons_read engine image image_path with
      | Raise e => e0 = e
      | Ok polygons =>
          e0 = IndexError /\ exists b, In b polygons /\ ~ four_points b
      end
  end.

(** The paths under which [/detect-and-extract] and [/detect-only] save
    the upload. *)
Definition extract_path (app : App) (file : FileStorage) : string :=
  path_join (UPLOAD_FOLDER app)
    ("id_card_" ++ uuid4_hex app 0 ++ "." ++ file_extension (filename file))%string.

Definition detect_path (app : App) (file : FileStorage) : string :=
  path_join (UPLOAD_FOLDER app)
    ("detect_" ++ uuid4_hex app 0 ++ "." ++ file_extension (filename file))%string.

Definition extract_body_success (b : ExtractBody) : bool :=
  match b with
  | ExtractError _ s => s
  | ExtractData s _ _ _ _ _ _ _ => s
  end.

Definition detect_body_success (b : DetectBody) : bool :=
  match b with
  | DetectError _ s => s
  | DetectData s _ _ _ _ => s
  end.

Definition batch_body_success (b : Body) : bool :=
  match b with
  | ErrorBody _ s => s
  | BatchBody s _ _ _ => s
  end.

(** A call that raises nothing but [IndexError]. *)
Definition raises_index_error {A : Type} (r : result A) : Prop :=
  forall e, r = Raise e -> e = IndexError.

Definition known_status (status : nat) : Prop :=
  status = 200 \/ status = 400 \/ status = 500 \/ status = 503.

End Props.

Module MoreSamples.

Import IDCardService IDCardApi.

(** A picture of 640 x 480 pixels and a box found in it. *)
Definition picture : Image :=
  {| source := "card.png"; left := 0; upper := 0; width := 640; height := 480 |}.

Definition box_in_picture : IntBox := (5, 100, 630, 400)%Z.

Definition sorted_items : list TextItem :=
  [Samples.line_at "ID 1234567890123456" 5; Samples.line_at "Nama: Budi Hartono" 10;
   Samples.line_at "Laki-Laki" 10; Samples.line_at "Jl. Merdeka No 5" 40]%Q.

Definition shuffled_items : list TextItem :=
  [Samples.line_at "Jl. Merdeka No 5" 40; Samples.line_at "ID 1234567890123456" 5;
   Samples.line_at "Laki-Laki" 20; Samples.line_at "Nama: Budi Hartono" 10]%Q.

Definition ordered_items : list TextItem :=
  [Samples.line_at "ID 1234567890123456" 5; Samples.line_at "Nama: Budi Hartono" 10;
   Samples.line_at "Laki-Laki" 20; Samples.line_at "Jl. Merdeka No 5" 40]%Q.

Definition easy_lines : list EasyLine :=
  [([[0; 0]; [9; 0]; [9; 4]; [0; 4]]%Q, "Nama: Budi Hartono X", (9 # 10)%Q);
   ([[0; 10]; [8; 10]; [8; 14]; [0; 14]]%Q, "Laki-Laki", (1 # 2)%Q)].

(** A service with EasyOCR and a detector that raises. *)
Definition shaky_service : Service :=
  {| card_detector := Some (fun _ => Raise (PyExn "RuntimeError" "CUDA error"));
     ocr_engine := Some (EasyOCR (fun _ => Ok easy_lines));
     image_open := Samples.whole_picture |}.

(** A service with PaddleOCR that reads two pages. *)
Definition paddle_service : Service :=
  {| card_detector := None;
     ocr_engine := Some (PaddleOCR (fun _ =>
       Ok (Some [Some [([[0; 0]; [9; 0]; [9; 4]; [0; 4]]%Q, ("RT 01", (9 # 10)%Q))];
                 Some [([[0; 0]; [9; 0]; [9; 4]; [0; 4]]%Q, ("RW 02", (9 # 10)%Q))]])));
     image_open := Samples.whole_picture |}.

(** A service whose OCR returns a polygon of three points. *)
Definition broken_service : Service :=
  {| card_detector := None;
     ocr_engine := Some (EasyOCR (fun _ =>
       Ok [([[0; 0]; [9; 0]; [9; 4]]%Q, "RT 01", (9 # 10)%Q)]));
     image_open := Samples.whole_picture |}.

End MoreSamples.

(** Case analysis on the answers of the endpoints. *)
Ltac unpack :=
  repeat match goal with
         | H : exists _, _ |- _ => destruct H
         | H : _ /\ _ |- _ => destruct H
         | H : _ \/ _ |- _ => destruct H
         | H : Some _ = Some _ |- _ => inversion H; subst; clear H
         | H : Some _ = None |- _ => discriminate H
         | H : None = Some _ |- _ => discriminate H
         end.

Ltac settle :=
  cbn; repeat split; intros; unpack;
  try congruence; try tauto; try lia;
  try match goal with
      | H : negb ?a && ?b = true, E : ?a = true |- _ =>
          rewrite E in H; discriminate H
      | H : negb ?a && ?b = true, E : ?b = false |- _ =>
          rewrite E, andb_false_r in H; discriminate H
      end.

(* ------------------------------------------------------------------ *)
(** ** Characters, strings and patterns *)

Section CharFacts.

Lemma isdecimal_isword (c : ascii) :
  PyStr.isdecimal c = true -> PyStr.isword c = true.
Proof.
  destruct c as [[] [] [] [] [] [] [] []]; vm_compute; intro H;
    first [reflexivity | discriminate H].
Qed.

Lemma separator_not_word (c : ascii) :
  Re.dash_or_slash c = true -> PyStr.isword c = false.
Proof.
  destruct c as [[] [] [] [] [] [] [] []]; vm_compute; intro H;
    first [reflexivity | discriminate H].
Qed.

Lemma lower_char_not_J (c : ascii) : Ascii.eqb "J" (PyStr.lower_char c) = false.
Proof.
  destruct c as [[] [] [] [] [] [] [] []]; vm_compute; reflexivity.
Qed.

End CharFacts.

Section StringFacts.

Lemma append_nil_r (s : string) : (s ++ "")%string = s.
Proof. induction s as [|c s IH]; simpl; [reflexivity | now rewrite IH]. Qed.

Lemma append_assoc (a b c : string) :
  ((a ++ b) ++ c)%string = (a ++ (b ++ c))%string.
Proof. induction a as [|x a IH]; simpl; [reflexivity | now rewrite IH]. Qed.

Lemma startswith_nonempty (p : string) :
  p <> "" -> PyStr.startswith p "" = false.
Proof. destruct p; [congruence | reflexivity]. Qed.

Lemma contains_empty (p : string) :
  p <> "" -> PyStr.contains p "" = false.
Proof. intro H. simpl. now rewrite startswith_nonempty. Qed.

Lemma contains_J_lower (rest s : string) :
  PyStr.contains (String "J" rest) (PyStr.lower s) = false.
Proof.
  induction s as [|c s IH]; [reflexivity|].
  cbn [PyStr.lower PyStr.contains PyStr.startswith].
  rewrite lower_char_not_J. exact IH.
Qed.

Lemma truthy_false (s : string) : PyStr.truthy s = false <-> s = "".
Proof. destruct s; simpl; split; congruence. Qed.

Lemma truthy_append (a b : string) :
  PyStr.truthy a = true -> PyStr.truthy (a ++ b) = true.
Proof. destruct a; simpl; congruence. Qed.

End StringFacts.

Section RegexFacts.

Import Spec.

Lemma prev_after_app (prev : option ascii) (a b : string) :
  prev_after prev (a ++ b) = prev_after (prev_after prev a) b.
Proof.
  revert prev. induction a as [|c a IH]; intro prev; simpl; [reflexivity|].
  apply IH.
Qed.

Lemma word_before_run (cls : ascii -> bool) (prev : option ascii) (run : string) :
  (forall c, cls c = true -> PyStr.isword c = true) ->
  run <> "" -> all_chars cls run = true ->
  Re.word_before (prev_after prev run) = true.
Proof.
  intros Hcls. revert prev. induction run as [|c run IH]; intros prev Hne Hall.
  - congruence.
  - simpl in Hall. apply andb_true_iff in Hall as [Hc Hall]. simpl.
    destruct run as [|c' run'].
    + simpl. now apply Hcls.
    + apply IH; [discriminate | exact Hall].
Qed.

Lemma word_here_run (cls : ascii -> bool) (run rest : string) :
  (forall c, cls c = true -> PyStr.isword c = true) ->
  run <> "" -> all_chars cls run = true ->
  Re.word_here (run ++ rest) = true.
Proof.
  intros Hcls Hne Hall. destruct run as [|c run]; [congruence|].
  simpl in *. apply andb_true_iff in Hall as [Hc _]. now apply Hcls.
Qed.

Lemma match_upto_spec (cls : ascii -> bool) (k : option ascii -> string -> bool)
      (e : nat) (prev : option ascii) (s : string) :
  Re.match_upto cls e k prev s = true <->
  exists run rest,
    s = (run ++ rest)%string /\ String.length run <= e
    /\ all_chars cls run = true /\ k (prev_after prev run) rest = true.
Proof.
  revert prev s. induction e as [|e IH]; intros prev s.
  - simpl. split.
    + intro H. exists "", s. simpl. repeat split; auto.
    + intros (run & rest & -> & Hlen & _ & Hk).
      destruct run; simpl in *; [exact Hk | lia].
  - destruct s as [|c s].
    + simpl. split.
      * intro H. exists "", "". simpl. repeat split; auto; lia.
      * intros (run & rest & Heq & _ & _ & Hk).
        destruct run; simpl in *; [|discriminate].
        now subst rest.
    + cbn [Re.match_upto]. rewrite orb_true_iff, andb_true_iff, IH. split.
      * intros [[Hc (run & rest & -> & Hlen & Hall & Hk)] | Hk].
        -- exists (String c run), rest. simpl. rewrite Hc.
           repeat split; auto; lia.
        -- exists "", (String c s). simpl. repeat split; auto; lia.
      * intros (run & rest & Heq & Hlen & Hall & Hk).
        destruct run as [|c' run]; simpl in *.
        -- right. now subst rest.
        -- left. injection Heq as -> ->.
           apply andb_true_iff in Hall as [Hc Hall].
           split; [exact Hc|]. exists run, rest. repeat split; auto; lia.
Qed.

Lemma repeat_spec (cls : ascii -> bool) (k : option ascii -> string -> bool)
      (m e : nat) (prev : option ascii) (s : string) :
  Re.match_exact cls m (Re.match_upto cls e k) prev s = true <->
  exists run rest,
    s = (run ++ rest)%string /\ m <= String.length run <= m + e
    /\ all_chars cls run = true /\ k (prev_after prev run) rest = true.
Proof.
  revert prev s. induction m as [|m IH]; intros prev s.
  - cbn [Re.match_exact]. rewrite match_upto_spec. split;
      intros (run & rest & H1 & H2 & H3 & H4); exists run, rest;
      repeat split; auto; lia.
  - destruct s as [|c s].
    + simpl. split; [discriminate|].
      intros (run & rest & Heq & Hlen & _).
      destruct run; simpl in *; [lia | discriminate].
    + cbn [Re.match_exact]. rewrite andb_true_iff, IH. split.
      * intros [Hc (run & rest & -> & Hlen & Hall & Hk)].
        exists (String c run), rest. simpl. rewrite Hc.
        repeat split; auto; lia.
      * intros (run & rest & Heq & Hlen & Hall & Hk).
        destruct run as [|c' run]; simpl in *; [lia|].
        injection Heq as -> ->.
        apply andb_true_iff in Hall as [Hc Hall].
        split; [exact Hc|]. exists run, rest. repeat split; auto; lia.
Qed.

Lemma match_here_accepts (p : Re.pattern) (prev : option ascii) (s : string) :
  Re.match_here p prev s = true <-> accepts p prev s.
Proof.
  revert prev s. induction p as [|[|cls m e] p IH]; intros prev s.
  - simpl. tauto.
  - cbn [Re.match_here accepts]. rewrite andb_true_iff, IH. tauto.
  - cbn [Re.match_here accepts]. rewrite repeat_spec. split;
      intros (run & rest & H1 & H2 & H3 & H4); exists run, rest;
      repeat split; try tauto; now apply IH.
Qed.

Lemma search_from_spec (p : Re.pattern) (prev : option ascii) (s : string) :
  Re.search_from p prev s = true <->
  exists pre rest,
    s = (pre ++ rest)%string /\ accepts p (prev_after prev pre) rest.
Proof.
  revert prev. induction s as [|c s IH]; intro prev.
  - cbn [Re.search_from]. rewrite orb_false_r, match_here_accepts. split.
    + intro H. exists "", "". simpl. auto.
    + intros (pre & rest & Heq & H).
      destruct pre; simpl in *; [now subst rest | discriminate].
  - cbn [Re.search_from]. rewrite orb_true_iff, match_here_accepts, IH. split.
    + intros [H | (pre & rest & -> & H)].
      * exists "", (String c s). simpl. auto.
      * exists (String c pre), rest. simpl. auto.
    + intros (pre & rest & Heq & H).
      destruct pre as [|c' pre]; simpl in *.
      * left. now subst rest.
      * right. injection Heq as -> ->. exists pre, rest. auto.
Qed.

Lemma search_spec (p : Re.pattern) (s : string) :
  Re.search p s = true <->
  exists pre rest,
    s = (pre ++ rest)%string /\ accepts p (prev_after None pre) rest.
Proof. apply search_from_spec. Qed.

End RegexFacts.

Section PatternFacts.

Import Spec IDCardService.

Lemma length_zero (s : string) : String.length s = 0 -> s = "".
Proof. destruct s; simpl; [reflexivity | discriminate]. Qed.

Lemma length_one (s : string) :
  String.length s = 1 -> exists c, s = String c "".
Proof.
  destruct s as [|c [|c' s]]; simpl; try discriminate.
  intros _. now exists c.
Qed.

Lemma nonempty_of_length (s : string) (n : nat) :
  String.length s = S n -> s <> "".
Proof. destruct s; simpl; [discriminate | congruence]. Qed.

Lemma dash_or_slash_separator (c : ascii) :
  Re.dash_or_slash c = true <-> separator c.
Proof.
  unfold Re.dash_or_slash, separator.
  rewrite orb_true_iff, !Ascii.eqb_eq. tauto.
Qed.

Lemma boundary_before (prev : option ascii) (run rest : string) :
  run <> "" -> all_chars PyStr.isdecimal run = true ->
  (Re.at_boundary prev (run ++ rest) = true <-> Re.word_before prev = false).
Proof.
  intros Hne Hall. unfold Re.at_boundary.
  rewrite (word_here_run PyStr.isdecimal run rest isdecimal_isword Hne Hall).
  destruct (Re.word_before prev); simpl; split; congruence.
Qed.

Lemma boundary_after (prev : option ascii) (run rest : string) :
  run <> "" -> all_chars PyStr.isdecimal run = true ->
  (Re.at_boundary (prev_after prev run) rest = true <-> Re.word_here rest = false).
Proof.
  intros Hne Hall. unfold Re.at_boundary.
  rewrite (word_before_run PyStr.isdecimal prev run isdecimal_isword Hne Hall).
  destruct (Re.word_here rest); simpl; split; congruence.
Qed.

Lemma id_pattern_spec (t : string) :
  Re.search id_pattern t = true <-> has_id_run t.
Proof.
  rewrite search_spec. unfold has_id_run, delimited, id_pattern.
  cbn [accepts]. split.
  - intros (pre & rest & -> & Hb & run & post & -> & Hlen & Hall & Ha & _).
    assert (String.length run = 16) as Hrun by lia.
    pose proof (nonempty_of_length _ _ Hrun) as Hne.
    exists pre, run, post. repeat split; auto.
    + now apply (boundary_before _ run post Hne Hall) in Hb.
    + now apply (boundary_after _ run post Hne Hall) in Ha.
  - intros (pre & run & post & -> & Hrun & Hall & Hpre & Hpost).
    pose proof (nonempty_of_length _ _ Hrun) as Hne.
    exists pre, (run ++ post)%string. split; [reflexivity|]. split.
    + now apply boundary_before.
    + exists run, post. repeat split; auto; try lia.
      now apply boundary_after.
Qed.

Lemma one_or_two (d : string) :
  1 <= String.length d <= 1 + 1 -> all_chars PyStr.isdecimal d = true ->
  one_or_two_digits d /\ d <> "".
Proof.
  intros Hlen Hall. split; [split; [lia | exact Hall]|].
  destruct d; simpl in *; [lia | congruence].
Qed.

Lemma date_pattern_spec (t : string) :
  Re.search date_pattern t = true <-> has_date t.
Proof.
  rewrite search_spec. unfold has_date, delimited, date_pattern.
  cbn [accepts]. split.
  - intros (pre & rest & -> & Hb
            & d1 & r1 & -> & Hl1 & Ha1
            & x1 & r2 & -> & Hx1 & Hs1
            & d2 & r3 & -> & Hl2 & Ha2
            & x2 & r4 & -> & Hx2 & Hs2
            & d3 & post & -> & Hl3 & Ha3 & Hend & _).
    destruct (length_one x1 ltac:(lia)) as [s1 ->].
    destruct (length_one x2 ltac:(lia)) as [s2 ->].
    destruct (one_or_two d1 Hl1 Ha1) as [Hd1 Hne1].
    destruct (one_or_two d2 Hl2 Ha2) as [Hd2 Hne2].
    assert (String.length d3 = 4) as Hd3 by lia.
    pose proof (nonempty_of_length _ _ Hd3) as Hne3.
    simpl in Hs1, Hs2. rewrite andb_true_r in Hs1, Hs2.
    exists pre, d1, s1, d2, s2, d3, post.
    split; [simpl; rewrite ?append_assoc; simpl; rewrite ?append_assoc; reflexivity|].
    repeat split; try (apply Hd1 || apply Hd2); auto.
    + now apply dash_or_slash_separator.
    + now apply dash_or_slash_separator.
    + now apply (boundary_before _ d1 _ Hne1 Ha1) in Hb.
    + now apply (boundary_after _ d3 post Hne3 Ha3) in Hend.
  - intros (pre & d1 & s1 & d2 & s2 & d3 & post & -> & [Hl1 Ha1] & Hs1
            & [Hl2 Ha2] & Hs2 & Hl3 & Ha3 & Hpre & Hpost).
    assert (d1 <> "") as Hne1 by (destruct d1; simpl in *; [lia | congruence]).
    pose proof (nonempty_of_length _ _ Hl3) as Hne3.
    exists pre, (d1 ++ String s1 (d2 ++ String s2 (d3 ++ post)))%string.
    split; [simpl; rewrite !append_assoc; simpl; now rewrite !append_assoc|].
    split; [now apply boundary_before|].
    exists d1, (String s1 (d2 ++ String s2 (d3 ++ post)))%string.
    repeat split; auto; try lia.
    exists (String s1 ""), (d2 ++ String s2 (d3 ++ post))%string.
    repeat split; auto.
    { simpl. rewrite andb_true_r. now apply dash_or_slash_separator. }
    exists d2, (String s2 (d3 ++ post))%string.
    repeat split; auto; try lia.
    exists (String s2 ""), (d3 ++ post)%string.
    repeat split; auto.
    { simpl. rewrite andb_true_r. now apply dash_or_slash_separator. }
    exists d3, post. repeat split; auto; try lia.
    now apply boundary_after.
Qed.

Lemma id_pattern_nonempty : Re.search id_pattern "" = false.
Proof. reflexivity. Qed.

Lemma date_pattern_nonempty : Re.search date_pattern "" = false.
Proof. reflexivity. Qed.

End PatternFacts.

Section SortFacts.

Import Spec.

Context {A : Type}.
Variable key : A -> Q.

Lemma Qltb_lt (x y : Q) : Qltb x y = true <-> (x < y)%Q.
Proof.
  unfold Qltb. rewrite negb_true_iff. split.
  - intro H. apply Qnot_le_lt. intro Hle.
    apply Qle_bool_iff in Hle. congruence.
  - intro H. destruct (Qle_bool y x) eqn:E; [|reflexivity].
    apply Qle_bool_iff in E. exfalso. exact (Qlt_not_le _ _ H E).
Qed.

Lemma Qltb_ge (x y : Q) : Qltb x y = false <-> (y <= x)%Q.
Proof.
  unfold Qltb. rewrite negb_false_iff. apply Qle_bool_iff.
Qed.

Lemma insort_perm (x : A) (l : list A) : Permutation (insort key x l) (x :: l).
Proof.
  induction l as [|y l IH]; simpl; [reflexivity|].
  destruct (Qltb (key y) (key x)); [|reflexivity].
  rewrite IH. apply perm_swap.
Qed.

Lemma sorted_perm (l : list A) : Permutation (sorted l key) l.
Proof.
  induction l as [|x l IH]; simpl; [reflexivity|].
  unfold sorted in *. simpl. rewrite insort_perm. now constructor.
Qed.

Lemma sorted_length (l : list A) : List.length (sorted l key) = List.length l.
Proof. apply Permutation_length, sorted_perm. Qed.

Lemma insort_sorted (x : A) (l : list A) :
  StronglySorted (ascending key) l -> StronglySorted (ascending key) (insort key x l).
Proof.
  induction l as [|y l IH]; intro Hs; simpl.
  - constructor; constructor.
  - inversion Hs as [|? ? Hl Hy]; subst.
    destruct (Qltb (key y) (key x)) eqn:E.
    + constructor; [now apply IH|].
      apply (Permutation_Forall (Permutation_sym (insort_perm x l))).
      constructor; [|exact Hy].
      apply Qltb_lt in E. now apply Qlt_le_weak.
    + apply Qltb_ge in E. constructor; [exact Hs|].
      constructor; [exact E|].
      eapply Forall_impl; [|exact Hy].
      intros z Hz. unfold ascending in *. now apply Qle_trans with (key y).
Qed.

Lemma sorted_sorted (l : list A) : StronglySorted (ascending key) (sorted l key).
Proof.
  induction l as [|x l IH]; [constructor|].
  unfold sorted in *. simpl. now apply insort_sorted.
Qed.

Lemma insort_with_key (q : Q) (x : A) (l : list A) :
  with_key key q (insort key x l) = with_key key q (x :: l).
Proof.
  unfold with_key. induction l as [|y l IH]; [reflexivity|].
  cbn [insort]. destruct (Qltb (key y) (key x)) eqn:E; [|reflexivity].
  cbn [filter] in *. rewrite IH.
  destruct (Qeq_bool (key x) q) eqn:Ex; [|reflexivity].
  destruct (Qeq_bool (key y) q) eqn:Ey; [|reflexivity].
  exfalso. apply Qltb_lt in E. apply Qeq_bool_iff in Ex, Ey.
  rewrite Ex, Ey in E. exact (Qlt_irrefl _ E).
Qed.

Lemma sorted_with_key (q : Q) (l : list A) :
  with_key key q (sorted l key) = with_key key q l.
Proof.
  induction l as [|x l IH]; [reflexivity|].
  unfold sorted in *. cbn [fold_right]. rewrite insort_with_key.
  unfold with_key in *. cbn [filter]. now rewrite IH.
Qed.

Lemma with_key_head (x : A) (l : list A) :
  with_key key (key x) (x :: l) = x :: with_key key (key x) l.
Proof.
  unfold with_key. cbn [filter].
  now rewrite (proj2 (Qeq_bool_iff _ _) (Qeq_refl (key x))).
Qed.

(** Two lists in ascending order of the keys that list the elements of
    each key in the same order are equal: the result of a stable sort is
    determined. *)
Lemma stable_sorted_unique (l1 l2 : list A) :
  StronglySorted (ascending key) l1 -> StronglySorted (ascending key) l2 ->
  (forall q, with_key key q l1 = with_key key q l2) ->
  l1 = l2.
Proof.
  revert l2. induction l1 as [|a l1 IH]; intros l2 H1 H2 Hq.
  - destruct l2 as [|b l2]; [reflexivity|].
    specialize (Hq (key b)). rewrite with_key_head in Hq. discriminate.
  - destruct l2 as [|b l2].
    { specialize (Hq (key a)). rewrite with_key_head in Hq. discriminate. }
    inversion H1 as [|? ? Hs1 Ha]; subst.
    inversion H2 as [|? ? Hs2 Hb]; subst.
    assert (In a (b :: l2)) as Hina.
    { pose proof (Hq (key a)) as E. rewrite with_key_head in E.
      assert (In a (with_key key (key a) (b :: l2))) as Hin
          by (rewrite <- E; now left).
      unfold with_key in Hin. now apply filter_In in Hin. }
    assert (In b (a :: l1)) as Hinb.
    { pose proof (Hq (key b)) as E. rewrite (with_key_head b) in E.
      assert (In b (with_key key (key b) (a :: l1))) as Hin
          by (rewrite E; now left).
      unfold with_key in Hin. now apply filter_In in Hin. }
    assert (key a == key b)%Q as Hab.
    { apply Qle_antisym.
      - destruct Hinb as [<- | Hinb]; [apply Qle_refl|].
        rewrite Forall_forall in Ha. now apply Ha.
      - destruct Hina as [<- | Hina]; [apply Qle_refl|].
        rewrite Forall_forall in Hb. now apply Hb. }
    assert (a = b) as <-.
    { pose proof (Hq (key a)) as E. rewrite with_key_head in E.
      unfold with_key in E. cbn [filter] in E.
      rewrite (proj2 (Qeq_bool_iff _ _) (Qeq_sym _ _ Hab)) in E.
      now injection E. }
    f_equal. apply IH; auto.
    intro q. specialize (Hq q). unfold with_key in *. cbn [filter] in Hq.
    destruct (Qeq_bool (key a) q); [now injection Hq | exact Hq].
Qed.

(** So [sorted] returns the one list a stable ascending sort can return. *)
Lemma sorted_is_the_stable_sort (l l' : list A) :
  StronglySorted (ascending key) l' ->
  (forall q, with_key key q l' = with_key key q l) ->
  l' = sorted l key.
Proof.
  intros Hs Hq. apply stable_sorted_unique; [exact Hs | apply sorted_sorted|].
  intro q. now rewrite Hq, sorted_with_key.
Qed.

End SortFacts.

(* ------------------------------------------------------------------ *)
(** ** Floating-point rounding *)

Section FloatFacts.

Local Open Scope Q_scope.

Lemma rint_error (x : Q) : Qabs (inject_Z (rint x) - x) <= 1 # 2.
Proof.
  unfold rint.
  pose proof (Qfloor_le x) as Hlo. pose proof (Qlt_floor x) as Hhi.
  rewrite inject_Z_plus in Hhi. change (inject_Z 1) with 1 in Hhi.
  apply Qabs_Qle_condition.
  destruct (Qltb (x - inject_Z (Qfloor x)) (1 # 2)) eqn:E1.
  - apply Qltb_lt in E1. split; lra.
  - apply Qltb_ge in E1.
    destruct (Qltb (1 # 2) (x - inject_Z (Qfloor x))) eqn:E2.
    + rewrite inject_Z_plus. change (inject_Z 1) with 1. split; lra.
    + apply Qltb_ge in E2.
      destruct (Z.even (Qfloor x));
        [|rewrite inject_Z_plus; change (inject_Z 1) with 1]; split; lra.
Qed.

Lemma two_power_pos (k : Z) : 0 < 2 ^ k.
Proof. apply Qpower_0_lt. reflexivity. Qed.

Lemma two_power_nat (k : Z) : (0 <= k)%Z -> 2 ^ k == inject_Z (2 ^ k).
Proof. intro H. now rewrite Zpower_Qpower. Qed.

Lemma ilog2_le (q : Q) : ~ q == 0 -> 2 ^ Float.ilog2 q <= Qabs q.
Proof.
  intro Hq. unfold Float.ilog2.
  set (a := Z.abs (Qnum q)). set (d := Zpos (Qden q)).
  destruct (Qle_bool (2 ^ (Z.log2 a - Z.log2 d)) (Qabs q)) eqn:E.
  - now apply Qle_bool_iff.
  - clear E.
    assert (0 < a)%Z as Ha.
    { subst a. destruct q as [n dq]. unfold Qeq in Hq. simpl in *. lia. }
    assert (0 < d)%Z as Hd by (subst d; lia).
    destruct (Z.log2_spec a Ha) as [Ha1 _].
    destruct (Z.log2_spec d Hd) as [_ Hd2].
    pose proof (Z.log2_nonneg a) as Hla. pose proof (Z.log2_nonneg d) as Hld.
    replace (Z.log2 a - Z.log2 d - 1)%Z
      with (Z.log2 a + - (Z.succ (Z.log2 d)))%Z by lia.
    rewrite Qpower_plus by discriminate.
    rewrite Qpower_opp.
    rewrite !two_power_nat by lia.
    assert (Qabs q == inject_Z a / inject_Z d) as ->.
    { subst a d. destruct q as [n dq]. unfold Qabs. cbn [Qnum Qden].
      rewrite (Qmake_Qdiv (Z.abs n) dq). reflexivity. }
    set (A := (2 ^ Z.log2 a)%Z) in *. set (D := (2 ^ Z.succ (Z.log2 d))%Z) in *.
    assert (0 < inject_Z D) as HD. { change 0 with (inject_Z 0). rewrite <- Zlt_Qlt. lia. }
    assert (0 < inject_Z d) as Hdq. { change 0 with (inject_Z 0). rewrite <- Zlt_Qlt. lia. }
    assert (inject_Z A <= inject_Z a) as HA by (rewrite <- Zle_Qle; lia).
    assert (inject_Z d <= inject_Z D) as HdD by (rewrite <- Zle_Qle; lia).
    assert (0 < inject_Z A) as HA0.
    { change 0 with (inject_Z 0). rewrite <- Zlt_Qlt. subst A. apply Z.pow_pos_nonneg; lia. }
    apply Qle_shift_div_l; [exact Hdq|].
    unfold Qdiv. rewrite <- Qmult_assoc, (Qmult_comm (/ inject_Z D)), Qmult_assoc.
    apply Qle_shift_div_r; [exact HD|].
    apply Qle_trans with (inject_Z A * inject_Z D).
    + apply Qmult_le_l; auto.
    + apply Qmult_le_r; auto.
Qed.

Lemma ilog2_lt (q : Q) : ~ q == 0 -> Qabs q < 2 ^ (Float.ilog2 q + 1).
Proof.
  intro Hq. unfold Float.ilog2.
  set (a := Z.abs (Qnum q)). set (d := Zpos (Qden q)).
  destruct (Qle_bool (2 ^ (Z.log2 a - Z.log2 d)) (Qabs q)) eqn:E.
  - clear E.
    assert (0 < a)%Z as Ha.
    { subst a. destruct q as [n dq]. unfold Qeq in Hq. simpl in *. lia. }
    assert (0 < d)%Z as Hd by (subst d; lia).
    destruct (Z.log2_spec a Ha) as [_ Ha2].
    destruct (Z.log2_spec d Hd) as [Hd1 _].
    pose proof (Z.log2_nonneg a) as Hla. pose proof (Z.log2_nonneg d) as Hld.
    replace (Z.log2 a - Z.log2 d + 1)%Z
      with (Z.succ (Z.log2 a) + - Z.log2 d)%Z by lia.
    rewrite Qpower_plus by discriminate.
    rewrite Qpower_opp.
    rewrite !two_power_nat by lia.
    assert (Qabs q == inject_Z a / inject_Z d) as ->.
    { subst a d. destruct q as [n dq]. unfold Qabs. cbn [Qnum Qden].
      rewrite (Qmake_Qdiv (Z.abs n) dq). reflexivity. }
    set (A := (2 ^ Z.succ (Z.log2 a))%Z) in *. set (D := (2 ^ Z.log2 d)%Z) in *.
    assert (0 < D)%Z as HDz by (subst D; apply Z.pow_pos_nonneg; lia).
    assert (0 < inject_Z D) as HD. { change 0 with (inject_Z 0). rewrite <- Zlt_Qlt. lia. }
    assert (0 < inject_Z d) as Hdq. { change 0 with (inject_Z 0). rewrite <- Zlt_Qlt. lia. }
    assert (inject_Z a < inject_Z A) as HA by (rewrite <- Zlt_Qlt; lia).
    assert (inject_Z D <= inject_Z d) as HdD by (rewrite <- Zle_Qle; lia).
    assert (0 < inject_Z A) as HA0.
    { change 0 with (inject_Z 0). rewrite <- Zlt_Qlt. lia. }
    apply Qlt_shift_div_r; [exact Hdq|].
    fold (inject_Z A / inject_Z D).
    unfold Qdiv. rewrite <- Qmult_assoc, (Qmult_comm (/ inject_Z D)), Qmult_assoc.
    apply Qlt_shift_div_l; [exact HD|].
    apply Qlt_le_trans with (inject_Z A * inject_Z D).
    + apply Qmult_lt_r; auto.
    + apply Qmult_le_l; auto.
  - replace (Z.log2 a - Z.log2 d - 1 + 1)%Z with (Z.log2 a - Z.log2 d)%Z by lia.
    apply Qnot_le_lt. intro H. apply Qle_bool_iff in H. congruence.
Qed.

(** Rounding moves a number by at most [2^-prec] of its size. *)
Lemma round_float_error (prec : Z) (q : Q) :
  Qabs (Float.round_float prec q - q) <= 2 ^ (- prec) * Qabs q.
Proof.
  unfold Float.round_float.
  destruct (Qeq_bool q 0) eqn:E.
  - apply Qeq_bool_iff in E. rewrite E. simpl.
    rewrite Qmult_0_r. apply Qle_refl.
  - assert (~ q == 0) as Hq.
    { intro H. apply Qeq_bool_iff in H. congruence. }
    set (e := (Float.ilog2 q - (prec - 1))%Z).
    pose proof (two_power_pos e) as He.
    assert (inject_Z (rint (q / 2 ^ e)) * 2 ^ e - q
            == (inject_Z (rint (q / 2 ^ e)) - q / 2 ^ e) * 2 ^ e) as ->.
    { field. lra. }
    rewrite Qabs_Qmult, (Qabs_pos (2 ^ e)) by lra.
    apply Qle_trans with ((1 # 2) * 2 ^ e).
    + apply Qmult_le_compat_r; [apply rint_error | lra].
    + apply Qle_trans with (2 ^ (- prec) * 2 ^ Float.ilog2 q).
      * assert (2 ^ e == 2 ^ 1 * (2 ^ (- prec) * 2 ^ Float.ilog2 q)) as ->.
        { rewrite <- !Qpower_plus by discriminate. subst e.
          replace (Float.ilog2 q - (prec - 1))%Z
            with (1 + (- prec + Float.ilog2 q))%Z by lia.
          reflexivity. }
        change (2 ^ 1) with 2. lra.
      * apply Qmult_le_l; [apply two_power_pos | now apply ilog2_le].
Qed.

Lemma product_error (u w h w' h' A' : Q) :
  0 <= u -> u <= 1 # 4 ->
  Qabs (w' - w) <= u * Qabs w ->
  Qabs (h' - h) <= u * Qabs h ->
  Qabs (A' - w' * h') <= u * Qabs (w' * h') ->
  Qabs (A' - w * h) <= 4 * u * Qabs (w * h).
Proof.
  intros Hu0 Hu1 Hw Hh HA.
  assert (Qabs w' <= Qabs w + Qabs (w' - w)) as Hw'.
  { setoid_replace w' with (w + (w' - w)) at 1 by ring. apply Qabs_triangle. }
  assert (Qabs (w' * h' - w * h)
          <= Qabs w' * Qabs (h' - h) + Qabs h * Qabs (w' - w)) as HX.
  { setoid_replace (w' * h' - w * h) with (w' * (h' - h) + h * (w' - w)) by ring.
    rewrite <- !Qabs_Qmult. apply Qabs_triangle. }
  assert (Qabs (w' * h') <= Qabs (w * h) + Qabs (w' * h' - w * h)) as HP.
  { setoid_replace (w' * h') with (w * h + (w' * h' - w * h)) at 1 by ring.
    apply Qabs_triangle. }
  assert (Qabs (A' - w * h)
          <= Qabs (A' - w' * h') + Qabs (w' * h' - w * h)) as HT.
  { setoid_replace (A' - w * h) with ((A' - w' * h') + (w' * h' - w * h)) by ring.
    apply Qabs_triangle. }
  rewrite (Qabs_Qmult w h) in *.
  pose proof (Qabs_nonneg w) as W0. pose proof (Qabs_nonneg h) as H0.
  pose proof (Qabs_nonneg (w' - w)) as a0. pose proof (Qabs_nonneg (h' - h)) as b0.
  pose proof (Qabs_nonneg w') as W'0.
  revert Hw Hh HA Hw' HX HP HT W0 H0 a0 b0 W'0.
  generalize (Qabs w) (Qabs h) (Qabs (w' - w)) (Qabs (h' - h)) (Qabs w')
             (Qabs (w' * h' - w * h)) (Qabs (w' * h')) (Qabs (A' - w' * h'))
             (Qabs (A' - w * h)).
  intros W H a b W' X P c T Hw Hh HA Hw' HX HP HT W0 H0 a0 b0 W'0.
  assert (0 <= W * H) as K0 by (apply Qmult_le_0_compat; assumption).
  assert (W' * b <= (W + u * W) * (u * H)) as E1.
  { apply Qle_trans with ((W + u * W) * b).
    - apply Qmult_le_compat_r; [lra | exact b0].
    - rewrite !(Qmult_comm (W + u * W)).
      apply Qmult_le_compat_r; [exact Hh|].
      assert (0 <= u * W) by (apply Qmult_le_0_compat; assumption). lra. }
  assert (H * a <= H * (u * W)) as E2.
  { rewrite !(Qmult_comm H). apply Qmult_le_compat_r; [exact Hw | exact H0]. }
  assert (forall z, 0 <= z -> 0 <= u * z /\ u * z <= (1 # 4) * z) as Hsmall.
  { intros z Hz. split; [now apply Qmult_le_0_compat|].
    apply Qmult_le_compat_r; assumption. }
  destruct (Hsmall (W * H) K0) as [K1a K1b].
  destruct (Hsmall (u * (W * H)) K1a) as [K2a K2b].
  destruct (Hsmall (u * (u * (W * H))) K2a) as [K3a K3b].
  assert (X <= 2 * (u * (W * H)) + u * (u * (W * H))) as EX.
  { apply Qle_trans with (W' * b + H * a); [exact HX|].
    apply Qle_trans with ((W + u * W) * (u * H) + H * (u * W)); [lra|].
    apply Qle_lteq. right. ring. }
  assert (c <= u * (W * H + 2 * (u * (W * H)) + u * (u * (W * H)))) as Ec.
  { apply Qle_trans with (u * P); [exact HA|].
    rewrite !(Qmult_comm u). apply Qmult_le_compat_r; [lra | exact Hu0]. }
  assert (u * (W * H + 2 * (u * (W * H)) + u * (u * (W * H)))
          == u * (W * H) + 2 * (u * (u * (W * H))) + u * (u * (u * (W * H))))
    as Er by ring.
  rewrite Er in Ec.
  assert (4 * u * (W * H) == 4 * (u * (W * H))) as -> by ring.
  lra.
Qed.

Lemma rint_comp (x y : Q) : x == y -> rint x = rint y.
Proof.
  intro H. unfold rint, Qltb. cbv zeta.
  rewrite (Qfloor_comp x y H).
  assert (x - inject_Z (Qfloor y) == y - inject_Z (Qfloor y)) as E
      by (now rewrite H).
  now rewrite (Qleb_comp _ _ (Qeq_refl (1 # 2)) _ _ E),
              (Qleb_comp _ _ E _ _ (Qeq_refl (1 # 2))).
Qed.

(** The exponent depends on the value only, not on the fraction that
    stands for it. *)
Lemma ilog2_comp (x y : Q) : ~ x == 0 -> x == y -> Float.ilog2 x = Float.ilog2 y.
Proof.
  intros Hx H.
  assert (~ y == 0) as Hy by (now rewrite <- H).
  pose proof (ilog2_le x Hx) as Hx1. pose proof (ilog2_lt x Hx) as Hx2.
  pose proof (ilog2_le y Hy) as Hy1. pose proof (ilog2_lt y Hy) as Hy2.
  assert (Qabs x == Qabs y) as E by (now rewrite H).
  rewrite E in Hx1, Hx2.
  assert (Float.ilog2 x < Float.ilog2 y + 1)%Z.
  { apply (Qpower_lt_compat_l_inv 2); [|reflexivity].
    eapply Qle_lt_trans; [exact Hx1 | exact Hy2]. }
  assert (Float.ilog2 y < Float.ilog2 x + 1)%Z.
  { apply (Qpower_lt_compat_l_inv 2); [|reflexivity].
    eapply Qle_lt_trans; [exact Hy1 | exact Hx2]. }
  lia.
Qed.

Lemma round_float_comp (prec : Z) (x y : Q) :
  x == y -> Float.round_float prec x == Float.round_float prec y.
Proof.
  intro H. unfold Float.round_float.
  destruct (Qeq_bool x 0) eqn:Ex.
  - apply Qeq_bool_iff in Ex.
    assert (Qeq_bool y 0 = true) as ->; [|reflexivity].
    apply Qeq_bool_iff. now rewrite <- H.
  - assert (~ x == 0) as Hx.
    { intro E. apply Qeq_bool_iff in E. congruence. }
    assert (Qeq_bool y 0 = false) as ->.
    { destruct (Qeq_bool y 0) eqn:Ey; [|reflexivity].
      apply Qeq_bool_iff in Ey. exfalso. apply Hx. now rewrite H. }
    rewrite <- (ilog2_comp x y Hx H).
    rewrite (rint_comp (x / 2 ^ (Float.ilog2 x - (prec - 1)))
                       (y / 2 ^ (Float.ilog2 x - (prec - 1)))); [reflexivity|].
    apply Qmult_comp; [exact H | reflexivity].
Qed.

Lemma rint_whole (x : Q) (n : Z) : x == inject_Z n -> rint x = n.
Proof.
  intro H. unfold rint.
  assert (Qfloor x = n) as -> by (rewrite H; apply Qfloor_Z).
  assert (Qltb (x - inject_Z n) (1 # 2) = true) as ->; [|reflexivity].
  apply Qltb_lt. rewrite H. lra.
Qed.

(** A whole number below [2^prec] is a floating-point number. *)
Lemma round_float_whole (prec n : Z) :
  (Z.abs n < 2 ^ prec)%Z ->
  Float.round_float prec (inject_Z n) == inject_Z n.
Proof.
  intro Hn. unfold Float.round_float.
  destruct (Qeq_bool (inject_Z n) 0) eqn:E.
  - apply Qeq_bool_iff in E. now rewrite E.
  - assert (~ inject_Z n == 0) as Hq.
    { intro H. apply Qeq_bool_iff in H. congruence. }
    assert (0 <= prec)%Z as Hp.
    { destruct (Z.le_gt_cases 0 prec) as [H|H]; [exact H|].
      rewrite (Z.pow_neg_r _ _ H) in Hn. lia. }
    pose proof (ilog2_le _ Hq) as Hk.
    assert (Qabs (inject_Z n) < 2 ^ prec) as Hlt.
    { rewrite two_power_nat by exact Hp.
      unfold Qabs, inject_Z, Qlt. cbn [Qnum Qden]. lia. }
    assert (Float.ilog2 (inject_Z n) < prec)%Z as Hk'.
    { apply (Qpower_lt_compat_l_inv 2); [|reflexivity].
      eapply Qle_lt_trans; [exact Hk | exact Hlt]. }
    set (e := (Float.ilog2 (inject_Z n) - (prec - 1))%Z).
    assert (e <= 0)%Z as He by (subst e; lia).
    assert (2 ^ e == / inject_Z (2 ^ (- e))) as Epow.
    { replace e with (- - e)%Z at 1 by lia.
      rewrite Qpower_opp. now rewrite two_power_nat by lia. }
    assert (0 < inject_Z (2 ^ (- e))) as Hpos.
    { change 0 with (inject_Z 0). rewrite <- Zlt_Qlt.
      apply Z.pow_pos_nonneg; lia. }
    rewrite (rint_whole _ (n * 2 ^ (- e))).
    + rewrite inject_Z_mult, Epow. field. lra.
    + rewrite inject_Z_mult, Epow. field. lra.
Qed.

End FloatFacts.

Section ListFacts.

Import Spec.

Lemma find_app {A : Type} (p : A -> bool) (l l' : list A) :
  find p (l ++ l') = match find p l with
                     | Some x => Some x
                     | None => find p l'
                     end.
Proof.
  induction l as [|x l IH]; simpl; [reflexivity|].
  destruct (p x); [reflexivity | exact IH].
Qed.

Lemma first_match_snoc (p : string -> bool) (ls : list string) (t : string) :
  p "" = false ->
  first_match p (ls ++ [t])
  = if p t && negb (PyStr.truthy (first_match p ls)) then t
    else first_match p ls.
Proof.
  intro Hp. unfold first_match. rewrite find_app.
  destruct (find p ls) as [u|] eqn:E.
  - apply find_some in E as [_ Hu].
    assert (PyStr.truthy u = true) as ->.
    { destruct u; [congruence | reflexivity]. }
    now rewrite andb_false_r.
  - simpl. rewrite andb_true_r. now destruct (p t).
Qed.

Lemma last_match_snoc (p : string -> bool) (ls : list string) (t : string) :
  last_match p (ls ++ [t]) = if p t then Some t else last_match p ls.
Proof. unfold last_match. rewrite rev_app_distr. reflexivity. Qed.

Lemma find_none_of {A : Type} (p : A -> bool) (l : list A) :
  forallb (fun u => negb (p u)) l = true -> find p l = None.
Proof.
  induction l as [|x l IH]; simpl; [reflexivity|].
  intro H. apply andb_true_iff in H as [Hx H].
  apply negb_true_iff in Hx. rewrite Hx. now apply IH.
Qed.

(** [first_match] returns the matching line that no matching line
    precedes. *)
Lemma first_match_found (p : string -> bool) (pre post : list string) (t : string) :
  forallb (fun u => negb (p u)) pre = true -> p t = true ->
  first_match p (pre ++ t :: post) = t.
Proof.
  intros Hpre Ht. unfold first_match.
  rewrite find_app, (find_none_of p pre Hpre). simpl. now rewrite Ht.
Qed.

(** [last_match] returns the matching line that no matching line
    follows. *)
Lemma last_match_found (p : string -> bool) (pre post : list string) (t : string) :
  p t = true -> forallb (fun u => negb (p u)) post = true ->
  last_match p (pre ++ t :: post) = Some t.
Proof.
  intros Ht Hpost. unfold last_match.
  rewrite rev_app_distr. simpl. rewrite <- app_assoc, find_app.
  rewrite (find_none_of p (rev post)); [simpl; now rewrite Ht|].
  rewrite forallb_forall in *. intros u Hu. apply Hpost. now apply in_rev.
Qed.

Lemma join_snoc (sep : string) (l : list string) (t : string) :
  l <> [] ->
  PyStr.join sep (l ++ [t]) = (PyStr.join sep l ++ sep ++ t)%string.
Proof.
  induction l as [|a l IH]; intro Hne; [congruence|].
  destruct l as [|b l].
  - reflexivity.
  - change (PyStr.join sep ((a :: b :: l) ++ [t]))
      with (a ++ sep ++ PyStr.join sep ((b :: l) ++ [t]))%string.
    rewrite IH by discriminate.
    change (PyStr.join sep (a :: b :: l))
      with (a ++ sep ++ PyStr.join sep (b :: l))%string.
    now rewrite !append_assoc.
Qed.

Lemma join_truthy (sep : string) (l : list string) :
  l <> [] -> Forall (fun s => s <> "") l ->
  PyStr.truthy (PyStr.join sep l) = true.
Proof.
  intros Hne Hall. destruct l as [|a l]; [congruence|].
  inversion Hall as [|? ? Ha _]; subst.
  assert (PyStr.truthy a = true) as Hta by (destruct a; [congruence | reflexivity]).
  destruct l as [|b l]; [exact Hta|].
  change (PyStr.join sep (a :: b :: l))
    with (a ++ sep ++ PyStr.join sep (b :: l))%string.
  now apply truthy_append.
Qed.

Lemma join_filter_snoc (p : string -> bool) (ls : list string) (t : string) :
  p "" = false ->
  PyStr.join " " (filter p (ls ++ [t]))
  = if p t
    then if negb (PyStr.truthy (PyStr.join " " (filter p ls))) then t
         else (PyStr.join " " (filter p ls) ++ " " ++ t)%string
    else PyStr.join " " (filter p ls).
Proof.
  intro Hp. rewrite filter_app. cbn [filter].
  destruct (p t); [|now rewrite app_nil_r].
  destruct (filter p ls) as [|a l] eqn:E; [reflexivity|].
  rewrite join_truthy.
  - cbn [negb]. apply join_snoc. discriminate.
  - discriminate.
  - rewrite <- E. apply Forall_forall. intros s Hs.
    apply filter_In in Hs as [_ Hs]. intros ->. congruence.
Qed.

End ListFacts.

Section ParseFacts.

Import Spec IDCardService.

Lemma name_condition (t : string) :
  any (fun keyword => PyStr.contains keyword (PyStr.lower t)) ["nama"; "name"]
  && (10 <? String.length t) = name_line t.
Proof.
  unfold any, name_line, contains_nocase. cbn [existsb].
  now rewrite orb_false_r.
Qed.

Lemma gender_condition (t : string) :
  any (fun gender => PyStr.contains gender (PyStr.lower t))
      ["laki-laki"; "perempuan"; "male"; "female"] = gender_line t.
Proof.
  unfold any, gender_line, contains_nocase. cbn [existsb].
  now rewrite orb_false_r, !orb_assoc.
Qed.

(** The keyword ["JL"] of the source never occurs in a lowered text. *)
Lemma address_condition (t : string) :
  any (fun addr_keyword => PyStr.contains addr_keyword (PyStr.lower t))
      ["jl"; "jalan"; "rt"; "rw"; "kel"; "kec"; "JL"] = address_line t.
Proof.
  unfold any, address_line, contains_nocase. cbn [existsb].
  rewrite contains_J_lower. now rewrite !orb_false_r, !orb_assoc.
Qed.

Lemma name_line_nonempty : name_line "" = false.
Proof. reflexivity. Qed.

Lemma address_line_nonempty : address_line "" = false.
Proof. reflexivity. Qed.

(** The effect of one turn of the loop, field by field. *)
Lemma parse_item_fields (d : IdData) (item : TextItem) :
  parse_item d item =
  let t := trimmed item in
  {| id_number :=
       if Re.search id_pattern t && negb (PyStr.truthy (id_number d))
       then t else id_number d;
     name := if name_line t then clean_name t else name d;
     place_of_birth := place_of_birth d;
     date_of_birth :=
       if Re.search date_pattern t && negb (PyStr.truthy (date_of_birth d))
       then t else date_of_birth d;
     gender := if gender_line t then t else gender d;
     address :=
       if address_line t
       then if negb (PyStr.truthy (address d)) then t
            else (address d ++ " " ++ t)%string
       else address d;
     religion := religion d; marital_status := marital_status d;
     occupation := occupation d; nationality := nationality d;
     valid_until := valid_until d;
     raw_text := raw_text d ++ [t] |}.
Proof.
  unfold parse_item. fold (trimmed item).
  rewrite name_condition, gender_condition, address_condition.
  cbv zeta. generalize (trimmed item) as t. intro t.
  destruct d as [idn nm pob dob gen adr rel mar occ nat val raw].
  fields.
  destruct (Re.search id_pattern t && negb (PyStr.truthy idn)); fields;
    destruct (name_line t); fields;
    destruct (Re.search date_pattern t && negb (PyStr.truthy dob)); fields;
    destruct (gender_line t); fields;
    destruct (address_line t); fields;
    try destruct (negb (PyStr.truthy adr)); reflexivity.
Qed.

Lemma record_of_snoc (ls : list string) (item : TextItem) :
  parse_item (record_of ls) item = record_of (ls ++ [trimmed item]).
Proof.
  rewrite parse_item_fields. cbv zeta. unfold record_of. fields.
  rewrite !first_match_snoc by reflexivity.
  rewrite !last_match_snoc.
  rewrite join_filter_snoc by reflexivity.
  destruct (name_line (trimmed item)); destruct (gender_line (trimmed item));
    reflexivity.
Qed.

Lemma fold_parse_item (its : list TextItem) (ls : list string) :
  fold_left parse_item its (record_of ls) = record_of (ls ++ map trimmed its).
Proof.
  revert ls. induction its as [|item its IH]; intro ls; simpl.
  - now rewrite app_nil_r.
  - rewrite record_of_snoc, IH, <- app_assoc. reflexivity.
Qed.

(** The heuristic computes the record of the rules on the lines. *)
Lemma parse_id_card_data_record (items : list TextItem) :
  parse_id_card_data items = record_of (lines items).
Proof.
  unfold parse_id_card_data, lines.
  change empty_id_data with (record_of []).
  now rewrite fold_parse_item.
Qed.

End ParseFacts.

Section AgreeFacts.

Import Spec IDCardService.

Lemma Qltb_compat (a b a' b' : Q) :
  (a == a')%Q -> (b == b')%Q -> Qltb a b = Qltb a' b'.
Proof.
  intros Ha Hb. destruct (Qltb a' b') eqn:E.
  - apply Qltb_lt. apply Qltb_lt in E. now rewrite Ha, Hb.
  - apply Qltb_ge. apply Qltb_ge in E. now rewrite Ha, Hb.
Qed.

Lemma insort_agree (x x' : TextItem) (l l' : list TextItem) :
  agree x x' -> Forall2 agree l l' ->
  Forall2 agree (insort center_y x l) (insort center_y x' l').
Proof.
  intros Hx Hl. induction Hl as [|y y' l l' Hy Hl IH]; simpl.
  - constructor; [exact Hx | constructor].
  - rewrite (Qltb_compat _ _ _ _ (proj2 Hy) (proj2 Hx)).
    destruct (Qltb (center_y y') (center_y x')).
    + constructor; [exact Hy | exact IH].
    + constructor; [exact Hx|]. constructor; [exact Hy | exact Hl].
Qed.

Lemma sorted_agree (l l' : list TextItem) :
  Forall2 agree l l' ->
  Forall2 agree (sorted l center_y) (sorted l' center_y).
Proof.
  intro H. induction H as [|x x' l l' Hx Hl IH]; [constructor|].
  unfold sorted in *. simpl. now apply insort_agree.
Qed.

Lemma trimmed_agree (l l' : list TextItem) :
  Forall2 agree l l' -> map trimmed l = map trimmed l'.
Proof.
  intro H. induction H as [|x x' l l' [Hx _] Hl IH]; [reflexivity|].
  simpl. unfold trimmed at 1 3. now rewrite Hx, IH.
Qed.

Lemma lines_agree (l l' : list TextItem) :
  Forall2 agree l l' -> lines l = lines l'.
Proof. intro H. unfold lines. now apply trimmed_agree, sorted_agree. Qed.

End AgreeFacts.

Section MaxFacts.

Context {A : Type}.
Variable key : A -> Q.

(** [max] returns the first element whose key is maximal. *)
Lemma max_from_first (best : A) (l : list A) :
  exists before after,
    best :: l = before ++ max_from key best l :: after
    /\ Forall (fun x => key x < key (max_from key best l))%Q before
    /\ Forall (fun x => key x <= key (max_from key best l))%Q after.
Proof.
  revert best. induction l as [|y l IH]; intro best.
  - exists [], []. simpl. repeat split; constructor.
  - cbn [max_from]. destruct (Qltb (key best) (key y)) eqn:E.
    + destruct (IH y) as (before & after & Heq & Hb & Ha).
      exists (best :: before), after. split; [simpl; now rewrite Heq|].
      split; [|exact Ha]. constructor; [|exact Hb].
      apply Qltb_lt in E.
      assert (In y (before ++ max_from key y l :: after)) as Hin
          by (rewrite <- Heq; now left).
      apply in_app_or in Hin as [Hin | [Hy | Hin]].
      * rewrite Forall_forall in Hb. eapply Qlt_trans; [exact E | now apply Hb].
      * rewrite Hy. exact E.
      * rewrite Forall_forall in Ha. eapply Qlt_le_trans; [exact E | now apply Ha].
    + destruct (IH best) as (before & after & Heq & Hb & Ha).
      apply Qltb_ge in E.
      destruct before as [|b0 before].
      * simpl in Heq. injection Heq as Hm Hl.
        exists [], (y :: l). rewrite <- Hm.
        split; [reflexivity|]. split; [constructor|].
        constructor; [exact E|]. rewrite Hl, Hm. exact Ha.
      * simpl in Heq. injection Heq as <- Hl.
        exists (best :: y :: before), after.
        split; [simpl; now rewrite <- Hl|]. split; [|exact Ha].
        inversion Hb as [|? ? Hbest Hrest]; subst.
        constructor; [exact Hbest|]. constructor; [|exact Hrest].
        eapply Qle_lt_trans; [exact E | exact Hbest].
Qed.

End MaxFacts.

Section DetectFacts.

Import Spec IDCardService.

Lemma largest_box_skip (pre : list (option (list Box))) (rest : list (option (list Box))) :
  forallb no_boxes pre = true -> largest_box (pre ++ rest) = largest_box rest.
Proof.
  induction pre as [|r pre IH]; intro H; [reflexivity|].
  simpl in H. apply andb_true_iff in H as [Hr H].
  destruct r as [[|b bs]|]; simpl in *; try discriminate; now apply IH.
Qed.

Lemma largest_box_none (results : list (option (list Box))) :
  forallb no_boxes results = true -> largest_box results = Ok None.
Proof.
  intro H. rewrite <- (app_nil_r results). now rewrite largest_box_skip.
Qed.

Lemma get_bbox_center_four (xa ya xb yb xc yc xd yd : Q) :
  _get_bbox_center [[xa; ya]; [xb; yb]; [xc; yc]; [xd; yd]]
  = Ok ((0 + xa + xb + xc + xd) / 4, (0 + ya + yb + yc + yd) / 4)%Q.
Proof. reflexivity. Qed.

Lemma get_bbox_center_two_lists (xs ys : list Q) :
  _get_bbox_center [xs; ys] = Raise IndexError.
Proof.
  unfold _get_bbox_center. cbn [List.length Nat.eqb andb].
  destruct xs as [|x0 xs]; [reflexivity|].
  destruct ys as [|y0 ys]; reflexivity.
Qed.

End DetectFacts.

Section AreaFacts.

Import Spec IDCardService IDCardApi BatchSpec.

Local Open Scope Q_scope.

(** The area that [max] compares is the area of the box up to one part
    in [2^22]. *)
Lemma area_error (x : Box) :
  Qabs (box_area x - exact_area x) <= area_tolerance * Qabs (exact_area x).
Proof.
  destruct x as [[[x0 x1] x2] x3]. unfold box_area, exact_area, Float.f32.
  assert (area_tolerance == 4 * 2 ^ (-24)) as -> by reflexivity.
  apply (product_error (2 ^ (-24)) (x2 - x0) (x3 - x1)
                       (Float.round_float 24 (x2 - x0))
                       (Float.round_float 24 (x3 - x1))).
  - discriminate.
  - discriminate.
  - apply round_float_error.
  - apply round_float_error.
  - apply round_float_error.
Qed.

Lemma small_whole_exact (q : Q) :
  small_whole q = true -> Float.f32 q == q.
Proof.
  unfold small_whole. intro H. apply andb_true_iff in H as [Hq Hn].
  apply Qeq_bool_iff in Hq. apply Z.ltb_lt in Hn.
  unfold Float.f32.
  apply Qeq_trans with (Float.round_float 24 (inject_Z (Qfloor q))).
  - now apply round_float_comp.
  - apply Qeq_trans with (inject_Z (Qfloor q)).
    + now apply round_float_whole.
    + now apply Qeq_sym.
Qed.

(** On a box of whole width, height and area of less than 24 bits the
    area is computed without rounding. *)
Lemma box_area_exact (x : Box) :
  exactly_measured x = true -> box_area x == exact_area x.
Proof.
  destruct x as [[[x0 x1] x2] x3]. unfold exactly_measured, box_area, exact_area.
  intro H. apply andb_true_iff in H as [H Ha].
  apply andb_true_iff in H as [Hw Hh].
  apply small_whole_exact in Hw, Hh, Ha.
  unfold Float.f32 in *.
  rewrite (round_float_comp 24 _ ((x2 - x0) * (x3 - x1))).
  - exact Ha.
  - now rewrite Hw, Hh.
Qed.

(** The rounded average is the average up to half a unit of the fourth
    decimal and the two roundings of double precision. *)
Lemma round4_error (x : Q) : Qabs (round4 x - x) <= rounding4 x.
Proof.
  unfold round4, rounding4, Float.f64.
  pose proof (round_float_error 53 (x * 10000)) as H1.
  pose proof (rint_error (Float.round_float 53 (x * 10000))) as H2.
  set (s' := Float.round_float 53 (x * 10000)) in *.
  set (r := inject_Z (rint s')) in *.
  pose proof (round_float_error 53 (r / 10000)) as H3.
  set (a := Float.round_float 53 (r / 10000)) in *.
  assert (2 ^ (-53) == 1 # 9007199254740992) as Eu by reflexivity.
  rewrite Eu in H1, H3.
  rewrite Qabs_Qmult in H1. change (Qabs 10000) with 10000 in H1.
  assert (Qabs (r / 10000) <= Qabs x + Qabs (r / 10000 - x)) as H4.
  { setoid_replace (r / 10000) with (x + (r / 10000 - x)) at 1 by ring.
    apply Qabs_triangle. }
  pose proof (Qabs_nonneg x) as X0.
  apply Qabs_Qle_condition in H1, H2, H3.
  clearbody a r s'. unfold Qdiv in *. change (/ 10000) with (1 # 10000) in *.
  assert (Qabs (r * (1 # 10000) - x)
          <= (1 # 20000) + (1 # 9007199254740992) * Qabs x) as H5.
  { apply Qabs_Qle_condition. revert H1 X0. generalize (Qabs x).
    intros X H1 X0. split; lra. }
  apply Qabs_Qle_condition.
  revert H1 H3 H4 H5 X0.
  generalize (Qabs x) (Qabs (r * (1 # 10000)))
             (Qabs (r * (1 # 10000) - x)).
  intros X T D H1 H3 H4 H5 X0. split; lra.
Qed.

End AreaFacts.

Section BatchFacts.

Import IDCardService IDCardApi BatchSpec.

Variable app : App.
Variable service : ServiceHandle.

Lemma entry_of_index (i : nat) (file : FileStorage) :
  index (entry_of app service (i, file)) = i.
Proof.
  unfold entry_of, processed_entry.
  destruct (String.eqb (filename file) ""); [reflexivity|].
  destruct (negb (allowed_file (filename file))); [reflexivity|].
  destruct (process_id_card service (upload_path app i file)) as [[]|];
    reflexivity.
Qed.

Lemma entry_of_filename (i : nat) (file : FileStorage) :
  entry_filename (entry_of app service (i, file)) = filename file.
Proof.
  unfold entry_of, processed_entry.
  destruct (String.eqb (filename file) "") eqn:E.
  - apply String.eqb_eq in E. now rewrite E.
  - destruct (negb (allowed_file (filename file))); [reflexivity|].
    destruct (process_id_card service (upload_path app i file)) as [[]|];
      reflexivity.
Qed.

Lemma entry_of_success (i : nat) (file : FileStorage) :
  success (entry_of app service (i, file)) = processed_ok app service (i, file).
Proof.
  unfold entry_of, processed_ok, valid_name, processed_entry.
  destruct (String.eqb (filename file) ""); [reflexivity|].
  destruct (allowed_file (filename file)); [|reflexivity].
  destruct (process_id_card service (upload_path app i file)) as [[]|];
    reflexivity.
Qed.

(** The entry of a file says why the file was not processed, or what
    processing it gave. *)
Lemma entry_of_reported (i : nat) (file : FileStorage) :
  reported app service i file (entry_of app service (i, file)).
Proof.
  unfold reported, entry_of, processed_entry.
  destruct (String.eqb (filename file) ""); [reflexivity|].
  destruct (allowed_file (filename file)); cbn [negb]; [|reflexivity].
  destruct (process_id_card service (upload_path app i file))
    as [[path detected bbox data raw scores avg|err path]|ex];
    try reflexivity.
  cbn [index entry_filename success error card_detected extracted_data
       avg_confidence].
  repeat (split; [reflexivity|]).
  exists (round4 avg). split; [reflexivity | apply round4_error].
Qed.

Lemma process_files_entries (files : list FileStorage) (i : nat)
      (results : list Entry) (uploaded_files : list string) :
  forallb (saved app) (combine (seq i (List.length files)) files) = true ->
  exists uploaded,
    process_files app service i files results uploaded_files
    = Ok (results ++ map (entry_of app service)
                         (combine (seq i (List.length files)) files),
          uploaded).
Proof.
  revert i results uploaded_files.
  induction files as [|file files IH]; intros i results uploaded_files Hs.
  - exists uploaded_files. simpl. now rewrite app_nil_r.
  - cbn [List.length seq combine forallb map] in *.
    apply andb_true_iff in Hs as [Hfile Hs].
    cbn [process_files]. unfold entry_of at 1.
    unfold saved, valid_name in Hfile.
    destruct (String.eqb (filename file) "") eqn:Ename.
    + destruct (IH (S i) (results ++ [failed_entry i "" "Empty filename"])
                   uploaded_files Hs) as [u Hu].
      exists u. rewrite Hu, <- app_assoc. reflexivity.
    + destruct (allowed_file (filename file)) eqn:Eallowed; cbn [negb].
      * cbn [negb andb orb] in Hfile. fold (upload_path app i file).
        destruct (save file (upload_path app i file)) as [[]|e];
          [|discriminate].
        cbn [bind].
        destruct (IH (S i)
                     (results ++ [processed_entry service i (filename file)
                                                  (upload_path app i file)])
                     (uploaded_files ++ [upload_path app i file]) Hs)
          as [u Hu].
        exists u. rewrite Hu, <- app_assoc. reflexivity.
      * destruct (IH (S i)
                     (results ++ [failed_entry i (filename file)
                                               "File type not allowed"])
                     uploaded_files Hs) as [u Hu].
        exists u. rewrite Hu, <- app_assoc. reflexivity.
Qed.

Lemma nth_error_enumerate_from {A : Type} (l : list A) (s i : nat) (a : A) :
  nth_error l i = Some a ->
  nth_error (combine (seq s (List.length l)) l) i = Some (s + i, a).
Proof.
  revert s i. induction l as [|x l IH]; intros s i H.
  - destruct i; discriminate.
  - destruct i as [|i]; simpl in *.
    + injection H as ->. now rewrite Nat.add_0_r.
    + rewrite (IH (S s) i H). f_equal. f_equal. lia.
Qed.

Lemma enumerate_length {A : Type} (l : list A) :
  List.length (enumerate l) = List.length l.
Proof.
  unfold enumerate. rewrite length_combine, length_seq. apply Nat.min_id.
Qed.

(** The loop does not guard [file.save]: when saving the file of index
    [i + length before] raises, the loop raises, whatever the files after
    it. *)
Lemma process_files_save_raises (before after : list FileStorage)
      (file : FileStorage) (i : nat) (results : list Entry)
      (uploaded_files : list string) (e : exn) :
  forallb (saved app) (combine (seq i (List.length before)) before) = true ->
  valid_name file = true ->
  save file (upload_path app (i + List.length before) file) = Raise e ->
  process_files app service i (before ++ file :: after) results uploaded_files
  = Raise e.
Proof.
  revert i results uploaded_files.
  induction before as [|f before IH]; intros i results uploaded_files Hs Hv He.
  - cbn [List.length] in He. rewrite Nat.add_0_r in He.
    unfold valid_name in Hv. apply andb_true_iff in Hv as [Hn Ha].
    apply negb_true_iff in Hn.
    cbn [List.app process_files]. rewrite Hn, Ha. cbn [negb].
    fold (upload_path app i file). now rewrite He.
  - cbn [List.length seq combine forallb] in Hs.
    apply andb_true_iff in Hs as [Hf Hs].
    cbn [List.length] in He. rewrite <- Nat.add_succ_comm in He.
    cbn [List.app process_files]. unfold saved, valid_name in Hf.
    destruct (String.eqb (filename f) ""); [now apply IH|].
    destruct (allowed_file (filename f)); cbn [negb]; [|now apply IH].
    cbn [negb andb orb] in Hf. fold (upload_path app i f).
    destruct (save f (upload_path app i f)) as [[]|]; [|discriminate].
    cbn [bind]. now apply IH.
Qed.

(** Then the endpoint answers 500 and reports no entry. *)
Lemma batch_aborts_when_save_raises (before after : list FileStorage)
      (file : FileStorage) (e : exn) :
  forallb (saved app) (enumerate before) = true ->
  valid_name file = true ->
  save file (upload_path app (List.length before) file) = Raise e ->
  batch_process_id_cards app (Some service) (Some (before ++ file :: after))
  = (ErrorBody ("Internal server error: " ++ str_exn e) false, 500).
Proof.
  intros Hs Hv He. unfold batch_process_id_cards.
  rewrite (process_files_save_raises before after file 0 [] [] e Hs Hv He).
  now destruct before.
Qed.

End BatchFacts.

(* ------------------------------------------------------------------ *)
(** ** The properties of the specification *)

Section Claims.

Import Spec IDCardService IDCardApi BatchSpec.

(** C1: for every input, [raw_text] has as many entries as there are
    items, and they are the trimmed texts of the items sorted by
    ascending center y-coordinate with a stable sort: the sorted list is a
    permutation of the input in ascending order of the keys, and the items
    of equal key keep their input order. *)
Theorem raw_text_sorted_by_center_y (items : list TextItem) :
  raw_text (parse_id_card_data items) = map trimmed (sorted items center_y)
  /\ List.length (raw_text (parse_id_card_data items)) = List.length items
  /\ Permutation (sorted items center_y) items
  /\ StronglySorted above (sorted items center_y)
  /\ (forall q, with_key center_y q (sorted items center_y)
                = with_key center_y q items).
Proof.
  rewrite parse_id_card_data_record. cbn [record_of raw_text]. unfold lines.
  split; [reflexivity|].
  split; [now rewrite length_map, sorted_length|].
  split; [apply sorted_perm|].
  split; [apply sorted_sorted | intro q; apply sorted_with_key].
Qed.

(** C2, as the code has it: a polygon given as 4 (x,y) pairs is accepted
    and its center is the pair of the arithmetic means of the 4
    x-coordinates and of the 4 y-coordinates; a polygon given as two
    parallel coordinate lists is not accepted, the call raises
    [IndexError]. *)
Theorem bbox_center_of_four_points :
  (forall xa ya xb yb xc yc xd yd : Q,
      exists cx cy,
        _get_bbox_center [[xa; ya]; [xb; yb]; [xc; yc]; [xd; yd]] = Ok (cx, cy)
        /\ (cx == mean4 xa xb xc xd)%Q /\ (cy == mean4 ya yb yc yd)%Q)
  /\ (forall xs ys : list Q, _get_bbox_center [xs; ys] = Raise IndexError).
Proof.
  split.
  - intros. eexists. eexists. split; [apply get_bbox_center_four|].
    unfold mean4. split; field.
  - apply get_bbox_center_two_lists.
Qed.

(** C2 fails on the second encoding: on the quadrilateral with corners
    (0,0), (10,0), (10,4), (0,4) given as the list of its x-coordinates and
    the list of its y-coordinates no center is returned. *)
Lemma bbox_center_parallel_lists_raises :
  ~ (exists c, _get_bbox_center Samples.parallel_lists = Ok c).
Proof. intros [c H]. discriminate H. Qed.

(** C3: [name] is last-match-wins: it is the cleaned text (["Nama"] and
    ["Name"] removed, then trimmed) of the last line, in sorted order, that
    contains "nama" or "name" whatever the case and is longer than 10
    characters, and the empty string when there is no such line; each
    matching line overwrites the name found before. *)
Theorem name_last_match_wins (items : list TextItem) :
  name (parse_id_card_data items)
  = match last_match name_line (lines items) with
    | Some t => clean_name t
    | None => ""
    end
  /\ (forall d item,
         name (parse_item d item)
         = if name_line (trimmed item) then clean_name (trimmed item)
           else name d).
Proof.
  split; [now rewrite parse_id_card_data_record|].
  intros d item. now rewrite parse_item_fields.
Qed.

(** C4: [id_number] is first-match-wins: it is the whole text of the first
    line, in sorted order, in which the pattern of 16 digits is found, and
    the empty string when there is none; the pattern is found exactly in
    the lines that contain a run of exactly 16 digits between word
    boundaries; a line does not change an [id_number] already set. *)
Theorem id_number_first_match_wins (items : list TextItem) :
  id_number (parse_id_card_data items)
  = first_match (Re.search id_pattern) (lines items)
  /\ (forall t, Re.search id_pattern t = true <-> has_id_run t)
  /\ (forall d item,
         id_number d <> "" -> id_number (parse_item d item) = id_number d).
Proof.
  split; [now rewrite parse_id_card_data_record|].
  split; [apply id_pattern_spec|].
  intros d item Hd. rewrite parse_item_fields. cbv zeta. cbn [id_number].
  destruct (id_number d); [congruence|].
  now rewrite andb_false_r.
Qed.

(** C5: [date_of_birth] is first-match-wins: it is the whole text of the
    first line, in sorted order, in which the date pattern is found, and
    the empty string when there is none; the pattern is found exactly in
    the lines that contain, between word boundaries, 1-2 digits, [-] or
    [/], 1-2 digits, [-] or [/], 4 digits; a line does not change a
    [date_of_birth] already set. *)
Theorem date_of_birth_first_match_wins (items : list TextItem) :
  date_of_birth (parse_id_card_data items)
  = first_match (Re.search date_pattern) (lines items)
  /\ (forall t, Re.search date_pattern t = true <-> has_date t)
  /\ (forall d item,
         date_of_birth d <> "" ->
         date_of_birth (parse_item d item) = date_of_birth d).
Proof.
  split; [now rewrite parse_id_card_data_record|].
  split; [apply date_pattern_spec|].
  intros d item Hd. rewrite parse_item_fields. cbv zeta. cbn [date_of_birth].
  destruct (date_of_birth d); [congruence|].
  now rewrite andb_false_r.
Qed.

(** C6: [address] accumulates: a line that contains one of "jl", "jalan",
    "rt", "rw", "kel", "kec" whatever the case becomes the address when
    the address is empty and is appended after a single space otherwise;
    the address is the matching lines joined by a space, in sorted
    order. *)
Theorem address_accumulates (items : list TextItem) :
  address (parse_id_card_data items)
  = PyStr.join " " (filter address_line (lines items))
  /\ (forall d item,
         address (parse_item d item)
         = if address_line (trimmed item)
           then if String.eqb (address d) "" then trimmed item
                else (address d ++ " " ++ trimmed item)%string
           else address d).
Proof.
  split; [now rewrite parse_id_card_data_record|].
  intros d item. rewrite parse_item_fields. cbv zeta. cbn [address].
  now destruct (address d).
Qed.

(** C8: for every input, the empty one included, [place_of_birth],
    [religion], [marital_status], [occupation], [nationality] and
    [valid_until] are the empty string. *)
Theorem placeholder_fields_empty (items : list TextItem) :
  place_of_birth (parse_id_card_data items) = ""
  /\ religion (parse_id_card_data items) = ""
  /\ marital_status (parse_id_card_data items) = ""
  /\ occupation (parse_id_card_data items) = ""
  /\ nationality (parse_id_card_data items) = ""
  /\ valid_until (parse_id_card_data items) = ""
  /\ parse_id_card_data [] = empty_id_data.
Proof.
  rewrite parse_id_card_data_record. repeat split; reflexivity.
Qed.

(** C10: two inputs whose items agree pairwise on the text and on the
    y-coordinate of the center give the same record: confidences,
    polygons and x-coordinates have no influence. *)
Theorem parse_ignores_unused_components (items items' : list TextItem) :
  Forall2 agree items items' ->
  parse_id_card_data items = parse_id_card_data items'.
Proof.
  intro H. rewrite !parse_id_card_data_record. f_equal. now apply lines_agree.
Qed.

Lemma parse_ignores_unused_components_witness :
  Forall2 agree Samples.card_items Samples.card_items'
  /\ parse_id_card_data Samples.card_items
     = parse_id_card_data Samples.card_items'.
Proof.
  assert (Forall2 agree Samples.card_items Samples.card_items') as H.
  { repeat (apply Forall2_cons; [split; reflexivity|]). apply Forall2_nil. }
  split; [exact H|].
  exact (parse_ignores_unused_components _ _ H).
Defined.

(** C7: when the detector returns boxes, the box selected is the first
    one whose area, computed in single precision as the source does, is
    greatest, with its coordinates converted by [int]; measured exactly
    (width times height) no box is greater than the selected one by more
    than one part in [2^22] of the two areas, and the selected box is the
    first of greatest exact area when widths, heights and areas are whole
    numbers of less than 24 bits; of (0,0,10,10) and (0,0,5,100) the
    second is selected; and when no box is detected nothing is cropped:
    the pipeline goes on with the whole image as it was opened. *)
Theorem largest_box_selected :
  (forall self image_path detector pre b bs post,
      card_detector self = Some detector ->
      detector image_path = Ok (pre ++ Some (b :: bs) :: post) ->
      forallb no_boxes pre = true ->
      exists before best after,
        b :: bs = before ++ best :: after
        /\ detect_id_card self image_path = Some (int_box best)
        /\ Forall (fun x => box_area x < box_area best)%Q before
        /\ Forall (fun x => box_area x <= box_area best)%Q after
        /\ (forall x, In x (b :: bs) ->
              exact_area x
              <= exact_area best
                 + area_tolerance * (Qabs (exact_area x) + Qabs (exact_area best)))%Q
        /\ (forallb exactly_measured (b :: bs) = true ->
            Forall (fun x => exact_area x < exact_area best)%Q before
            /\ Forall (fun x => exact_area x <= exact_area best)%Q after))
  /\ (forall self image_path detector,
         card_detector self = Some detector ->
         detector image_path
         = Ok [Some [(0, 0, 10, 10); (0, 0, 5, 100)]%Q] ->
         detect_id_card self image_path = Some (0, 0, 5, 100)%Z)
  /\ (forall self image_path,
         nothing_detected self image_path ->
         detect_id_card self image_path = None
         /\ crop_id_card self image_path (detect_id_card self image_path)
            = image_open self image_path).
Proof.
  split; [|split].
  - intros self image_path detector pre b bs post Hd Hr Hpre.
    destruct (max_from_first box_area b bs) as (before & after & Heq & Hb & Ha).
    set (best := max_from box_area b bs) in *.
    assert (forall x, In x (b :: bs) -> (box_area x <= box_area best)%Q) as Hmax.
    { intros x Hx. rewrite Heq in Hx. rewrite Forall_forall in Hb, Ha.
      apply in_app_or in Hx as [Hx | [Hx | Hx]].
      - apply Qlt_le_weak. now apply Hb.
      - rewrite Hx. apply Qle_refl.
      - now apply Ha. }
    exists before, best, after.
    split; [exact Heq|]. split.
    { unfold detect_id_card. rewrite Hd, Hr. cbn [bind].
      now rewrite largest_box_skip. }
    split; [exact Hb|]. split; [exact Ha|]. split.
    + intros x Hx. specialize (Hmax x Hx).
      pose proof (area_error x) as Ex. pose proof (area_error best) as Eb.
      apply Qabs_Qle_condition in Ex, Eb.
      rewrite Qmult_plus_distr_r.
      revert Hmax Ex Eb.
      generalize (area_tolerance * Qabs (exact_area x))%Q
                 (area_tolerance * Qabs (exact_area best))%Q.
      intros tx tb Hmax Ex Eb. lra.
    + intro Hexact. rewrite forallb_forall in Hexact.
      assert (forall x, In x (b :: bs) -> (box_area x == exact_area x)%Q) as Hsame
          by (intros x Hx; apply box_area_exact; now apply Hexact).
      assert (In best (b :: bs)) as Hbest
          by (rewrite Heq; apply in_or_app; right; now left).
      rewrite Forall_forall in Hb, Ha.
      split; apply Forall_forall; intros x Hx.
      * rewrite <- (Hsame best Hbest), <- (Hsame x).
        -- now apply Hb.
        -- rewrite Heq. apply in_or_app. now left.
      * rewrite <- (Hsame best Hbest), <- (Hsame x).
        -- now apply Ha.
        -- rewrite Heq. apply in_or_app. right. now right.
  - intros self image_path detector Hd Hr.
    unfold detect_id_card. now rewrite Hd, Hr.
  - intros self image_path H.
    assert (detect_id_card self image_path = None) as E.
    { unfold nothing_detected in H. unfold detect_id_card.
      destruct (card_detector self) as [detector|]; [|reflexivity].
      destruct (detector image_path) as [results|e]; [|reflexivity].
      cbn [bind]. now rewrite largest_box_none. }
    split; [exact E|]. rewrite E. unfold crop_id_card.
    now destruct (image_open self image_path).
Qed.

Lemma largest_box_selected_witness :
  (exists before best after,
      [(0, 0, 10, 10); (0, 0, 5, 100); (0, 0, 100, 5)]%Q
      = before ++ best :: after
      /\ detect_id_card Samples.finding_service "card.png"
         = Some (int_box best)
      /\ Forall (fun x => box_area x < box_area best)%Q before
      /\ Forall (fun x => box_area x <= box_area best)%Q after
      /\ (forall x,
            In x [(0, 0, 10, 10); (0, 0, 5, 100); (0, 0, 100, 5)]%Q ->
            exact_area x
            <= exact_area best
               + area_tolerance * (Qabs (exact_area x) + Qabs (exact_area best)))%Q
      /\ (forallb exactly_measured
                  [(0, 0, 10, 10); (0, 0, 5, 100); (0, 0, 100, 5)]%Q = true ->
          Forall (fun x => exact_area x < exact_area best)%Q before
          /\ Forall (fun x => exact_area x <= exact_area best)%Q after))
  /\ forallb exactly_measured
             [(0, 0, 10, 10); (0, 0, 5, 100); (0, 0, 100, 5)]%Q = true
  /\ detect_id_card Samples.blind_service "card.png" = None
  /\ crop_id_card Samples.blind_service "card.png"
       (detect_id_card Samples.blind_service "card.png")
     = Samples.whole_picture "card.png".
Proof.
  split; [|split].
  - exact (proj1 largest_box_selected Samples.finding_service "card.png"
                 (fun _ => Ok Samples.found_boxes) [None; Some []]
                 (0, 0, 10, 10)%Q [(0, 0, 5, 100); (0, 0, 100, 5)]%Q
                 [Some [(0, 0, 200, 200)%Q]]
                 eq_refl eq_refl eq_refl).
  - reflexivity.
  - apply (proj2 (proj2 largest_box_selected) Samples.blind_service "card.png").
    reflexivity.
Defined.

(** Of the boxes (0,0,4096,4098) and (0,0,4097,4097) the first is
    selected, although its area, 16785408, is the smaller one: in single
    precision the area of the second, 16785409, rounds to 16785408 as
    well, and [max] keeps the first of two equal keys. *)
Lemma largest_box_not_of_greatest_area :
  detect_id_card Samples.near_tie_service "card.png"
  = Some (0, 0, 4096, 4098)%Z
  /\ (exact_area (0, 0, 4096, 4098) < exact_area (0, 0, 4097, 4097))%Q
  /\ (box_area (0, 0, 4096, 4098) == box_area (0, 0, 4097, 4097))%Q.
Proof.
  split; [|split]; reflexivity.
Qed.

(** Of three boxes of areas 100, 500 and 500 the first of area 500 is
    returned. *)
Example detect_first_largest :
  detect_id_card Samples.finding_service "card.png" = Some (0, 0, 5, 100)%Z.
Proof. reflexivity. Qed.

(** C9: in a batch, when every upload with an accepted name can be
    saved, every file gets its own entry, computed from this file alone:
    the response lists one entry for each index, in order, with the index,
    the file name and a success flag; a file whose name is rejected, or
    whose processing fails or raises, gets an entry with the flag off and
    the error (the reason of the rejection, the error of the failed result,
    or the message of the exception), and a file processed with success
    gets an entry with the flag on, no error, and the data of its result;
    the other files are processed all the same.  Saving is not isolated:
    when the first upload that cannot be saved is reached, the response is
    the error 500 with the message of that exception, and no entry at
    all, whatever the other files are. *)
Theorem batch_isolates_failures (app : App) (service : ServiceHandle) :
  (forall file files,
      forallb (saved app) (enumerate (file :: files)) = true ->
      exists results,
        batch_process_id_cards app (Some service) (Some (file :: files))
        = (BatchBody true (List.length (file :: files))
                     (List.length (filter success results)) results, 200)
        /\ List.length results = List.length (file :: files)
        /\ (forall i f,
               nth_error (file :: files) i = Some f ->
               exists e,
                 nth_error results i = Some e
                 /\ index e = i
                 /\ entry_filename e = filename f
                 /\ success e = processed_ok app service (i, f)
                 /\ reported app service i f e))
  /\ (forall before file after ex,
         forallb (saved app) (enumerate before) = true ->
         valid_name file = true ->
         save file (upload_path app (List.length before) file) = Raise ex ->
         batch_process_id_cards app (Some service)
                                (Some (before ++ file :: after))
         = (ErrorBody ("Internal server error: " ++ str_exn ex) false, 500)).
Proof.
  split.
  - intros file files Hs.
    exists (map (entry_of app service) (enumerate (file :: files))).
    split; [|split].
    + unfold batch_process_id_cards.
      destruct (process_files_entries app service (file :: files) 0 [] [] Hs)
        as [uploaded Hu].
      rewrite Hu. reflexivity.
    + now rewrite length_map, enumerate_length.
    + intros i f Hf. exists (entry_of app service (i, f)).
      split.
      * unfold enumerate.
        rewrite (nth_error_map (entry_of app service)).
        now rewrite (nth_error_enumerate_from _ 0 i f Hf).
      * split; [apply entry_of_index|].
        split; [apply entry_of_filename|].
        split; [apply entry_of_success | apply entry_of_reported].
  - intros before file after ex. apply batch_aborts_when_save_raises.
Qed.

Lemma batch_isolates_failures_witness :
  forallb (saved Samples.sample_app) (enumerate Samples.sample_files) = true
  /\ map (processed_ok Samples.sample_app Samples.moody_handle)
         (enumerate Samples.sample_files)
     = [true; false; false; false; false; true]
  /\ (exists results,
         batch_process_id_cards Samples.sample_app (Some Samples.moody_handle)
                                (Some Samples.sample_files)
         = (BatchBody true 6 (List.length (filter success results)) results,
            200)
         /\ List.length results = 6
         /\ (forall i f,
                nth_error Samples.sample_files i = Some f ->
                exists e,
                  nth_error results i = Some e
                  /\ index e = i
                  /\ entry_filename e = filename f
                  /\ success e
                     = processed_ok Samples.sample_app Samples.moody_handle (i, f)
                  /\ reported Samples.sample_app Samples.moody_handle i f e))
  /\ batch_process_id_cards Samples.sample_app (Some Samples.moody_handle)
                            (Some Samples.full_disk_files)
     = (ErrorBody "Internal server error: disk full" false, 500).
Proof.
  split; [reflexivity|]. split; [reflexivity|]. split.
  - exact (proj1 (batch_isolates_failures Samples.sample_app Samples.moody_handle)
                 (Samples.upload "front.png") (tl Samples.sample_files)
                 eq_refl).
  - exact (proj2 (batch_isolates_failures Samples.sample_app Samples.moody_handle)
                 [Samples.upload "front.png"]
                 (nth 1 Samples.full_disk_files (Samples.upload ""))
                 [Samples.upload "last.webp"]
                 (PyExn "OSError" "disk full")
                 eq_refl eq_refl eq_refl).
Defined.

(** Of three uploads with accepted names, the second cannot be saved: the
    batch answers 500 and reports no entry, neither for the first file,
    which was processed, nor for the third, which could have been. *)
Lemma batch_aborted_by_a_failing_save :
  batch_process_id_cards Samples.sample_app
                         (Some (handle_of Samples.finding_service))
                         (Some Samples.full_disk_files)
  = (ErrorBody "Internal server error: disk full" false, 500)
  /\ map valid_name Samples.full_disk_files = [true; true; true]
  /\ map (processed_ok Samples.sample_app (handle_of Samples.finding_service))
         (enumerate Samples.full_disk_files)
     = [true; true; true].
Proof.
  repeat split; reflexivity.
Qed.

(** The examples of the specification. *)

Example parse_nothing :
  parse_id_card_data [] = empty_id_data.
Proof. reflexivity. Qed.

Example parse_id_line :
  id_number (parse_id_card_data [Samples.line_at "ID 1234567890123456 rest" 1])
  = "ID 1234567890123456 rest".
Proof. reflexivity. Qed.

Example parse_two_names :
  name (parse_id_card_data [Samples.line_at "Nama: Budi Hartono X" 1;
                            Samples.line_at "Name: Siti Aminah Y" 2])
  = ": Siti Aminah Y".
Proof. reflexivity. Qed.

Example parse_two_address_lines :
  address (parse_id_card_data [Samples.line_at "Jl. Merdeka No 5" 1;
                               Samples.line_at "RT 01 RW 02" 2])
  = "Jl. Merdeka No 5 RT 01 RW 02".
Proof. reflexivity. Qed.

Example parse_two_dates :
  date_of_birth (parse_id_card_data [Samples.line_at "Lahir: 17-08-1990" 1;
                                     Samples.line_at "Berlaku: 01/02/2030" 2])
  = "Lahir: 17-08-1990".
Proof. reflexivity. Qed.

Example parse_sample_card :
  raw_text (parse_id_card_data Samples.card_items)
  = ["ID 1234567890123456 rest"; "Nama: Budi Hartono X"; "Lahir: 17-08-1990";
     "RT 01 RW 02"; "Jl. Merdeka No 5"].
Proof. reflexivity. Qed.

End Claims.

(* ------------------------------------------------------------------ *)
(** ** Further properties of the heuristic *)

Section HeuristicFacts.

Import Spec Props IDCardService.

Lemma contains_tail (c : ascii) (p s : string) :
  PyStr.contains (String c p) s = true -> PyStr.contains p s = true.
Proof.
  induction s as [|b s IH].
  - simpl. discriminate.
  - cbn [PyStr.contains PyStr.startswith]. intro H.
    apply orb_true_iff in H as [H | H]; apply orb_true_iff; right.
    + apply andb_true_iff in H as [_ H].
      destruct s; cbn [PyStr.contains]; now rewrite H.
    + now apply IH.
Qed.

Lemma female_is_male (t : string) :
  contains_nocase "female" t = true -> contains_nocase "male" t = true.
Proof.
  unfold contains_nocase. intro H. now apply contains_tail, contains_tail in H.
Qed.

(** The rule for [gender], which has no guard: the last line, in sorted
    order, that contains one of the keywords whatever the case decides,
    and no such line leaves the field empty; the keyword "female" adds
    nothing to "male". *)
Theorem gender_last_match_wins (items : list TextItem) :
  gender (parse_id_card_data items)
  = match last_match gender_line (lines items) with
    | Some t => t
    | None => ""
    end
  /\ (forall t,
         gender_line t
         = contains_nocase "laki-laki" t || contains_nocase "perempuan" t
           || contains_nocase "male" t).
Proof.
  split; [now rewrite parse_id_card_data_record|].
  intro t. unfold gender_line.
  destruct (contains_nocase "female" t) eqn:E; [|now rewrite orb_false_r].
  rewrite (female_is_male t E). now rewrite !orb_true_r.
Qed.

Lemma with_key_perm {A : Type} (key : A -> Q) (q : Q) (l l' : list A) :
  Permutation l l' -> Permutation (with_key key q l) (with_key key q l').
Proof.
  unfold with_key. induction 1 as [|x l l' _ IH|x y l|l l' l'' _ IH1 _ IH2]; simpl.
  - constructor.
  - destruct (Qeq_bool (key x) q); [now constructor | exact IH].
  - destruct (Qeq_bool (key x) q), (Qeq_bool (key y) q);
      try reflexivity. apply perm_swap.
  - now transitivity (filter (fun x => Qeq_bool (key x) q) l').
Qed.

Lemma with_key_short (q : Q) (items : list TextItem) :
  distinct_heights items = true ->
  List.length (with_key center_y q items) <= 1.
Proof.
  induction items as [|x items IH]; intro H; [simpl; lia|].
  cbn [distinct_heights] in H. apply andb_true_iff in H as [Hx H].
  unfold with_key in *. cbn [filter].
  destruct (Qeq_bool (center_y x) q) eqn:E; [|now apply IH].
  assert (filter (fun y => Qeq_bool (center_y y) q) items = []) as ->; [|simpl; lia].
  clear IH H. induction items as [|y items IH]; [reflexivity|].
  cbn [forallb] in Hx. apply andb_true_iff in Hx as [Hy Hx].
  cbn [filter]. destruct (Qeq_bool (center_y y) q) eqn:Ey; [|now apply IH].
  exfalso. apply negb_true_iff in Hy.
  apply Qeq_bool_iff in E, Ey.
  assert (Qeq_bool (center_y x) (center_y y) = true) as C.
  { apply Qeq_bool_iff. now rewrite E, Ey. }
  congruence.
Qed.

Lemma short_perm_eq {A : Type} (l l' : list A) :
  List.length l <= 1 -> Permutation l l' -> l = l'.
Proof.
  destruct l as [|a [|b l]]; simpl; intros Hlen Hp.
  - symmetry. now apply Permutation_nil.
  - symmetry. now apply Permutation_length_1_inv.
  - lia.
Qed.

Lemma sorted_of_permutation (items items' : list TextItem) :
  Permutation items items' -> distinct_heights items = true ->
  sorted items center_y = sorted items' center_y.
Proof.
  intros Hp Hd. apply (stable_sorted_unique center_y); try apply sorted_sorted.
  intro q. rewrite !sorted_with_key.
  apply short_perm_eq; [now apply with_key_short | now apply with_key_perm].
Qed.

(** When no two items are at the same height, the order in which the OCR
    engine lists them does not matter: every permutation of the input gives
    the same record. *)
Theorem parse_order_independent (items items' : list TextItem) :
  Permutation items items' ->
  distinct_heights items = true ->
  parse_id_card_data items = parse_id_card_data items'.
Proof.
  intros Hp Hd. rewrite !parse_id_card_data_record. f_equal.
  unfold lines. f_equal. now apply sorted_of_permutation.
Qed.

Lemma parse_order_independent_witness :
  Permutation MoreSamples.ordered_items MoreSamples.shuffled_items
  /\ distinct_heights MoreSamples.ordered_items = true
  /\ parse_id_card_data MoreSamples.ordered_items
     = parse_id_card_data MoreSamples.shuffled_items.
Proof.
  assert (Permutation MoreSamples.ordered_items MoreSamples.shuffled_items) as Hp.
  { unfold MoreSamples.ordered_items, MoreSamples.shuffled_items.
    apply Permutation_cons_app with (l1 := [Samples.line_at "Jl. Merdeka No 5" 40]).
    simpl.
    apply Permutation_cons_app
      with (l1 := [Samples.line_at "Jl. Merdeka No 5" 40; Samples.line_at "Laki-Laki" 20]).
    simpl. apply perm_swap. }
  split; [exact Hp|]. split; [reflexivity|].
  exact (parse_order_independent MoreSamples.ordered_items
           MoreSamples.shuffled_items Hp eq_refl).
Defined.

Lemma top_to_bottom_sorted (items : list TextItem) :
  top_to_bottom items = true -> StronglySorted (ascending center_y) items.
Proof.
  induction items as [|x items IH]; intro H; [constructor|].
  cbn [top_to_bottom] in H. apply andb_true_iff in H as [Hx H].
  constructor; [now apply IH|].
  apply Forall_forall. intros y Hy. rewrite forallb_forall in Hx.
  apply Qle_bool_iff. now apply Hx.
Qed.

(** Items that already come top to bottom are not reordered, also when
    some are at the same height: [raw_text] lists their trimmed texts in the
    order of the input. *)
Theorem parse_keeps_reading_order (items : list TextItem) :
  top_to_bottom items = true ->
  raw_text (parse_id_card_data items) = map trimmed items.
Proof.
  intro H. rewrite parse_id_card_data_record. cbn [record_of raw_text].
  unfold lines. f_equal. symmetry.
  apply sorted_is_the_stable_sort; [now apply top_to_bottom_sorted | reflexivity].
Qed.

Lemma parse_keeps_reading_order_witness :
  top_to_bottom MoreSamples.sorted_items = true
  /\ raw_text (parse_id_card_data MoreSamples.sorted_items)
     = map trimmed MoreSamples.sorted_items.
Proof.
  split; [reflexivity|].
  exact (parse_keeps_reading_order MoreSamples.sorted_items eq_refl).
Defined.

Lemma first_match_origin (p : string -> bool) (l : list string) :
  first_match p l = ""
  \/ (In (first_match p l) l /\ p (first_match p l) = true).
Proof.
  unfold first_match. destruct (find p l) as [t|] eqn:E; [right | now left].
  now apply find_some in E.
Qed.

(** What the single-valued fields hold: [id_number] is empty or a line of
    [raw_text] with a run of exactly 16 digits between word boundaries,
    [date_of_birth] is empty or a line of [raw_text] with a date, [gender]
    is empty or a line of [raw_text] with a gender keyword. *)
Theorem fields_come_from_raw_text (items : list TextItem) :
  let d := parse_id_card_data items in
  (id_number d = "" \/ (In (id_number d) (raw_text d) /\ has_id_run (id_number d)))
  /\ (date_of_birth d = ""
      \/ (In (date_of_birth d) (raw_text d) /\ has_date (date_of_birth d)))
  /\ (gender d = "" \/ (In (gender d) (raw_text d) /\ gender_line (gender d) = true)).
Proof.
  cbv zeta. rewrite parse_id_card_data_record.
  cbn [record_of id_number date_of_birth gender raw_text].
  split; [|split].
  - destruct (first_match_origin (Re.search id_pattern) (lines items)) as [E | [Hin Hp]];
      [now left | right].
    split; [exact Hin | now apply id_pattern_spec].
  - destruct (first_match_origin (Re.search date_pattern) (lines items)) as [E | [Hin Hp]];
      [now left | right].
    split; [exact Hin | now apply date_pattern_spec].
  - unfold last_match. destruct (find gender_line (rev (lines items))) as [t|] eqn:E;
      [right | now left].
    apply find_some in E as [Hin Hp]. split; [now apply in_rev | exact Hp].
Qed.

Lemma lstrip_no_lead (s : string) : starts_with_space (PyStr.lstrip s) = false.
Proof.
  induction s as [|c s IH]; [reflexivity|].
  simpl. destruct (PyStr.isspace c) eqn:E; [exact IH | simpl; exact E].
Qed.

Lemma rstrip_no_trail (s : string) : ends_with_space (PyStr.rstrip s) = false.
Proof.
  induction s as [|c s IH]; [reflexivity|].
  cbn [PyStr.rstrip]. destruct (PyStr.rstrip s) as [|b r] eqn:E.
  - destruct (PyStr.isspace c) eqn:Ec; [reflexivity | simpl; exact Ec].
  - exact IH.
Qed.

Lemma rstrip_keeps_head (s : string) :
  starts_with_space s = false -> starts_with_space (PyStr.rstrip s) = false.
Proof.
  destruct s as [|c s]; [reflexivity|].
  cbn [PyStr.rstrip starts_with_space]. intro H.
  destruct (PyStr.rstrip s); [rewrite H|]; simpl; auto.
Qed.

Lemma lstrip_fixed (s : string) :
  starts_with_space s = false -> PyStr.lstrip s = s.
Proof. destruct s; simpl; [reflexivity | now intros ->]. Qed.

Lemma rstrip_fixed (s : string) :
  ends_with_space s = false -> PyStr.rstrip s = s.
Proof.
  induction s as [|c s IH]; [reflexivity|].
  cbn [PyStr.rstrip ends_with_space]. destruct s as [|b s].
  - simpl. now intros ->.
  - intro H. now rewrite (IH H).
Qed.

Lemma strip_edges (s : string) :
  starts_with_space (PyStr.strip s) = false
  /\ ends_with_space (PyStr.strip s) = false
  /\ PyStr.strip (PyStr.strip s) = PyStr.strip s.
Proof.
  assert (starts_with_space (PyStr.strip s) = false) as H1
      by apply rstrip_keeps_head, lstrip_no_lead.
  assert (ends_with_space (PyStr.strip s) = false) as H2
      by apply rstrip_no_trail.
  repeat split; auto.
  unfold PyStr.strip at 1. now rewrite (lstrip_fixed _ H1), (rstrip_fixed _ H2).
Qed.

(** Every line of [raw_text] is trimmed: it neither starts nor ends with a
    whitespace character, and trimming it again changes nothing. *)
Theorem raw_text_lines_trimmed (items : list TextItem) :
  Forall (fun t => starts_with_space t = false
                   /\ ends_with_space t = false
                   /\ PyStr.strip t = t)
         (raw_text (parse_id_card_data items)).
Proof.
  rewrite parse_id_card_data_record. cbn [record_of raw_text].
  unfold lines. apply Forall_forall. intros t Ht.
  apply in_map_iff in Ht as (x & <- & _). apply strip_edges.
Qed.

(** [address] is empty exactly when no line has an address keyword. *)
Theorem address_empty_iff (items : list TextItem) :
  address (parse_id_card_data items) = ""
  <-> filter address_line (lines items) = [].
Proof.
  rewrite parse_id_card_data_record. cbn [record_of address]. split.
  - intro H. destruct (filter address_line (lines items)) as [|a l] eqn:E;
      [reflexivity|].
    exfalso.
    assert (PyStr.truthy (PyStr.join " " (a :: l)) = true) as T.
    { apply join_truthy; [discriminate|].
      rewrite <- E. apply Forall_forall. intros s Hs.
      apply filter_In in Hs as [_ Hs]. intros ->. discriminate Hs. }
    rewrite H in T. discriminate T.
  - now intros ->.
Qed.

End HeuristicFacts.

(* ------------------------------------------------------------------ *)
(** ** Detection, cropping and centers *)

Section GeometryFacts.

Import Spec Props IDCardService.

(** With a box, the window cut out of the opened image never leaves the
    image, whatever the box, and stays a window of the same picture. *)
Theorem crop_stays_inside (self : Service) (image_path : string)
        (bbox : IntBox) (image r : Image) :
  image_open self image_path = Ok image ->
  crop_id_card self image_path (Some bbox) = Ok r ->
  inside r image /\ source r = source image.
Proof.
  intros Ho. unfold crop_id_card. rewrite Ho. cbn [bind].
  destruct bbox as [[[x1 y1] x2] y2]. unfold crop.
  destruct (Z.ltb_spec (Z.min (width image) (x2 + 10)) (Z.max 0 (x1 - 10)));
    [discriminate|].
  destruct (Z.ltb_spec (Z.min (height image) (y2 + 10)) (Z.max 0 (y1 - 10)));
    [discriminate|].
  intros [= <-].
  unfold inside. cbn [left upper width height source].
  repeat split; lia.
Qed.

Lemma crop_stays_inside_witness :
  inside {| source := "card.png"; left := 0; upper := 460;
            width := 640; height := 20 |} MoreSamples.picture
  /\ "card.png" = "card.png".
Proof.
  apply (crop_stays_inside Samples.finding_service "card.png"
           (-50, 470, 900, 2000)%Z MoreSamples.picture); reflexivity.
Defined.

(** A box that lies in the image is kept whole: the window covers it, with
    a margin of at most 10 pixels on each side, and is not empty when the
    box is not. *)
Theorem crop_covers_box (self : Service) (image_path : string)
        (x1 y1 x2 y2 : Z) (image : Image) :
  image_open self image_path = Ok image ->
  (0 <= x1 <= x2)%Z -> (x2 <= width image)%Z ->
  (0 <= y1 <= y2)%Z -> (y2 <= height image)%Z ->
  exists r,
    crop_id_card self image_path (Some (x1, y1, x2, y2)) = Ok r
    /\ covers r image (x1, y1, x2, y2) 10
    /\ (x2 - x1 <= width r)%Z /\ (y2 - y1 <= height r)%Z.
Proof.
  intros Ho Hx Hw Hy Hh. unfold crop_id_card. rewrite Ho. cbn [bind].
  unfold crop.
  destruct (Z.ltb_spec (Z.min (width image) (x2 + 10)) (Z.max 0 (x1 - 10)));
    [lia|].
  destruct (Z.ltb_spec (Z.min (height image) (y2 + 10)) (Z.max 0 (y1 - 10)));
    [lia|].
  eexists. split; [reflexivity|].
  unfold covers. cbn [left upper width height].
  repeat split; lia.
Qed.

Lemma crop_covers_box_witness :
  exists r,
    crop_id_card Samples.finding_service "card.png" (Some MoreSamples.box_in_picture)
    = Ok r
    /\ covers r MoreSamples.picture MoreSamples.box_in_picture 10
    /\ (625 <= width r)%Z /\ (300 <= height r)%Z.
Proof.
  apply (crop_covers_box Samples.finding_service "card.png" 5 100 630 400
                         MoreSamples.picture); [reflexivity | | | | ];
    simpl; lia.
Defined.

Lemma largest_box_never_raises (results : list (option (list Box))) :
  exists r, largest_box results = Ok r.
Proof.
  induction results as [|[[|b bs]|] results IH]; simpl; eauto.
Qed.

Lemma largest_box_none_inv (results : list (option (list Box))) :
  largest_box results = Ok None -> forallb no_boxes results = true.
Proof.
  induction results as [|[[|b bs]|] results IH]; simpl; auto.
  discriminate.
Qed.

Lemma detect_none_of_nothing (self : Service) (image_path : string) :
  nothing_detected self image_path -> detect_id_card self image_path = None.
Proof.
  unfold detect_id_card, nothing_detected.
  destruct (card_detector self) as [detector|]; [|reflexivity].
  destruct (detector image_path) as [results|e]; cbn [bind]; [|reflexivity].
  intro H. now rewrite largest_box_none.
Qed.

Lemma nothing_of_detect_none (self : Service) (image_path : string) :
  detect_id_card self image_path = None -> nothing_detected self image_path.
Proof.
  unfold detect_id_card, nothing_detected.
  destruct (card_detector self) as [detector|]; [|tauto].
  destruct (detector image_path) as [results|e]; cbn [bind]; [|tauto].
  intro H. apply largest_box_none_inv.
  destruct (largest_box_never_raises results) as [r Hr].
  rewrite Hr in *. now subst r.
Qed.

(** [detect_id_card] returns [None] exactly when nothing is detected: the
    detector is not loaded, or its call raises, or no result has a box.  A
    failure of the detector is never passed on. *)
Theorem detect_none_iff (self : Service) (image_path : string) :
  detect_id_card self image_path = None <-> nothing_detected self image_path.
Proof.
  split.
  - apply nothing_of_detect_none.
  - apply detect_none_of_nothing.
Qed.

Lemma getitem_index_error {A : Type} (l : list A) (i : nat) :
  raises_index_error (getitem l i).
Proof.
  unfold raises_index_error, getitem. intros e.
  destruct (nth_error l i); [discriminate | now intros [= <-]].
Qed.

Lemma bind_index_error {A B : Type} (r : result A) (k : A -> result B) :
  raises_index_error r -> (forall a, raises_index_error (k a)) ->
  raises_index_error (bind r k).
Proof.
  intros Hr Hk e. destruct r as [a|e0]; cbn [bind].
  - apply Hk.
  - intros [= <-]. now apply Hr.
Qed.

Lemma ok_index_error {A : Type} (a : A) : raises_index_error (Ok a).
Proof. intros e. discriminate. Qed.

Lemma comprehension_index_error {A B : Type} (f : A -> result B) (l : list A) :
  (forall a, raises_index_error (f a)) ->
  raises_index_error (comprehension f l).
Proof.
  intro Hf. induction l as [|a l IH]; cbn [comprehension].
  - apply ok_index_error.
  - apply bind_index_error; [apply Hf|]. intro b.
    apply bind_index_error; [exact IH|]. intro bs. apply ok_index_error.
Qed.

Lemma get_bbox_center_index_error (bbox : Polygon) :
  raises_index_error (_get_bbox_center bbox).
Proof.
  unfold _get_bbox_center.
  apply bind_index_error.
  - match goal with |- context [if ?b then _ else _] => destruct b end.
    + repeat (apply bind_index_error;
              [apply comprehension_index_error; intro; apply getitem_index_error
              | intro]).
      apply ok_index_error.
    + repeat (apply bind_index_error; [apply getitem_index_error | intro]).
      apply ok_index_error.
  - intros [xs ys]. apply ok_index_error.
Qed.

Lemma get_bbox_center_points (xa ya xb yb xc yc xd yd : Q)
      (ra rb rc rd : list Q) (more : Polygon) :
  _get_bbox_center (point xa ya ra :: point xb yb rb :: point xc yc rc
                    :: point xd yd rd :: more)
  = Ok ((0 + xa + xb + xc + xd) / 4, (0 + ya + yb + yc + yd) / 4)%Q.
Proof.
  destruct more as [|pe more]; destruct ra as [|za ra]; reflexivity.
Qed.

Lemma get_bbox_center_shape (polygon : Polygon) (c : Q * Q) :
  _get_bbox_center polygon = Ok c ->
  exists xa ya ra xb yb rb xc yc rc xd yd rd more,
    polygon = point xa ya ra :: point xb yb rb :: point xc yc rc
              :: point xd yd rd :: more.
Proof.
  intro H.
  destruct polygon as [|pa [|pb [|pc [|pd more]]]].
  - discriminate H.
  - destruct pa as [|xa [|ya ra]]; discriminate H.
  - destruct pa as [|xa [|ya ra]]; destruct pb as [|xb [|yb rb]];
      discriminate H.
  - destruct pa as [|xa [|ya ra]]; destruct pb as [|xb [|yb rb]];
      destruct pc as [|xc [|yc rc]]; discriminate H.
  - destruct pa as [|xa [|ya ra]]; destruct pb as [|xb [|yb rb]];
      destruct pc as [|xc [|yc rc]]; destruct pd as [|xd [|yd rd]];
      try (destruct more; discriminate H);
      try (destruct more; destruct ra; discriminate H).
    now exists xa, ya, ra, xb, yb, rb, xc, yc, rc, xd, yd, rd, more.
Qed.

(** The center is defined exactly for the polygons that start with four
    points of at least two coordinates each: it is then the mean of the
    first two coordinates of these four points, further points and further
    coordinates being ignored; on every other polygon the call raises
    [IndexError]. *)
Theorem bbox_center_defined (bbox : Polygon) :
  (forall xa ya ra xb yb rb xc yc rc xd yd rd more,
      bbox = point xa ya ra :: point xb yb rb :: point xc yc rc
             :: point xd yd rd :: more ->
      exists cx cy,
        _get_bbox_center bbox = Ok (cx, cy)
        /\ (cx == mean4 xa xb xc xd)%Q /\ (cy == mean4 ya yb yc yd)%Q)
  /\ (forall c,
         _get_bbox_center bbox = Ok c ->
         exists xa ya ra xb yb rb xc yc rc xd yd rd more,
           bbox = point xa ya ra :: point xb yb rb :: point xc yc rc
                  :: point xd yd rd :: more)
  /\ (forall e, _get_bbox_center bbox = Raise e -> e = IndexError).
Proof.
  split; [|split].
  - intros xa ya ra xb yb rb xc yc rc xd yd rd more ->.
    eexists. eexists. split; [apply get_bbox_center_points|].
    unfold mean4. split; field.
  - apply get_bbox_center_shape.
  - apply get_bbox_center_index_error.
Qed.

(** The center of a quadrilateral lies in every rectangle that holds its
    four corners. *)
Theorem bbox_center_within (xa ya xb yb xc yc xd yd : Q) (lox hix loy hiy : Q) :
  Forall (fun x => lox <= x <= hix)%Q [xa; xb; xc; xd] ->
  Forall (fun y => loy <= y <= hiy)%Q [ya; yb; yc; yd] ->
  exists cx cy,
    _get_bbox_center [[xa; ya]; [xb; yb]; [xc; yc]; [xd; yd]] = Ok (cx, cy)
    /\ (lox <= cx <= hix)%Q /\ (loy <= cy <= hiy)%Q.
Proof.
  intros Hx Hy.
  repeat match goal with
         | H : Forall _ (_ :: _) |- _ => inversion H; subst; clear H
         end.
  eexists. eexists. split; [apply get_bbox_center_four|].
  split; split;
    (apply Qle_shift_div_l || apply Qle_shift_div_r); try reflexivity; lra.
Qed.

Lemma bbox_center_within_witness :
  exists cx cy,
    _get_bbox_center [[1; 2]; [9; 3]; [10; 7]; [0; 6]]%Q = Ok (cx, cy)
    /\ (0 <= cx <= 10)%Q /\ (2 <= cy <= 7)%Q.
Proof.
  apply (bbox_center_within 1 2 9 3 10 7 0 6 0 10 2 7)%Q;
    repeat (apply Forall_cons || apply Forall_nil);
    split; unfold Qle; simpl; lia.
Defined.

End GeometryFacts.

(* ------------------------------------------------------------------ *)
(** ** Text extraction and the pipeline *)

Section PipelineFacts.

Import Spec Props IDCardService.

Lemma text_item_ok (b : Polygon) (t : string) (c : Q) (x : TextItem) :
  text_item b t c = Ok x <->
  (bbox x = b /\ text x = t /\ confidence x = c /\ centered x).
Proof.
  unfold text_item, centered. split.
  - destruct (_get_bbox_center b) as [p|e] eqn:E; cbn [bind]; [|discriminate].
    intros [= <-]. cbn [bbox text confidence center]. auto.
  - intros (<- & <- & <- & H). rewrite H. cbn [bind]. now destruct x.
Qed.

Lemma comprehension_ok {A B : Type} (f : A -> result B) (l : list A)
      (items : list B) :
  comprehension f l = Ok items <-> Forall2 (fun a b => f a = Ok b) l items.
Proof.
  revert items. induction l as [|a l IH]; intro items; cbn [comprehension].
  - split; [intros [= <-]; constructor | intro H; now inversion H].
  - destruct (f a) as [b|e] eqn:E; cbn [bind].
    + destruct (comprehension f l) as [bs|e] eqn:Ec; cbn [bind].
      * split.
        -- intros [= <-]. constructor; [exact E | now apply IH].
        -- intro H. inversion H as [|? b' ? bs' Hb Hbs]; subst.
           apply IH in Hbs. congruence.
      * split; [discriminate|]. intro H.
        inversion H as [|? b' ? bs' Hb Hbs]; subst.
        apply IH in Hbs. discriminate.
    + split; [discriminate|]. intro H.
      inversion H as [|? b' ? bs' Hb Hbs]; subst. congruence.
Qed.

Lemma comprehension_raises {A B : Type} (f : A -> result B) (l : list A)
      (e : exn) :
  comprehension f l = Raise e -> exists a, In a l /\ f a = Raise e.
Proof.
  induction l as [|a l IH]; cbn [comprehension]; [discriminate|].
  destruct (f a) as [b|e0] eqn:E; cbn [bind].
  - destruct (comprehension f l) as [bs|e1]; cbn [bind]; [discriminate|].
    intros [= ->]. destruct (IH eq_refl) as (a' & Hin & Ha).
    exists a'. split; [now right | exact Ha].
  - intros [= ->]. exists a. split; [now left | exact E].
Qed.

Lemma easy_lines_items (lines : list EasyLine) (items : list TextItem) :
  Forall2 (fun (line : EasyLine) x =>
             (let '(b, t, c) := line in text_item b t c) = Ok x) lines items
  <-> (map easy_line_of items = lines /\ Forall centered items).
Proof.
  split.
  - induction 1 as [|[[b t] c] x lines items Hx _ IH]; [split; constructor|].
    apply text_item_ok in Hx as (Hb & Ht & Hc & Hcen). destruct IH as [IH1 IH2].
    split; [|now constructor].
    simpl. unfold easy_line_of at 1. now rewrite Hb, Ht, Hc, IH1.
  - intros [<- Hc]. induction Hc as [|x items Hx _ IH]; [constructor|].
    simpl. constructor; [|exact IH].
    unfold easy_line_of. now apply text_item_ok.
Qed.

Lemma paddle_lines_items (lines : list PaddleLine) (items : list TextItem) :
  Forall2 (fun (line : PaddleLine) x =>
             (let '(b, (t, c)) := line in text_item b t c) = Ok x) lines items
  <-> (map paddle_line_of items = lines /\ Forall centered items).
Proof.
  split.
  - induction 1 as [|[b [t c]] x lines items Hx _ IH]; [split; constructor|].
    apply text_item_ok in Hx as (Hb & Ht & Hc & Hcen). destruct IH as [IH1 IH2].
    split; [|now constructor].
    simpl. unfold paddle_line_of at 1. now rewrite Hb, Ht, Hc, IH1.
  - intros [<- Hc]. induction Hc as [|x items Hx _ IH]; [constructor|].
    simpl. constructor; [|exact IH].
    unfold paddle_line_of. now apply text_item_ok.
Qed.

Lemma debug_min_nonempty (image : Image) :
  nonempty image -> debug_min image = Ok tt.
Proof.
  intros [Hw Hh]. unfold debug_min.
  apply Z.ltb_lt in Hw, Hh. now rewrite Hw, Hh.
Qed.

Lemma debug_min_empty (image : Image) :
  ~ nonempty image ->
  debug_min image
  = Raise (PyExn "ValueError"
             "zero-size array to reduction operation minimum which has no identity").
Proof.
  intro H. unfold debug_min, nonempty in *.
  destruct (Z.ltb_spec 0 (width image)); [|reflexivity].
  destruct (Z.ltb_spec 0 (height image)); [|reflexivity].
  exfalso. apply H. split; assumption.
Qed.

(** On an image that has pixels the extraction is the reading of the
    text, with its failures wrapped. *)
Lemma extraction_reads (self : Service) (engine : OcrEngine) (image : Image)
      (image_path : string) :
  nonempty image ->
  ocr_engine self = Some engine ->
  extract_text_with_coordinates self image image_path
  = in_text_extraction (read_text engine image image_path).
Proof.
  intros Hn He. unfold extract_text_with_coordinates.
  now rewrite He, (debug_min_nonempty image Hn).
Qed.

(** With EasyOCR, the text is read from the file at [image_path], never
    from the image handed over: whatever this image is, as long as it has
    pixels (the source inspects them before it calls the engine), the call
    returns
    [items] exactly when they are, in order, the lines EasyOCR read, each
    with the center of its polygon. *)
Theorem easyocr_items (self : Service) (image : Image) (image_path : string)
        (readtext : string -> result (list EasyLine)) (lines : list EasyLine)
        (items : list TextItem) :
  nonempty image ->
  ocr_engine self = Some (EasyOCR readtext) ->
  readtext image_path = Ok lines ->
  (extract_text_with_coordinates self image image_path = Ok items
   <-> (map easy_line_of items = lines /\ Forall centered items)).
Proof.
  intros Hn He Hr. rewrite (extraction_reads self _ image image_path Hn He).
  cbn [read_text]. rewrite Hr.
  cbn [bind]. rewrite <- easy_lines_items, <- comprehension_ok.
  unfold in_text_extraction.
  destruct (comprehension _ lines); split; congruence.
Qed.

Lemma easyocr_items_witness :
  exists items,
    extract_text_with_coordinates MoreSamples.shaky_service MoreSamples.picture
                                  "card.png" = Ok items
    /\ map easy_line_of items = MoreSamples.easy_lines
    /\ Forall centered items.
Proof.
  eexists. split; [reflexivity|].
  apply (easyocr_items MoreSamples.shaky_service MoreSamples.picture "card.png"
           (fun _ => Ok MoreSamples.easy_lines) MoreSamples.easy_lines
           _ (conj eq_refl eq_refl) eq_refl eq_refl).
  reflexivity.
Defined.

(** With PaddleOCR, only the first page of the results is read: on an
    image that has pixels the call returns [items] exactly when they are, in order, the lines of that
    page, each with the center of its polygon; no results, or an empty or
    missing first page, give no item, and later pages are ignored. *)
Theorem paddleocr_items (self : Service) (image : Image) (image_path : string)
        (ocr : Image -> result (option (list (option (list PaddleLine)))))
        (results : option (list (option (list PaddleLine))))
        (items : list TextItem) :
  nonempty image ->
  ocr_engine self = Some (PaddleOCR ocr) ->
  ocr image = Ok results ->
  (extract_text_with_coordinates self image image_path = Ok items
   <-> (map paddle_line_of items = first_page results /\ Forall centered items)).
Proof.
  intros Hn He Hr. rewrite (extraction_reads self _ image image_path Hn He).
  cbn [read_text]. rewrite Hr.
  cbn [bind]. unfold in_text_extraction.
  assert (Ok [] = Ok items
          <-> map paddle_line_of items = [] /\ Forall centered items) as Hnone.
  { split.
    - intros [= <-]. split; constructor.
    - intros [H _]. destruct items; [reflexivity | discriminate H]. }
  destruct results as [[|[[|l ls]|] rest]|]; cbn [first_page]; try exact Hnone.
  rewrite <- paddle_lines_items, <- comprehension_ok.
  destruct (comprehension _ (l :: ls)); split; congruence.
Qed.

Lemma paddleocr_items_witness :
  exists items,
    extract_text_with_coordinates MoreSamples.paddle_service MoreSamples.picture
                                  "card.png" = Ok items
    /\ map text items = ["RT 01"]
    /\ Forall centered items.
Proof.
  eexists. split; [reflexivity|].
  split; [reflexivity|].
  refine (proj2 (proj1 (paddleocr_items MoreSamples.paddle_service
                          MoreSamples.picture "card.png" _ _ _
                          (conj eq_refl eq_refl) eq_refl eq_refl) eq_refl)).
Defined.

(** What the extraction raises is the failure of [debug_min], the
    missing engine, or a wrapped failure of the reading. *)
Lemma extraction_raises (self : Service) (image : Image)
      (image_path : string) (e : exn) :
  extract_text_with_coordinates self image image_path = Raise e ->
  nonempty image ->
  ocr_engine self <> None ->
  exists e0, e = PyExn "Exception" ("Error in text extraction: " ++ str_exn e0).
Proof.
  intros H Hn He.
  destruct (ocr_engine self) as [engine|] eqn:E; [|congruence].
  rewrite (extraction_reads self engine image image_path Hn E) in H.
  unfold in_text_extraction in H.
  destruct (read_text engine image image_path) as [items|e0]; [discriminate|].
  injection H as <-. now exists e0.
Qed.

Lemma extraction_without_engine (self : Service) (image : Image)
      (image_path : string) :
  ocr_engine self = None ->
  extract_text_with_coordinates self image image_path
  = Raise (PyExn "RuntimeError" "OCR engine not loaded").
Proof. unfold extract_text_with_coordinates. now intros ->. Qed.

Lemma four_points_center (b : Polygon) :
  four_points b <-> exists c, _get_bbox_center b = Ok c.
Proof.
  split.
  - intros (xa & ya & ra & xb & yb & rb & xc & yc & rc & xd & yd & rd & more & ->).
    eexists. apply get_bbox_center_points.
  - intros [c H]. exact (get_bbox_center_shape b c H).
Qed.

Lemma text_item_raises (b : Polygon) (t : string) (c : Q) (e : exn) :
  text_item b t c = Raise e <-> (~ four_points b /\ e = IndexError).
Proof.
  unfold text_item. rewrite four_points_center.
  destruct (_get_bbox_center b) as [p|e0] eqn:E; cbn [bind].
  - split; [discriminate|]. intros [H _]. exfalso. apply H. now exists p.
  - pose proof (get_bbox_center_index_error b e0 E) as ->.
    split.
    + intros [= <-]. split; [|reflexivity]. intros [p Hp]. discriminate Hp.
    + now intros [_ ->].
Qed.

(** A comprehension raises exactly when one of its calls does, and then
    what the first of them raises. *)
Lemma comprehension_raises_one {A B : Type} (f : A -> result B) (l : list A)
      (e : exn) :
  (forall a e', In a l -> f a = Raise e' -> e' = e) ->
  (exists a e', In a l /\ f a = Raise e') ->
  comprehension f l = Raise e.
Proof.
  intros Hall (a & e' & Hin & Ha).
  destruct (comprehension f l) as [items|e1] eqn:E.
  - exfalso. apply comprehension_ok in E. clear Hall.
    induction E as [|x y l items Hx _ IH]; [destruct Hin|].
    destruct Hin as [-> | Hin]; [congruence | now apply IH].
  - apply comprehension_raises in E as (a1 & Hin1 & Ha1).
    now rewrite (Hall a1 e1 Hin1 Ha1).
Qed.

(** The reading of the text raises exactly the failures of
    [extraction_failure]. *)
Lemma read_text_raises (self : Service) (engine : OcrEngine) (image : Image)
      (image_path : string) (e0 : exn) :
  ocr_engine self = Some engine ->
  (read_text engine image image_path = Raise e0
   <-> extraction_failure self image image_path e0).
Proof.
  intro He. unfold extraction_failure. rewrite He.
  assert (forall (A : Type) (f : A -> result TextItem) (poly : A -> Polygon)
                 (l : list A),
             (forall a e, f a = Raise e <-> (~ four_points (poly a) /\ e = IndexError)) ->
             comprehension f l = Raise e0
             <-> (e0 = IndexError
                  /\ exists b, In b (map poly l) /\ ~ four_points b)) as Hc.
  { intros A f poly l Hf. split.
    - intro H. apply comprehension_raises in H as (a & Hin & Ha).
      apply Hf in Ha as [Ha ->]. split; [reflexivity|].
      exists (poly a). split; [now apply in_map | exact Ha].
    - intros [-> (b & Hin & Hb)]. apply in_map_iff in Hin as (a & <- & Hin).
      apply comprehension_raises_one.
      + intros a' e' _ Ha'. now apply Hf in Ha' as [_ ->].
      + exists a, IndexError. split; [exact Hin|]. now apply Hf. }
  destruct engine as [ocr|readtext]; cbn [read_text polygons_read].
  - destruct (ocr image) as [results|e]; cbn [bind];
      [|split; [now intros [= ->] | now intros ->]].
    assert (match results with
            | Some (Some (l :: ls) :: _) =>
                comprehension
                  (fun line : PaddleLine =>
                     let '(bbox, (text, confidence)) := line in
                     text_item bbox text confidence) (l :: ls)
            | _ => Ok []
            end
            = comprehension
                (fun line : PaddleLine =>
                   let '(bbox, (text, confidence)) := line in
                   text_item bbox text confidence) (first_page results)) as ->
        by (now destruct results as [[|[[|l ls]|] rest]|]).
    apply Hc. intros [b [t c]] e. apply text_item_raises.
  - destruct (readtext image_path) as [lines|e]; cbn [bind];
      [|split; [now intros [= ->] | now intros ->]].
    apply Hc. intros [[b t] c] e. apply text_item_raises.
Qed.

(** What the text extraction raises.  Without an OCR engine it is
    [RuntimeError], whatever the image.  On an image that has pixels this
    is the only case of a [RuntimeError], and the call raises otherwise
    exactly when the reading fails (the engine raises, or a polygon it
    returns has not four points of two coordinates): then it raises an
    [Exception] whose message is that of the failure, after
    ["Error in text extraction: "].  With an engine and an image without
    pixels, it is the [ValueError] of the minimum of no pixel. *)
Theorem extraction_errors (self : Service) (image : Image)
        (image_path : string) :
  (ocr_engine self = None ->
   extract_text_with_coordinates self image image_path
   = Raise (PyExn "RuntimeError" "OCR engine not loaded"))
  /\ (nonempty image ->
      (forall msg,
          extract_text_with_coordinates self image image_path
          = Raise (PyExn "RuntimeError" msg) ->
          ocr_engine self = None)
      /\ (forall e,
             extract_text_with_coordinates self image image_path = Raise e ->
             (ocr_engine self = None
              /\ e = PyExn "RuntimeError" "OCR engine not loaded")
             \/ (ocr_engine self <> None
                 /\ exists e0,
                     extraction_failure self image image_path e0
                     /\ e = PyExn "Exception"
                                  ("Error in text extraction: " ++ str_exn e0)))
      /\ (forall e0,
             extraction_failure self image image_path e0 ->
             extract_text_with_coordinates self image image_path
             = Raise (PyExn "Exception"
                            ("Error in text extraction: " ++ str_exn e0))))
  /\ (ocr_engine self <> None -> ~ nonempty image ->
      extract_text_with_coordinates self image image_path
      = Raise (PyExn "ValueError"
                 "zero-size array to reduction operation minimum which has no identity")).
Proof.
  split; [apply extraction_without_engine|]. split.
  - intro Hn.
    assert (forall e,
               extract_text_with_coordinates self image image_path = Raise e ->
               (ocr_engine self = None
                /\ e = PyExn "RuntimeError" "OCR engine not loaded")
               \/ (ocr_engine self <> None
                   /\ exists e0,
                       extraction_failure self image image_path e0
                       /\ e = PyExn "Exception"
                                    ("Error in text extraction: " ++ str_exn e0)))
      as Hclass.
    { intros e H. destruct (ocr_engine self) as [engine|] eqn:He.
      - right. split; [discriminate|].
        rewrite (extraction_reads self engine image image_path Hn He) in H.
        unfold in_text_extraction in H.
        destruct (read_text engine image image_path) as [items|e0] eqn:Er;
          [discriminate|].
        injection H as <-. exists e0. split; [|reflexivity].
        now apply (read_text_raises self engine image image_path e0 He).
      - left. split; [reflexivity|].
        rewrite (extraction_without_engine self image image_path He) in H.
        congruence. }
    split; [|split].
    + intros msg H. destruct (Hclass _ H) as [[He _] | [_ (e0 & _ & He0)]];
        [exact He | discriminate He0].
    + exact Hclass.
    + intros e0 H. pose proof H as H'. unfold extraction_failure in H'.
      destruct (ocr_engine self) as [engine|] eqn:He; [|destruct H'].
      rewrite (extraction_reads self engine image image_path Hn He).
      apply (read_text_raises self engine image image_path e0 He) in H.
      now rewrite H.
  - intros He Hn. unfold extract_text_with_coordinates.
    destruct (ocr_engine self) as [engine|]; [|congruence].
    now rewrite (debug_min_empty image Hn).
Qed.

Lemma extraction_errors_witness :
  nonempty MoreSamples.picture
  /\ extract_text_with_coordinates MoreSamples.broken_service MoreSamples.picture
                                   "card.png"
     = Raise (PyExn "Exception"
                    "Error in text extraction: list index out of range")
  /\ extract_text_with_coordinates Samples.blind_service MoreSamples.picture
                                   "card.png"
     = Raise (PyExn "RuntimeError" "OCR engine not loaded").
Proof.
  assert (nonempty MoreSamples.picture) as Hn by (split; reflexivity).
  split; [exact Hn|]. split.
  - apply (proj2 (proj2 (proj1 (proj2 (extraction_errors
                                         MoreSamples.broken_service
                                         MoreSamples.picture "card.png"))
                               Hn))
                 IndexError).
    split; [reflexivity|].
    exists [[0; 0]; [9; 0]; [9; 4]]%Q. split; [now left|].
    intros (xa & ya & ra & xb & yb & rb & xc & yc & rc & xd & yd & rd & more & H).
    discriminate H.
  - apply (proj1 (extraction_errors Samples.blind_service MoreSamples.picture
                                    "card.png")).
    reflexivity.
Defined.

Lemma extraction_centered (self : Service) (image : Image)
      (image_path : string) (items : list TextItem) :
  extract_text_with_coordinates self image image_path = Ok items ->
  Forall centered items.
Proof.
  unfold extract_text_with_coordinates, in_text_extraction.
  destruct (ocr_engine self) as [engine|]; [|discriminate].
  destruct (debug_min image) as [[]|e]; cbn [bind]; [|discriminate].
  destruct engine as [ocr|readtext]; cbn [read_text].
  - destruct (ocr image) as [results|e]; cbn [bind]; [|discriminate].
    destruct results as [[|[[|l ls]|] rest]|];
      try (intros [= <-]; constructor).
    destruct (comprehension _ (l :: ls)) as [xs|e] eqn:E; [|discriminate].
    intros [= <-]. apply comprehension_ok in E.
    now apply paddle_lines_items in E.
  - destruct (readtext image_path) as [lines|e]; cbn [bind]; [|discriminate].
    destruct (comprehension _ lines) as [xs|e] eqn:E; [|discriminate].
    intros [= <-]. apply comprehension_ok in E.
    now apply easy_lines_items in E.
Qed.

(** The pipeline, step by step. *)
Lemma process_id_card_steps (self : Service) (image_path : string) :
  process_id_card self image_path
  = match crop_id_card self image_path (detect_id_card self image_path) with
    | Raise e => Failure (str_exn e) image_path
    | Ok cropped =>
        match extract_text_with_coordinates self cropped image_path with
        | Raise e => Failure (str_exn e) image_path
        | Ok raw =>
            Success image_path
                    (match detect_id_card self image_path with
                     | Some _ => true
                     | None => false
                     end)
                    (detect_id_card self image_path)
                    (parse_id_card_data raw) raw (map confidence raw)
                    (mean_or_zero (map confidence raw))
        end
    end.
Proof.
  unfold process_id_card.
  destruct (crop_id_card self image_path (detect_id_card self image_path));
    cbn [bind]; [|reflexivity].
  now destruct (extract_text_with_coordinates self a image_path).
Qed.

(** A successful result is coherent: it names the image, [card_detected]
    tells whether [bbox] is there, [raw_text] has one line for each OCR
    item and [confidence_scores] one score, every item carries the center
    of its polygon, and [extracted_data] is the parse of the items. *)
Theorem process_success_coherent (self : Service) (image_path path : string)
        (detected : bool) (box : option IntBox) (data : IdData)
        (raw : list TextItem) (scores : list Q) (avg : Q) :
  process_id_card self image_path = Success path detected box data raw scores avg ->
  path = image_path
  /\ box = detect_id_card self image_path
  /\ (detected = true <-> box <> None)
  /\ data = parse_id_card_data raw
  /\ List.length (raw_text data) = List.length raw
  /\ List.length scores = List.length raw
  /\ scores = map confidence raw
  /\ Forall centered raw.
Proof.
  rewrite process_id_card_steps.
  destruct (crop_id_card self image_path (detect_id_card self image_path))
    as [cropped|e]; [|discriminate].
  destruct (extract_text_with_coordinates self cropped image_path)
    as [items|e] eqn:Hx; [|discriminate].
  intros [= <- <- <- <- <- <- _].
  repeat split; auto.
  - destruct (detect_id_card self image_path); congruence.
  - destruct (detect_id_card self image_path); congruence.
  - rewrite parse_id_card_data_record. cbn [record_of raw_text].
    unfold lines. now rewrite length_map, sorted_length.
  - apply length_map.
  - eapply extraction_centered. exact Hx.
Qed.

Lemma process_success_coherent_witness :
  exists detected box data raw scores avg,
    process_id_card Samples.finding_service "card.png"
    = Success "card.png" detected box data raw scores avg
    /\ (detected = true <-> box <> None)
    /\ List.length (raw_text data) = List.length raw
    /\ List.length scores = List.length raw.
Proof.
  do 6 eexists. split; [vm_compute; reflexivity|].
  assert (process_id_card Samples.finding_service "card.png"
          = Success "card.png" true (Some (0, 0, 5, 100)%Z)
                    (parse_id_card_data
                       [Samples.line_at "Nama: Budi Hartono X" 0])
                    [{| text := "Nama: Budi Hartono X";
                        confidence := (9 # 10)%Q;
                        bbox := [[0; 0]; [9; 0]; [9; 4]; [0; 4]]%Q;
                        center := (18 # 4, 8 # 4)%Q |}]
                    [(9 # 10)%Q] (9 # 10)%Q) as E
      by (vm_compute; reflexivity).
  pose proof (process_success_coherent Samples.finding_service "card.png"
                                       _ _ _ _ _ _ _ E) as H.
  repeat split; apply H.
Defined.

(** For an image with pixels and a detected box that lies in it, the
    crop is made and has pixels. *)
Lemma crop_well_placed (self : Service) (image_path : string) (image : Image) :
  well_placed self image_path ->
  image_open self image_path = Ok image ->
  exists cropped,
    crop_id_card self image_path (detect_id_card self image_path) = Ok cropped
    /\ nonempty cropped.
Proof.
  intros Hwp Ho. destruct (Hwp image Ho) as [[Hw Hh] Hbox].
  unfold crop_id_card. rewrite Ho. cbn [bind].
  destruct (detect_id_card self image_path) as [[[[x1 y1] x2] y2]|].
  - destruct (Hbox x1 y1 x2 y2 eq_refl) as (Hx & Hxw & Hy & Hyh).
    unfold crop.
    destruct (Z.ltb_spec (Z.min (width image) (x2 + 10)) (Z.max 0 (x1 - 10)));
      [lia|].
    destruct (Z.ltb_spec (Z.min (height image) (y2 + 10)) (Z.max 0 (y1 - 10)));
      [lia|].
    eexists. split; [reflexivity|].
    unfold nonempty. cbn [width height]. lia.
  - exists image. split; [reflexivity | now split].
Qed.

Lemma crop_without_image (self : Service) (image_path : string)
      (bbox : option IntBox) (e : exn) :
  image_open self image_path = Raise e ->
  crop_id_card self image_path bbox = Raise e.
Proof. intro H. unfold crop_id_card. now rewrite H. Qed.

(** A failed result names the image and tells why.  For an image with
    pixels and a detected box that lies in it, the reasons are: the image
    could not be opened, or no OCR engine is loaded, or the text extraction
    failed.  The detection is never one. *)
Theorem process_failure_reasons (self : Service) (image_path path err : string) :
  well_placed self image_path ->
  process_id_card self image_path = Failure err path ->
  path = image_path
  /\ ((exists e, image_open self image_path = Raise e /\ err = str_exn e)
      \/ (ocr_engine self = None /\ err = "OCR engine not loaded")
      \/ (ocr_engine self <> None
          /\ exists e0, err = ("Error in text extraction: " ++ str_exn e0)%string)).
Proof.
  intros Hwp. rewrite process_id_card_steps.
  destruct (image_open self image_path) as [image|e1] eqn:Ho.
  - destruct (crop_well_placed self image_path image Hwp Ho)
      as (cropped & -> & Hn).
    destruct (extract_text_with_coordinates self cropped image_path)
      as [items|e] eqn:Hx; [discriminate|].
    intros [= <- <-]. split; [reflexivity|]. right.
    destruct (ocr_engine self) as [engine|] eqn:He.
    + right. split; [discriminate|].
      destruct (extraction_raises self cropped image_path e Hx Hn) as [e0 ->];
        [congruence|]. now exists e0.
    + left. split; [reflexivity|].
      rewrite (extraction_without_engine self cropped image_path He) in Hx.
      now injection Hx as <-.
  - rewrite (crop_without_image self image_path _ e1 Ho).
    intros [= <- <-]. split; [reflexivity|]. left. now exists e1.
Qed.

Lemma process_failure_reasons_witness :
  "card.png" = "card.png"
  /\ ((exists e, image_open Samples.blind_service "card.png" = Raise e
                 /\ "OCR engine not loaded" = str_exn e)
      \/ (ocr_engine Samples.blind_service = None
          /\ "OCR engine not loaded" = "OCR engine not loaded")
      \/ (ocr_engine Samples.blind_service <> None
          /\ exists e0, "OCR engine not loaded"
                        = ("Error in text extraction: " ++ str_exn e0)%string)).
Proof.
  apply (process_failure_reasons Samples.blind_service "card.png");
    [|reflexivity].
  intros image [= <-]. split; [split; reflexivity|].
  intros x1 y1 x2 y2 H. discriminate H.
Defined.

(** When nothing is detected, a failure of the detector included, the
    pipeline returns what it returns without a detector. *)
Theorem process_without_detection (self : Service) (image_path : string) :
  nothing_detected self image_path ->
  process_id_card self image_path
  = process_id_card (without_detector self) image_path.
Proof.
  intro H. apply detect_none_of_nothing in H.
  rewrite !process_id_card_steps. rewrite H.
  reflexivity.
Qed.

Lemma process_without_detection_witness :
  nothing_detected MoreSamples.shaky_service "card.png"
  /\ process_id_card MoreSamples.shaky_service "card.png"
     = process_id_card (without_detector MoreSamples.shaky_service) "card.png".
Proof.
  split; [exact I|].
  exact (process_without_detection MoreSamples.shaky_service "card.png" I).
Defined.

(** With EasyOCR the detection changes nothing of what is read: for an
    image with pixels and a detected box that lies in it, the extracted
    data, the OCR items, the scores and their average, or the error, are
    those of the pipeline without a detector; only [card_detected] and
    [bbox] tell what was detected. *)
Theorem easyocr_ignores_detection (self : Service) (image_path : string)
        (readtext : string -> result (list EasyLine)) :
  well_placed self image_path ->
  ocr_engine self = Some (EasyOCR readtext) ->
  text_part (process_id_card self image_path)
  = text_part (process_id_card (without_detector self) image_path).
Proof.
  intros Hwp He. rewrite !process_id_card_steps.
  assert (detect_id_card (without_detector self) image_path = None) as ->
      by reflexivity.
  destruct (image_open self image_path) as [image|e] eqn:Ho.
  - destruct (crop_well_placed self image_path image Hwp Ho)
      as (cropped & -> & Hn).
    assert (crop_id_card (without_detector self) image_path None = Ok image)
      as -> by (unfold crop_id_card, without_detector; cbn [image_open];
                now rewrite Ho).
    destruct (Hwp image Ho) as [Hi _].
    rewrite (extraction_reads self (EasyOCR readtext) cropped image_path Hn He).
    rewrite (extraction_reads (without_detector self) (EasyOCR readtext)
                              image image_path Hi He).
    cbn [read_text].
    now destruct (in_text_extraction _).
  - rewrite (crop_without_image self image_path _ e Ho).
    now rewrite (crop_without_image (without_detector self) image_path _ e Ho).
Qed.

Lemma easyocr_ignores_detection_witness :
  text_part (process_id_card Samples.finding_service "card.png")
  = text_part (process_id_card (without_detector Samples.finding_service) "card.png").
Proof.
  apply (easyocr_ignores_detection Samples.finding_service "card.png"
           (fun _ => Ok [([[0; 0]; [9; 0]; [9; 4]; [0; 4]]%Q,
                          "Nama: Budi Hartono X", (9 # 10)%Q)]));
    [|reflexivity].
  intros image [= <-]. split; [split; reflexivity|].
  assert (detect_id_card Samples.finding_service "card.png"
          = Some (0, 0, 5, 100)%Z) as -> by (vm_compute; reflexivity).
  intros x1 y1 x2 y2 [= <- <- <- <-]. vm_compute.
  repeat split; intro C; discriminate C.
Defined.

Lemma py_len_cons {A : Type} (a : A) (l : list A) :
  (py_len (a :: l) == py_len l + 1)%Q.
Proof.
  unfold py_len. cbn [List.length].
  rewrite Nat2Z.inj_succ. unfold Z.succ. now rewrite inject_Z_plus.
Qed.

Lemma py_len_nonneg {A : Type} (l : list A) : (0 <= py_len l)%Q.
Proof.
  unfold py_len. change 0%Q with (inject_Z 0). rewrite <- Zle_Qle. lia.
Qed.

Lemma fold_sum_bounds (l : list Q) (a : Q) :
  Forall (fun c => 0 <= c <= 1)%Q l ->
  (a <= fold_left Qplus l a <= a + py_len l)%Q.
Proof.
  intro H. revert a. induction H as [|c l [Hc0 Hc1] _ IH]; intro a.
  - cbn [fold_left]. change (py_len (@nil Q)) with 0%Q. lra.
  - cbn [fold_left]. destruct (IH (a + c)%Q) as [IH1 IH2].
    rewrite py_len_cons. lra.
Qed.

Lemma mean_or_zero_bounds (l : list Q) :
  Forall (fun c => 0 <= c <= 1)%Q l -> (0 <= mean_or_zero l <= 1)%Q.
Proof.
  intro H. destruct l as [|c l]; [simpl; lra|].
  unfold mean_or_zero, py_sum.
  destruct (fold_sum_bounds (c :: l) 0 H) as [H1 H2].
  assert (0 < py_len (c :: l))%Q as Hpos.
  { rewrite py_len_cons. pose proof (py_len_nonneg l). lra. }
  split.
  - apply Qle_shift_div_l; [exact Hpos | lra].
  - apply Qle_shift_div_r; [exact Hpos | lra].
Qed.

(** When every confidence of the OCR engine lies between 0 and 1, so does
    [avg_confidence]; it is 0 when nothing was read. *)
Theorem avg_confidence_bounds (self : Service) (image_path path : string)
        (detected : bool) (box : option IntBox) (data : IdData)
        (raw : list TextItem) (scores : list Q) (avg : Q) :
  process_id_card self image_path = Success path detected box data raw scores avg ->
  Forall (fun c => 0 <= c <= 1)%Q scores ->
  (0 <= avg <= 1)%Q /\ (raw = [] -> avg = 0%Q).
Proof.
  rewrite process_id_card_steps.
  destruct (crop_id_card self image_path (detect_id_card self image_path))
    as [cropped|e]; [|discriminate].
  destruct (extract_text_with_coordinates self cropped image_path)
    as [items|e]; [|discriminate].
  intros [= <- <- <- <- <- <- <-] H.
  split; [now apply mean_or_zero_bounds | now intros ->].
Qed.

Lemma avg_confidence_bounds_witness :
  exists path detected box data raw scores avg,
    process_id_card Samples.finding_service "card.png"
    = Success path detected box data raw scores avg
    /\ (0 <= avg <= 1)%Q.
Proof.
  do 7 eexists.
  refine ((fun E =>
             conj E (proj1 (avg_confidence_bounds Samples.finding_service
                              "card.png" _ _ _ _ _ _ _ E _))) _).
  2: vm_compute; reflexivity.
  repeat constructor; unfold Qle; simpl; lia.
Defined.

End PipelineFacts.

(* ------------------------------------------------------------------ *)
(** ** Uploaded files *)

Section UploadFacts.

Import Spec Props IDCardService IDCardApi BatchSpec.

Lemma append_cancel (a b c : string) :
  (a ++ b)%string = (a ++ c)%string -> b = c.
Proof.
  induction a as [|x a IH]; simpl; [auto|]. intros [= H]. now apply IH.
Qed.

Lemma uint_digits (d : Decimal.uint) :
  all_chars PyStr.isdecimal (NilEmpty.string_of_uint d) = true.
Proof. induction d; simpl; auto. Qed.

Lemma str_nat_digits (i : nat) : all_chars PyStr.isdecimal (str_nat i) = true.
Proof. apply uint_digits. Qed.

Lemma str_nat_inj (i j : nat) : str_nat i = str_nat j -> i = j.
Proof.
  unfold str_nat. intro H. apply Unsigned.to_uint_inj.
  pose proof (NilEmpty.usu (Nat.to_uint i)) as Hi.
  pose proof (NilEmpty.usu (Nat.to_uint j)) as Hj.
  rewrite H in Hi. congruence.
Qed.

Lemma digits_before_underscore (a b r r' : string) :
  all_chars PyStr.isdecimal a = true -> all_chars PyStr.isdecimal b = true ->
  (a ++ String "_" r)%string = (b ++ String "_" r')%string -> a = b.
Proof.
  revert b. induction a as [|x a IH]; intros [|y b] Ha Hb H; simpl in *.
  - reflexivity.
  - injection H as <- _. discriminate Hb.
  - injection H as -> _. discriminate Ha.
  - injection H as <- H.
    apply andb_true_iff in Ha as [_ Ha]. apply andb_true_iff in Hb as [_ Hb].
    f_equal. now apply IH.
Qed.

Lemma path_join_cancel (folder n m : string) :
  path_join folder n = path_join folder m -> n = m.
Proof.
  unfold path_join.
  destruct (PyStr.truthy folder && negb (endswith_slash folder)); intro H.
  - apply append_cancel in H. now apply (append_cancel "/") in H.
  - now apply append_cancel in H.
Qed.

(** In a batch, two files of different indices are never saved under the
    same path, whatever their names and whatever [uuid4] returns. *)
Theorem upload_paths_distinct (app : App) (i j : nat) (f g : FileStorage) :
  upload_path app i f = upload_path app j g -> i = j.
Proof.
  unfold upload_path. intro H. apply path_join_cancel in H.
  apply (append_cancel "batch_") in H.
  apply str_nat_inj.
  apply (digits_before_underscore _ _ _ _ (str_nat_digits i) (str_nat_digits j) H).
Qed.

Lemma upload_paths_distinct_witness :
  upload_path Samples.sample_app 1 (Samples.upload "a.png")
  = upload_path Samples.sample_app 1 (Samples.upload "b.PNG")
  /\ 1 = 1.
Proof.
  split; [reflexivity|].
  apply (upload_paths_distinct Samples.sample_app 1 1 (Samples.upload "a.png")
                               (Samples.upload "b.PNG")).
  reflexivity.
Defined.

Lemma contains_char (c : ascii) (s : string) :
  PyStr.contains (String c "") s = has_char c s.
Proof.
  induction s as [|a s IH]; [reflexivity|].
  cbn [PyStr.contains PyStr.startswith has_char].
  rewrite IH, andb_true_r, Ascii.eqb_sym. reflexivity.
Qed.

Lemma after_last_none (c : ascii) (s : string) :
  PyStr.after_last c s = None <-> has_char c s = false.
Proof.
  induction s as [|a s IH]; [simpl; tauto|].
  cbn [PyStr.after_last has_char].
  destruct (PyStr.after_last c s) as [t|].
  - split; [discriminate|]. intro H. apply orb_false_iff in H as [_ H].
    apply IH in H. discriminate.
  - destruct (Ascii.eqb a c); simpl; [split; discriminate|].
    split; [intros _; now apply IH | reflexivity].
Qed.

Lemma after_last_some (c : ascii) (s t : string) :
  PyStr.after_last c s = Some t <->
  exists base, s = (base ++ String c t)%string /\ has_char c t = false.
Proof.
  revert t. induction s as [|a s IH]; intro t.
  - simpl. split; [discriminate|].
    intros (base & H & _). destruct base; discriminate.
  - cbn [PyStr.after_last].
    destruct (PyStr.after_last c s) as [u|] eqn:E.
    + split.
      * intros [= <-]. destruct (proj1 (IH u) eq_refl) as (base & -> & Hu).
        exists (String a base). now split.
      * intros (base & H & Ht). destruct base as [|b base]; simpl in H.
        -- injection H as -> ->.
           apply after_last_none in Ht. congruence.
        -- injection H as -> ->. f_equal.
           assert (Some u = Some t) as [= ->]; [|reflexivity].
           apply IH. exists base. now split.
    + apply after_last_none in E. destruct (Ascii.eqb a c) eqn:Ea.
      * apply Ascii.eqb_eq in Ea as ->. split.
        -- intros [= <-]. exists "". now split.
        -- intros (base & H & Ht). destruct base as [|b base]; simpl in H.
           ++ now injection H as ->.
           ++ injection H as -> ->. exfalso.
              clear -E. induction base as [|b0 base IHb]; simpl in E.
              ** rewrite Ascii.eqb_refl in E. discriminate.
              ** apply orb_false_iff in E as [_ E]. now apply IHb.
      * split; [discriminate|].
        intros (base & H & Ht). destruct base as [|b base]; simpl in H.
        -- injection H as -> _. rewrite Ascii.eqb_refl in Ea. discriminate.
        -- injection H as -> ->. exfalso.
           clear -E. induction base as [|b0 base IHb]; simpl in E.
           ++ rewrite Ascii.eqb_refl in E. discriminate.
           ++ apply orb_false_iff in E as [_ E]. now apply IHb.
Qed.

Lemma existsb_string_in (x : string) (l : list string) :
  existsb (String.eqb x) l = true <-> In x l.
Proof.
  rewrite existsb_exists. split.
  - intros (y & Hin & Heq). apply String.eqb_eq in Heq. now subst.
  - intro H. exists x. split; [exact H | apply String.eqb_refl].
Qed.

(** A file name is allowed exactly when the text after its last dot,
    whatever its case, is one of the six extensions: a name without a dot,
    the empty name among them, is rejected, and what stands before the last
    dot does not matter. *)
Theorem allowed_file_spec (name : string) :
  allowed_file name = true
  <-> exists base ext,
        name = (base ++ "." ++ ext)%string
        /\ has_char "." ext = false
        /\ In (PyStr.lower ext) allowed_extensions.
Proof.
  unfold allowed_file. rewrite contains_char. split.
  - intro H. apply andb_true_iff in H as [_ H].
    destruct (PyStr.after_last "." name) as [ext|] eqn:E; [|discriminate].
    apply after_last_some in E as (base & -> & Hext).
    exists base, ext. repeat split; auto. now apply existsb_string_in.
  - intros (base & ext & -> & Hext & Hin).
    assert (PyStr.after_last "." (base ++ "." ++ ext) = Some ext) as E.
    { apply after_last_some. exists base. now split. }
    rewrite E. apply andb_true_iff. split; [|now apply existsb_string_in].
    destruct (has_char "." (base ++ "." ++ ext)) eqn:Hc; [reflexivity|].
    apply after_last_none in Hc. congruence.
Qed.

End UploadFacts.

(* ------------------------------------------------------------------ *)
(** ** Responses of the endpoints *)

Section EndpointFacts.

Import Spec Props IDCardService IDCardApi IDCardEndpoints BatchSpec.

Lemma filter_success_entries (app : App) (service : ServiceHandle)
      (l : list (nat * FileStorage)) :
  List.length (filter success (map (entry_of app service) l))
  = List.length (filter (processed_ok app service) l).
Proof.
  induction l as [|[i f] l IH]; [reflexivity|].
  cbn [map filter]. rewrite entry_of_success.
  destruct (processed_ok app service (i, f)); simpl; now rewrite IH.
Qed.

Lemma filter_length_le {A : Type} (p : A -> bool) (l : list A) :
  List.length (filter p l) <= List.length l.
Proof.
  induction l as [|a l IH]; simpl; [lia|]. destruct (p a); simpl; lia.
Qed.

(** The counters of a batch: [total_files] is the number of files sent,
    and [successful_extractions] the number of files with an accepted name
    whose processing succeeded, which is never more. *)
Theorem batch_counts (app : App) (service : ServiceHandle)
        (file : FileStorage) (files : list FileStorage) :
  forallb (saved app) (enumerate (file :: files)) = true ->
  exists results,
    batch_process_id_cards app (Some service) (Some (file :: files))
    = (BatchBody true (List.length (file :: files))
                 (List.length (filter (processed_ok app service)
                                      (enumerate (file :: files))))
                 results, 200)
    /\ List.length (filter (processed_ok app service) (enumerate (file :: files)))
       <= List.length (file :: files).
Proof.
  intro Hs.
  destruct (process_files_entries app service (file :: files) 0 [] [] Hs)
    as [uploaded Hu].
  eexists. split.
  - unfold batch_process_id_cards. rewrite Hu. cbn [List.app].
    fold (enumerate (file :: files)). now rewrite filter_success_entries.
  - etransitivity; [apply filter_length_le|]. now rewrite enumerate_length.
Qed.

Lemma batch_counts_witness :
  exists results,
    batch_process_id_cards Samples.sample_app (Some Samples.moody_handle)
                           (Some Samples.sample_files)
    = (BatchBody true 6 2 results, 200)
    /\ 2 <= 6.
Proof.
  exact (batch_counts Samples.sample_app Samples.moody_handle
                      (Samples.upload "front.png") (tl Samples.sample_files)
                      eq_refl).
Defined.

(** The status of a batch and the flag of its body: the status is 200,
    400, 500 or 503; the flag is on exactly with 200; 503 means that the
    service is missing and 400 that no file was sent. *)
Theorem batch_status (app : App) (id_card_service : option ServiceHandle)
        (files : option (list FileStorage)) :
  let response := batch_process_id_cards app id_card_service files in
  known_status (snd response)
  /\ (batch_body_success (fst response) = true <-> snd response = 200)
  /\ (snd response = 503 <-> id_card_service = None)
  /\ (snd response = 400
      <-> id_card_service <> None /\ (files = None \/ files = Some [])).
Proof.
  cbv zeta. unfold batch_process_id_cards, known_status.
  destruct id_card_service as [service|];
    [destruct files as [[|file files]|];
     [| destruct (process_files app service 0 (file :: files) [] [])
          as [[results u]|e] |] |];
    cbn; repeat split; intros; try congruence; try tauto; try lia;
    try discriminate;
    try (right; now auto);
    repeat match goal with
           | H : _ /\ _ |- _ => destruct H
           | H : _ \/ _ |- _ => destruct H
           end;
    try congruence; try discriminate; try tauto.
Qed.

(** The status of [/detect-and-extract] and the flag of its body: the
    status is 200, 400, 500 or 503 and the flag is on exactly with 200;
    the answer is 200 exactly when the service is there, the file has an
    accepted name, it can be saved and its processing succeeds, and a
    failure reported by the processing comes back as it is, with 500. *)
Theorem extract_status (app : App) (id_card_service : option ServiceHandle)
        (file : option FileStorage) :
  let response := detect_and_extract_id_card app id_card_service file in
  known_status (snd response)
  /\ (extract_body_success (fst response) = true <-> snd response = 200)
  /\ (snd response = 200
      <-> exists service f u path detected box data raw scores avg,
            id_card_service = Some service /\ file = Some f
            /\ valid_name f = true
            /\ save f (extract_path app f) = Ok u
            /\ process_id_card service (extract_path app f)
               = Ok (Success path detected box data raw scores avg))
  /\ (forall service f u err path,
         id_card_service = Some service -> file = Some f ->
         valid_name f = true ->
         save f (extract_path app f) = Ok u ->
         process_id_card service (extract_path app f) = Ok (Failure err path) ->
         response = (ExtractError err false, 500)).
Proof.
  cbv zeta. unfold detect_and_extract_id_card, known_status, valid_name.
  destruct id_card_service as [service|]; [|settle].
  destruct file as [f|]; [|settle].
  fold (extract_path app f).
  destruct (String.eqb (filename f) "") eqn:En; [settle|].
  destruct (allowed_file (filename f)) eqn:Ea; cbn [negb]; [|settle].
  destruct (save f (extract_path app f)) as [u|e] eqn:Es; cbn [bind]; [|settle].
  destruct (process_id_card service (extract_path app f))
    as [[path detected box data raw scores avg|err path]|e] eqn:Ep; settle.
  exists service, f, u, path, detected, box, data, raw, scores, avg.
  rewrite En, Ea. auto.
Qed.

Lemma extract_status_witness :
  detect_and_extract_id_card Samples.sample_app
    (Some (handle_of Samples.blind_service)) (Some (Samples.upload "front.png"))
  = (ExtractError "OCR engine not loaded" false, 500).
Proof.
  eapply (proj2 (proj2 (proj2 (extract_status Samples.sample_app
                                 (Some (handle_of Samples.blind_service))
                                 (Some (Samples.upload "front.png"))))));
    reflexivity.
Defined.

(** With the service itself, a 200 answer of [/detect-and-extract] is
    coherent: it names the uploaded file, [total_text_items] is the number
    of individual scores and of lines of [raw_text], and [card_detected]
    tells whether [bbox] is there. *)
Theorem extract_data_coherent (app : App) (self : Service)
        (file : option FileStorage) (flag : bool) (name : string)
        (detected : bool) (data : IdData) (average : Q) (scores : list Q)
        (box : option IntBox) (total : nat) (status : nat) :
  detect_and_extract_id_card app (Some (handle_of self)) file
  = (ExtractData flag name detected data average scores box total, status) ->
  status = 200 /\ flag = true
  /\ (exists f, file = Some f /\ name = filename f)
  /\ total = List.length scores
  /\ total = List.length (raw_text data)
  /\ (detected = true <-> box <> None).
Proof.
  unfold detect_and_extract_id_card.
  destruct file as [f|]; [|discriminate].
  destruct (String.eqb (filename f) ""); [discriminate|].
  destruct (negb (allowed_file (filename f))); [discriminate|].
  match goal with |- context [save f ?p] => destruct (save f p); cbn [bind] end;
    [|discriminate].
  cbn [handle_of IDCardApi.process_id_card bind].
  rewrite process_id_card_steps.
  match goal with |- context [crop_id_card ?a ?b ?c] =>
                    destruct (crop_id_card a b c) as [cropped|e] end;
    [|discriminate].
  match goal with |- context [extract_text_with_coordinates ?a ?b ?c] =>
                    destruct (extract_text_with_coordinates a b c) as [raw|e] end;
    [|discriminate].
  intros [= <- <- <- <- <- <- <- <- <-].
  repeat split; try (intros; congruence).
  - now exists f.
  - now rewrite !length_map.
  - rewrite parse_id_card_data_record. cbn [record_of raw_text].
    unfold lines. now rewrite length_map, sorted_length.
  - match goal with |- context [detect_id_card ?a ?b] =>
                      destruct (detect_id_card a b) end; congruence.
  - match goal with |- context [detect_id_card ?a ?b] =>
                      destruct (detect_id_card a b) end; congruence.
Qed.

Lemma extract_data_coherent_witness :
  exists flag name detected data average scores box total status,
    detect_and_extract_id_card Samples.sample_app
      (Some (handle_of Samples.finding_service)) (Some (Samples.upload "front.png"))
    = (ExtractData flag name detected data average scores box total, status)
    /\ total = List.length scores
    /\ total = List.length (raw_text data).
Proof.
  do 9 eexists.
  refine ((fun E =>
             conj E
               ((fun H => conj (proj1 (proj2 (proj2 (proj2 H))))
                               (proj1 (proj2 (proj2 (proj2 (proj2 H))))))
                  (extract_data_coherent Samples.sample_app
                     Samples.finding_service
                     (Some (Samples.upload "front.png"))
                     _ _ _ _ _ _ _ _ _ E))) _).
  vm_compute; reflexivity.
Defined.

(** [/detect-only], once the upload has an accepted name and is saved,
    always answers 200: the body carries what [detect_id_card] returns
    for the saved file, and says "No ID card detected" exactly when
    nothing is detected, a failure of the detector included. *)
Theorem detect_only_answers (app : App) (self : Service) (f : FileStorage)
        (u : unit) :
  valid_name f = true ->
  save f (detect_path app f) = Ok u ->
  exists detected message,
    detect_id_card_only app (Some self) (Some f)
    = (DetectData true (filename f) detected
                  (detect_id_card self (detect_path app f)) message, 200)
    /\ (detected = false <-> nothing_detected self (detect_path app f))
    /\ (message = "No ID card detected" <-> detected = false)
    /\ (message = "ID card detected" <-> detected = true).
Proof.
  unfold valid_name. intros Hv Hs. apply andb_true_iff in Hv as [Hn Ha].
  unfold detect_id_card_only. rewrite Ha.
  apply negb_true_iff in Hn. rewrite Hn. cbn [negb orb].
  fold (detect_path app f). rewrite Hs.
  do 2 eexists. split; [reflexivity|].
  pose proof (detect_none_of_nothing self (detect_path app f)) as Hnone.
  pose proof (nothing_of_detect_none self (detect_path app f)) as Hnothing.
  destruct (detect_id_card self (detect_path app f));
    repeat split; intros; try congruence; auto.
  specialize (Hnone H). discriminate Hnone.
Qed.

Lemma detect_only_answers_witness :
  exists detected message,
    detect_id_card_only Samples.sample_app (Some MoreSamples.shaky_service)
                        (Some (Samples.upload "front.png"))
    = (DetectData true "front.png" detected
                  (detect_id_card MoreSamples.shaky_service
                     (detect_path Samples.sample_app (Samples.upload "front.png")))
                  message, 200)
    /\ (detected = false
        <-> nothing_detected MoreSamples.shaky_service
              (detect_path Samples.sample_app (Samples.upload "front.png")))
    /\ (message = "No ID card detected" <-> detected = false)
    /\ (message = "ID card detected" <-> detected = true).
Proof.
  exact (detect_only_answers Samples.sample_app MoreSamples.shaky_service
                             (Samples.upload "front.png") tt eq_refl eq_refl).
Defined.

(** The status of [/detect-only] and the flag of its body: the status is
    200, 400, 500 or 503 and the flag is on exactly with 200; it is 400
    exactly for a missing file or a rejected name, and 500 only when the
    upload cannot be saved. *)
Theorem detect_only_status (app : App) (id_card_service : option Service)
        (file : option FileStorage) :
  let response := detect_id_card_only app id_card_service file in
  known_status (snd response)
  /\ (detect_body_success (fst response) = true <-> snd response = 200)
  /\ (snd response = 503 <-> id_card_service = None)
  /\ (snd response = 400
      <-> id_card_service <> None
          /\ (file = None \/ exists f, file = Some f /\ valid_name f = false))
  /\ (snd response = 500
      <-> id_card_service <> None
          /\ exists f e, file = Some f /\ valid_name f = true
                         /\ save f (detect_path app f) = Raise e).
Proof.
  cbv zeta. unfold detect_id_card_only, known_status, valid_name.
  destruct id_card_service as [service|]; [|settle].
  destruct file as [f|]; [|settle].
  fold (detect_path app f).
  destruct (String.eqb (filename f) "") eqn:En; cbn [negb orb andb].
  { settle; try (rewrite En in *; discriminate).
    right. exists f. now rewrite En. }
  destruct (allowed_file (filename f)) eqn:Ea; cbn [negb].
  - destruct (save f (detect_path app f)) as [u|e] eqn:Es;
      settle; try (rewrite ?En, ?Ea in *; discriminate).
    exists f, e. now rewrite En, Ea.
  - settle; try (rewrite ?En, ?Ea in *; discriminate).
    right. exists f. now rewrite En, Ea.
Qed.

End EndpointFacts.
